(** * bot-express: the toolkit handed to skills ([module/bot.js])

    A shallow embedding of the parameter machinery of class [Bot]:
    [check_parameter_type], [get_parameter], [apply_parameter],
    [parse_parameter], [add_parameter], [react], [_save_param_change_log],
    [collect] and the flow signals [pause], [exit], [init], [switch_skill].

    JavaScript objects and arrays live in a store and are referred to by
    location, so that two references to one object see each other's
    writes.  The conversation context is a record.  Methods are
    computations in a state-and-exception monad.  The skill's own code
    (parsers, reactions) and the built-in parser registry are parameters
    of the development, and every call into them is recorded.

    The file has four parts: the embedding of the source, the notions the
    statements are written with, example skills and states, and the
    properties with their proofs. *)

From stdpp Require Import gmap strings list fin_maps pretty.
From Stdlib Require Import ZArith Ascii.

Local Open Scope string_scope.

(** ** Values and the object store *)

(** A function value.  [fn_id] is its identity, [fn_name] its [name]
    property and [fn_source] what [toString()] answers. *)
Record fn_ref := FnRef { fn_id : nat; fn_name : string; fn_source : string }.

#[global] Instance fn_ref_eq_dec : EqDecision fn_ref.
Proof. solve_decision. Defined.

(** The built-in prototype objects a property read can answer with:
    [Object.prototype], [Array.prototype], [String.prototype],
    [Number.prototype], [Boolean.prototype] and, for errors named [n],
    [n.prototype] ([Error.prototype], [TypeError.prototype], ...).
    [Function.prototype] is a function and is found among the function
    values, see [function_prototype]. *)
Inductive intrinsic :=
| ObjectPrototype
| ArrayPrototype
| StringPrototype
| NumberPrototype
| BooleanPrototype
| ErrorPrototype (n : string).

#[global] Instance intrinsic_eq_dec : EqDecision intrinsic.
Proof. solve_decision. Defined.

(** JavaScript values.  Objects and arrays are references into the store.
    [VError name message] is an instance of [Error] (or of a subclass such
    as [TypeError], told apart by [name]).  [VNum z] is the number [z];
    numbers that are not integers are not represented.  [VProto p] is the
    built-in prototype object [p]. *)
Inductive value :=
| VUndef
| VNull
| VBool (b : bool)
| VNum (z : Z)
| VStr (s : string)
| VFun (f : fn_ref)
| VRef (l : nat)
| VError (name message : string)
| VProto (p : intrinsic).

#[global] Instance value_eq_dec : EqDecision value.
Proof. solve_decision. Defined.

(** A store cell: an object or an array.  An object is given by the
    properties a read finds on it before its prototype chain reaches
    [Object.prototype]: its own and, for an instance of a class such as
    the skill, the methods of its class.  All of them count as own,
    enumerable data properties.  The key [__proto__] names the prototype
    link and never a property: an entry under it is ignored. *)
Inductive cell :=
| CObj (props : gmap string value)
| CArr (elems : list value).

(** [typeof v] *)
Definition typeof (v : value) : string :=
  match v with
  | VUndef => "undefined"
  | VNull => "object"
  | VBool _ => "boolean"
  | VNum _ => "number"
  | VStr _ => "string"
  | VFun _ => "function"
  | VRef _ => "object"
  | VError _ _ => "object"
  | VProto _ => "object"
  end.

(** The truthiness test of [if (v)], [!v], [a && b], [a || b]. *)
Definition truthy (v : value) : bool :=
  match v with
  | VUndef | VNull => false
  | VBool b => b
  | VNum z => negb (z =? 0)%Z
  | VStr s => negb (String.eqb s "")
  | VFun _ | VRef _ | VError _ _ | VProto _ => true
  end.

(** [typeof v] is ["object"] or ["function"] and [v] is not [null]. *)
Definition is_object (v : value) : bool :=
  match v with
  | VFun _ | VRef _ | VError _ _ | VProto _ => true
  | _ => false
  end.

(** *** What values inherit *)

(** A function of the engine, by its name.  The program never compares
    two of them, and their identities are not told apart. *)
Definition native (name : string) : fn_ref :=
  FnRef 0 name ("function " ++ name ++ "() { [native code] }").

(** [Function.prototype] *)
Definition function_prototype : fn_ref := native "".

(** The methods of the built-in prototypes, as ECMAScript 2017 (the
    edition the source is written in) and its annex B list them; an
    engine may define more on arrays and strings. *)
Definition object_methods : list string :=
  [ "__defineGetter__"; "__defineSetter__"; "__lookupGetter__";
    "__lookupSetter__"; "hasOwnProperty"; "isPrototypeOf";
    "propertyIsEnumerable"; "toLocaleString"; "toString"; "valueOf" ].

Definition array_methods : list string :=
  [ "concat"; "copyWithin"; "entries"; "every"; "fill"; "filter"; "find";
    "findIndex"; "forEach"; "includes"; "indexOf"; "join"; "keys";
    "lastIndexOf"; "map"; "pop"; "push"; "reduce"; "reduceRight"; "reverse";
    "shift"; "slice"; "some"; "sort"; "splice"; "toLocaleString"; "toString";
    "unshift"; "values" ].

Definition string_methods : list string :=
  [ "anchor"; "big"; "blink"; "bold"; "charAt"; "charCodeAt"; "codePointAt";
    "concat"; "endsWith"; "fixed"; "fontcolor"; "fontsize"; "includes";
    "indexOf"; "italics"; "lastIndexOf"; "link"; "localeCompare"; "match";
    "normalize"; "padEnd"; "padStart"; "repeat"; "replace"; "search"; "slice";
    "small"; "split"; "startsWith"; "strike"; "sub"; "substr"; "substring";
    "sup"; "toLocaleLowerCase"; "toLocaleUpperCase"; "toLowerCase";
    "toString"; "toUpperCase"; "trim"; "valueOf" ].

Definition number_methods : list string :=
  [ "toExponential"; "toFixed"; "toLocaleString"; "toPrecision"; "toString";
    "valueOf" ].

Definition boolean_methods : list string := [ "toString"; "valueOf" ].

Definition function_methods : list string :=
  [ "apply"; "bind"; "call"; "toString" ].

Definition error_methods : list string := [ "toString" ].

(** [k] is one of [names]. *)
Definition listed (k : string) (names : list string) : bool :=
  existsb (String.eqb k) names.

(** The read of [k], other than [__proto__], on [Object.prototype]. *)
Definition object_field (k : string) : value :=
  if String.eqb k "constructor" then VFun (native "Object")
  else if listed k object_methods then VFun (native k)
  else VUndef.

(** The read of [k], other than [__proto__], on a prototype that has the
    methods [names] and the constructor named [ctor], and that inherits
    from [Object.prototype]. *)
Definition inherit (names : list string) (ctor : string) (k : string) : value :=
  if String.eqb k "constructor" then VFun (native ctor)
  else if listed k names then VFun (native k)
  else object_field k.

(** The read of [k], other than [__proto__], on the built-in prototype [p]:
    [Array.prototype] is an empty array and [String.prototype] an empty
    string, an error prototype carries [name] and an empty [message]. *)
Definition intrinsic_field (p : intrinsic) (k : string) : value :=
  match p with
  | ObjectPrototype => object_field k
  | ArrayPrototype =>
      if String.eqb k "length" then VNum 0 else inherit array_methods "Array" k
  | StringPrototype =>
      if String.eqb k "length" then VNum 0 else inherit string_methods "String" k
  | NumberPrototype => inherit number_methods "Number" k
  | BooleanPrototype => inherit boolean_methods "Boolean" k
  | ErrorPrototype n =>
      if String.eqb k "name" then VStr n
      else if String.eqb k "message" then VStr ""
      else inherit error_methods n k
  end.

(** The read of [k] on a value that has the own property [own] under [k],
    if any, and the prototype [proto], where a read of [k] answers
    [inherited]. *)
Definition read (own : option value) (proto inherited : value) (k : string)
    : value :=
  if String.eqb k "__proto__" then proto else default inherited own.

(** [param[k]] on an object given by its properties [param], such as the
    one [get_parameter] returns. *)
Definition field (param : gmap string value) (k : string) : value :=
  read (param !! k) (VProto ObjectPrototype) (object_field k) k.

(** The index-named properties of an array: ["0"], ["1"], ... *)
Definition indexed (vs : list value) : gmap string value :=
  list_to_map (imap (λ i v, (pretty i, v)) vs).

(** The characters of a string, one one-character string each. *)
Fixpoint string_chars (s : string) : list value :=
  match s with
  | EmptyString => []
  | String c r => VStr (String c EmptyString) :: string_chars r
  end.

(** Own enumerable properties, as [Object.keys], [Object.assign] and
    [JSON.stringify] see them: the properties of an object, the indices of
    an array or of a string.  Functions, errors, numbers, booleans and the
    built-in prototypes have none. *)
Definition own_props (s : list cell) (v : value) : gmap string value :=
  match v with
  | VRef l =>
      match s !! l with
      | Some (CObj m) => delete "__proto__" m
      | Some (CArr vs) => indexed vs
      | None => ∅
      end
  | VStr t => indexed (string_chars t)
  | _ => ∅
  end.

(** Property read [v[k]] where [v] is not [undefined] or [null] (for
    those it answers [undefined]; [get_prop] below throws instead): an own
    property if there is one, else what the prototype chain gives.
    Arrays and strings have [length], functions [name] (the [length] of
    a function, and the accessors [caller] and [arguments], are not
    held), errors [name] and [message]. *)
Definition get_field (s : list cell) (v : value) (k : string) : value :=
  match v with
  | VUndef | VNull => VUndef
  | VBool _ =>
      read None (VProto BooleanPrototype) (intrinsic_field BooleanPrototype k) k
  | VNum _ =>
      read None (VProto NumberPrototype) (intrinsic_field NumberPrototype k) k
  | VStr t =>
      read (if String.eqb k "length" then Some (VNum (Z.of_nat (String.length t)))
            else indexed (string_chars t) !! k)
        (VProto StringPrototype) (intrinsic_field StringPrototype k) k
  | VFun f =>
      read (if String.eqb k "name" then Some (VStr (fn_name f)) else None)
        (if decide (f = function_prototype) then VProto ObjectPrototype
         else VFun function_prototype)
        (inherit function_methods "Function" k) k
  | VRef l =>
      match s !! l with
      | Some (CObj m) => field m k
      | Some (CArr vs) =>
          read (if String.eqb k "length" then Some (VNum (Z.of_nat (length vs)))
                else indexed vs !! k)
            (VProto ArrayPrototype) (intrinsic_field ArrayPrototype k) k
      | None => VUndef
      end
  | VError n m =>
      read (if String.eqb k "message" then Some (VStr m) else None)
        (VProto (ErrorPrototype n)) (intrinsic_field (ErrorPrototype n) k) k
  | VProto p =>
      read None
        (match p with
         | ObjectPrototype => VNull
         | ErrorPrototype n =>
             if String.eqb n "Error" then VProto ObjectPrototype
             else VProto (ErrorPrototype "Error")
         | _ => VProto ObjectPrototype
         end)
        (intrinsic_field p k) k
  end.

(** ** The conversation context *)

(** [context.previous]: names committed so far, newest first. *)
Record previous_t := Previous {
  prev_confirmed : list string;
  prev_processed : list string
}.

(** One entry of [context.param_change_history]. *)
Record change_log := ChangeLog {
  log_type : string;
  log_name : string;
  log_param : value
}.

(** [context._parent_parameter] *)
Record parent_parameter_t := ParentParameter {
  parent_type : string;
  parent_name : string
}.

(** The fields of [this._context] that [Bot] reads and writes.  [skill] is
    the location of the skill object; [param_change_history] is [None]
    while the field is undefined. *)
Record context := Context {
  skill : nat;
  confirmed : gmap string value;
  to_confirm : list string;
  confirming : value;
  previous : previous_t;
  param_change_history : option (list change_log);
  _pause : value;
  _exit : value;
  _init : value;
  _switch_intent : value;
  _sub_parameter : value;
  _parent_parameter : option parent_parameter_t
}.

Definition set_confirmed (c : context) (m : gmap string value) : context :=
  Context (skill c) m (to_confirm c) (confirming c) (previous c)
    (param_change_history c) (_pause c) (_exit c) (_init c)
    (_switch_intent c) (_sub_parameter c) (_parent_parameter c).

Definition set_to_confirm (c : context) (l : list string) : context :=
  Context (skill c) (confirmed c) l (confirming c) (previous c)
    (param_change_history c) (_pause c) (_exit c) (_init c)
    (_switch_intent c) (_sub_parameter c) (_parent_parameter c).

Definition set_confirming (c : context) (v : value) : context :=
  Context (skill c) (confirmed c) (to_confirm c) v (previous c)
    (param_change_history c) (_pause c) (_exit c) (_init c)
    (_switch_intent c) (_sub_parameter c) (_parent_parameter c).

Definition set_previous (c : context) (p : previous_t) : context :=
  Context (skill c) (confirmed c) (to_confirm c) (confirming c) p
    (param_change_history c) (_pause c) (_exit c) (_init c)
    (_switch_intent c) (_sub_parameter c) (_parent_parameter c).

Definition set_param_change_history (c : context)
    (h : option (list change_log)) : context :=
  Context (skill c) (confirmed c) (to_confirm c) (confirming c) (previous c)
    h (_pause c) (_exit c) (_init c)
    (_switch_intent c) (_sub_parameter c) (_parent_parameter c).

Definition set_pause (c : context) (v : value) : context :=
  Context (skill c) (confirmed c) (to_confirm c) (confirming c) (previous c)
    (param_change_history c) v (_exit c) (_init c)
    (_switch_intent c) (_sub_parameter c) (_parent_parameter c).

Definition set_exit (c : context) (v : value) : context :=
  Context (skill c) (confirmed c) (to_confirm c) (confirming c) (previous c)
    (param_change_history c) (_pause c) v (_init c)
    (_switch_intent c) (_sub_parameter c) (_parent_parameter c).

Definition set_init (c : context) (v : value) : context :=
  Context (skill c) (confirmed c) (to_confirm c) (confirming c) (previous c)
    (param_change_history c) (_pause c) (_exit c) v
    (_switch_intent c) (_sub_parameter c) (_parent_parameter c).

Definition set_switch_intent (c : context) (v : value) : context :=
  Context (skill c) (confirmed c) (to_confirm c) (confirming c) (previous c)
    (param_change_history c) (_pause c) (_exit c) (_init c)
    v (_sub_parameter c) (_parent_parameter c).

(** ** Machine state and the error monad *)

(** What the bot hands to code it does not own. *)
Inductive event :=
| EvCall (f : fn_ref) (args : list value)
| EvBuiltin (parser : string) (v policy : value)
| EvToString (l : nat).

(** The context, the store, and the record of calls made so far (oldest
    first).  Called code sees context and store, never the record. *)
Record state := State {
  ctx : context;
  store : list cell;
  trace : list event
}.

(** A method either returns or throws; either way it leaves a state. *)
Inductive result (A : Type) :=
| Ok (a : A) (st : state)
| Throw (e : value) (st : state).
Arguments Ok {A} a st.
Arguments Throw {A} e st.

Definition M (A : Type) : Type := state → result A.

#[global] Instance M_ret : MRet M := λ A a st, Ok a st.
#[global] Instance M_bind : MBind M := λ A B f m st,
  match m st with
  | Ok a st' => f a st'
  | Throw e st' => Throw e st'
  end.

Definition throw {A} (e : value) : M A := λ st, Throw e st.
Definition get_state : M state := λ st, Ok st st.
Definition modify_ctx (f : context → context) : M unit :=
  λ st, Ok () (State (f (ctx st)) (store st) (trace st)).

(** [new Error(msg)] and the engine's [TypeError] (its message is engine
    specific and left empty). *)
Definition new_Error (msg : string) : value := VError "Error" msg.
Definition TypeError : value := VError "TypeError" "".

(** The double-quote character, for messages that quote a name. *)
Definition dq : string := String "034"%char EmptyString.

(** Property read [v[k]]: reading from [undefined] or [null] throws. *)
Definition get_prop (v : value) (k : string) : M value :=
  match v with
  | VUndef | VNull => throw TypeError
  | _ => λ st, Ok (get_field (store st) v k) st
  end.

(** Allocation of a fresh object or array: the next free location. *)
Definition alloc (c : cell) : M value :=
  λ st, Ok (VRef (length (store st)))
           (State (ctx st) (store st ++ [c])%list (trace st)).

(** Raised by the model where JavaScript goes on in a way the store cannot
    represent (a named property written to an array, a function, an error
    object or a built-in prototype, the prototype of an object replaced, a
    number beyond the safe integers printed).  It is not an outcome of the
    program; no statement below is about a run that reaches it. *)
Definition Unmodelled : value := VError "Unmodelled" "".

(** The write [o.__proto__ = x] on an object that inherits the accessor
    from [Object.prototype]: a primitive other than [null] is ignored, an
    object or [null] becomes the prototype. *)
Definition set_prototype (x : value) : M unit :=
  if is_object x || bool_decide (x = VNull) then throw Unmodelled else mret ().

(** Property write [v[k] = x] in strict mode. *)
Definition set_prop (v : value) (k : string) (x : value) : M unit :=
  match v with
  | VRef l => λ st,
      match store st !! l with
      | Some (CObj m) =>
          if String.eqb k "__proto__" then set_prototype x st
          else
            Ok () (State (ctx st) (<[l := CObj (<[k := x]> m)]> (store st))
                     (trace st))
      | _ => Throw Unmodelled st
      end
  | VFun _ | VError _ _ | VProto _ => throw Unmodelled
  | _ => throw TypeError
  end.

(** [Object.assign(target, src)] on a target held in the store: the own
    properties of [src] are written over those of [target]. *)
Definition object_assign_to (target src : value) : M unit :=
  match target with
  | VUndef | VNull => throw TypeError
  | VRef l => λ st,
      match store st !! l with
      | Some (CObj m) =>
          Ok () (State (ctx st)
                   (<[l := CObj (own_props (store st) src ∪ m)]> (store st))
                   (trace st))
      | _ => Throw Unmodelled st
      end
  | _ => throw Unmodelled
  end.

(** [Array.isArray(v)] *)
Definition is_array (s : list cell) (v : value) : bool :=
  match v with
  | VRef l => match s !! l with Some (CArr _) => true | _ => false end
  | VProto ArrayPrototype => true
  | _ => false
  end.

(** In-place update of the array behind [a] ([unshift], [push]). *)
Definition array_update (a : value) (f : list value → list value) : M unit :=
  match a with
  | VRef l => λ st,
      match store st !! l with
      | Some (CArr vs) =>
          Ok () (State (ctx st) (<[l := CArr (f vs)]> (store st)) (trace st))
      | _ => Throw TypeError st
      end
  | VProto ArrayPrototype => throw Unmodelled
  | _ => throw TypeError
  end.

Definition array_unshift (a x : value) : M unit := array_update a (λ vs, x :: vs).
Definition array_push (a x : value) : M unit := array_update a (λ vs, (vs ++ [x])%list).

(** [l.indexOf(x)], [None] for [-1]. *)
Fixpoint index_of (x : string) (l : list string) : option nat :=
  match l with
  | [] => None
  | y :: r => if String.eqb y x then Some 0 else S <$> index_of x r
  end.

(** [i = l.indexOf(x); if (i !== -1) l.splice(i, 1)] *)
Definition remove_first (x : string) (l : list string) : list string :=
  match index_of x l with
  | Some i => delete i l
  | None => l
  end.

(** A parameter left out of a call (or passed as [undefined]) takes its
    default. *)
Definition or_default (d v : value) : value :=
  match v with VUndef => d | _ => v end.

(** ** Code the bot does not own *)

(** How a call into foreign code ends. *)
Inductive completion :=
| Returned (v : value)
| Thrown (e : value).

(** Foreign code sees the context and the store and may change both. *)
Definition foreign : Type :=
  context → list cell → completion * context * list cell.

(** The environment of a [Bot]:
    - [call f args]: the behaviour of the skill's function [f].  A parser
      is called as [parser(value, bot, event, context)] and a reaction as
      [reaction(error, value, bot, event, context)]; [args] holds the
      leading data arguments, and the bot and the context are what
      [foreign] gives access to.  An [await]ed promise is represented by
      its settlement: fulfilled is [Returned], rejected is [Thrown].
    - [builtin_parser]: the registry [bot.builtin_parser], by the names
      of its parsers; [parse(value, policy)] of an entry is code of its
      own, which accepts or rejects and may write to what it can reach.
    - [ref_toString l]: the conversion to a string of the object or array
      at [l] ([Object.prototype.toString], [Array.prototype.toString] or
      the object's own method): it answers a string or throws.
    - [stack_limit]: how deep the engine lets [JSON.stringify] nest before
      it gives up with a [RangeError]. *)
Record env := Env {
  call : fn_ref → list value → foreign;
  builtin_parser : gmap string (value → value → foreign);
  ref_toString : nat → foreign;
  stack_limit : nat
}.

Section Bot.

Variable E : env.

(** Run foreign code and record the call. *)
Definition run_foreign (ev : event) (f : foreign) : M value :=
  λ st,
    let '(r, c, s) := f (ctx st) (store st) in
    let st' := State c s (trace st ++ [ev])%list in
    match r with
    | Returned v => Ok v st'
    | Thrown e => Throw e st'
    end.

(** [v(args...)]: calling what is not a function throws. *)
Definition call_value (v : value) (args : list value) : M value :=
  match v with
  | VFun f => run_foreign (EvCall f args) (call E f args)
  | _ => throw TypeError
  end.

(** The safe integers: the numbers whose decimal digits are the digits of
    the integer. *)
Definition safe_integer (z : Z) : bool := (Z.abs z <=? 2 ^ 53)%Z.

(** [v.toString()].  An integer prints as its digits; beyond the safe
    integers what prints is decided by the floating-point value (and turns
    to exponent notation from [1e21]), which the model does not hold. *)
Definition to_string (v : value) : M value :=
  match v with
  | VUndef | VNull => throw TypeError
  | VBool b => mret (VStr (if b then "true" else "false"))
  | VNum z => if safe_integer z then mret (VStr (pretty z)) else throw Unmodelled
  | VStr s => mret (VStr s)
  | VFun f => mret (VStr (fn_source f))
  | VRef l => run_foreign (EvToString l) (ref_toString E l)
  | VError n m =>
      mret (VStr (if String.eqb n "" then m
                  else if String.eqb m "" then n
                  else n ++ ": " ++ m))
  | VProto ObjectPrototype => mret (VStr "[object Object]")
  | VProto ArrayPrototype | VProto StringPrototype => mret (VStr "")
  | VProto NumberPrototype => mret (VStr "0")
  | VProto BooleanPrototype => mret (VStr "false")
  | VProto (ErrorPrototype n) => mret (VStr n)
  end.

(** The conversion of [v] to a string in a template literal or to a
    property key: [undefined] and [null] have names, every other value is
    asked for its string. *)
Definition ToString (v : value) : M value :=
  match v with
  | VUndef => mret (VStr "undefined")
  | VNull => mret (VStr "null")
  | _ => to_string v
  end.

(** A built-in parser at work. *)
Definition run_builtin (p : value → value → foreign)
    (key : string) (v pol : value) : M value :=
  run_foreign (EvBuiltin key v pol) (p v pol).

(** [this.builtin_parser[key].parse(value, policy)]: the callee is looked
    up first, then the argument [policy] is evaluated, then the parser
    runs.  Where the registry has no parser under [key] the call throws:
    at once when [this.builtin_parser[key]] is [undefined], and after the
    arguments when [key] is a name that every object inherits, which
    answers a function without a [parse] method. *)
Definition builtin_parse (key : string) (v : value) (policy : M value)
    : M value :=
  match builtin_parser E !! key with
  | None =>
      if truthy (field ∅ key) then policy;; throw TypeError
      else throw TypeError
  | Some p =>
      pol ← policy;
      run_builtin p key v pol
  end.

(** *** The log line of a value *)

(** [RangeError], raised by the engine when calls nest too deep. *)
Definition RangeError : value := VError "RangeError" "".

(** [f(x)] for each [x] of [l], in order. *)
Definition for_each {A} (f : A → M unit) (l : list A) : M unit :=
  foldr (λ x rest, f x;; rest) (mret ()) l.

(** The walk [JSON.stringify] makes over the property [key], of value
    [v], of an object; [stack] holds the objects and arrays the walk is
    inside of.  An object that has a method [toJSON] is replaced by what
    the method answers (it is called on the object, which is the first
    element of the arguments recorded, with the key).  An object or array
    met inside itself is a [TypeError].  The text produced is not held:
    the source passes it to the logger.  Properties are visited in the
    order the map lists them (the order they were created in is not
    held); it shows in the order of the calls of [toJSON] only. *)
Fixpoint serialize (depth : nat) (stack : list nat) (key : string) (v : value)
    : M unit :=
  match depth with
  | 0 => throw RangeError
  | S depth =>
      v ← (if is_object v then
             toJSON ← get_prop v "toJSON";
             if String.eqb (typeof toJSON) "function" then
               call_value toJSON [v; VStr key]
             else mret v
           else mret v);
      match v with
      | VRef l =>
          st ← get_state;
          match store st !! l with
          | None => mret ()
          | Some c =>
              if bool_decide (l ∈ stack) then throw TypeError
              else
                for_each
                  (λ k, x ← get_prop (VRef l) k;
                        serialize depth (l :: stack) k x)
                  (match c with
                   | CObj m => (map_to_list (delete "__proto__" m)).*1
                   | CArr vs => pretty <$> seq 0 (length vs)
                   end)
          end
      | _ => mret ()
      end
  end.

(** [JSON.stringify(v)], for what it does besides answering a text. *)
Definition json_stringify (v : value) : M unit :=
  serialize (stack_limit E) [] "" v.

(** *** Flow signals *)

Definition pause : M unit := modify_ctx (λ c, set_pause c (VBool true)).
Definition exit : M unit := modify_ctx (λ c, set_exit c (VBool true)).
Definition init : M unit := modify_ctx (λ c, set_init c (VBool true)).

Definition switch_skill (intent : value) : M unit :=
  exit;;
  n ← get_prop intent "name";
  if negb (truthy n && String.eqb (typeof n) "string") then
    throw (new_Error
      "Required parameter: 'name' for switch_skill() should be set and string.")
  else
    modify_ctx (λ c, set_switch_intent c intent).

(** *** Parameter registry *)

(** [this._context.skill[k]] *)
Definition skill_field (st : state) (k : string) : value :=
  get_field (store st) (VRef (skill (ctx st))) k.

(** [skill[container] && skill[container][param_name]], as a condition. *)
Definition in_container (st : state) (container param_name : string) : bool :=
  truthy (skill_field st container)
  && truthy (get_field (store st) (skill_field st container) param_name).

Definition check_parameter_type (st : state) (param_name : string) : string :=
  if in_container st "required_parameter" param_name then "required_parameter"
  else if in_container st "optional_parameter" param_name then "optional_parameter"
  else if in_container st "dynamic_parameter" param_name then "dynamic_parameter"
  else if truthy (_sub_parameter (ctx st)) then "sub_parameter"
  else "not_applicable".

Definition not_found_message (param_name : string) : string :=
  "Paramter: " ++ dq ++ param_name ++ dq ++ " not found in skill.".

(** The object [get_parameter] builds is fresh and handed to the caller
    alone; it is given by its properties. *)
Definition get_parameter (param_name : string) : M (gmap string value) :=
  st ← get_state;
  let type := check_parameter_type st param_name in
  let param : gmap string value :=
    <["type" := VStr type]> (<["name" := VStr param_name]> ∅) in
  if String.eqb type "not_applicable" then
    throw (new_Error (not_found_message param_name))
  else if String.eqb type "sub_parameter" then
    match _parent_parameter (ctx st) with
    | None => throw TypeError
    | Some p =>
        c ← get_prop (VRef (skill (ctx st))) (parent_type p);
        d ← get_prop c (parent_name p);
        sp ← get_prop d "sub_parameter";
        def ← get_prop sp param_name;
        mret (own_props (store st) def ∪ param)
    end
  else
    c ← get_prop (VRef (skill (ctx st))) type;
    def ← get_prop c param_name;
    mret (own_props (store st) def ∪ param).

(** *** Parser dispatcher *)

Definition invalid_parser_object_message : string :=
  "Parser object is invalid. Required property: " ++ dq ++ "type" ++ dq
  ++ " not found.".

(** The dispatch on the shape of a parser that was found.  For a parser
    object, [parser.type] is read three times: for the test, for the log
    line, which converts it to a string, and for the look-up in the
    registry, which converts it again. *)
Definition run_parser (param_name : string) (parser param_value : value)
    : M value :=
  if String.eqb (typeof parser) "function" then
    call_value parser [param_value]
  else if String.eqb (typeof parser) "string" then
    match parser with
    | VStr k =>
        builtin_parse k param_value
          (alloc (CObj {["parameter_name" := VStr param_name]}))
    | _ => throw TypeError
    end
  else if String.eqb (typeof parser) "object" then
    t ← get_prop parser "type";
    if negb (truthy t) then
      throw (new_Error invalid_parser_object_message)
    else
      t ← get_prop parser "type";
      ToString t;;
      p0 ← get_prop parser "policy";
      (if negb (truthy p0) then
         o ← alloc (CObj ∅);
         set_prop parser "policy" o
       else mret ());;
      policy ← get_prop parser "policy";
      pn ← get_prop policy "parameter_name";
      set_prop policy "parameter_name"
        (if truthy pn then pn else VStr param_name);;
      t ← get_prop parser "type";
      key ← ToString t;
      match key with
      | VStr k => builtin_parse k param_value (get_prop parser "policy")
      | _ => throw TypeError
      end
  else
    throw (new_Error
      ("Parser for the parameter: " ++ param_name ++ " is invalid.")).

(** [param_value === undefined || param_value === null || param_value === ""] *)
Definition is_unset (v : value) : bool :=
  match v with
  | VUndef | VNull => true
  | VStr s => String.eqb s ""
  | _ => false
  end.

Definition parse_parameter (param_name : string) (param_value strict : value)
    : M value :=
  let strict := or_default (VBool false) strict in
  json_stringify param_value;;
  param ← get_parameter param_name;
  st ← get_state;
  if truthy (field param "parser") then
    run_parser param_name (field param "parser") param_value
  else if truthy (skill_field st ("parse_" ++ param_name)) then
    run_parser param_name (skill_field st ("parse_" ++ param_name)) param_value
  else if truthy strict then
    throw (new_Error "Parser not found.")
  else if is_unset param_value then
    throw (new_Error "Value is not set.")
  else
    mret param_value.

(** *** Confirmation store *)

(** [this._context.confirmed[k] = x]; [confirmed] is an object of its own
    kind in the context, with the prototype of every object. *)
Definition set_confirmed_prop (k : string) (x : value) : M unit :=
  if String.eqb k "__proto__" then set_prototype x
  else modify_ctx (λ c, set_confirmed c (<[k := x]> (confirmed c))).

Definition add_parameter (param_name : string) (param_value is_change : value)
    : M unit :=
  let is_change := or_default (VBool false) is_change in
  json_stringify param_value;;
  param ← get_parameter param_name;
  let list := field param "list" in
  (if truthy list then
     if negb (String.eqb (typeof list) "boolean"
              || String.eqb (typeof list) "object") then
       throw (new_Error "list property should be boolean or object.")
     else
       st ← get_state;
       (if negb (is_array (store st) (field (confirmed (ctx st)) param_name))
        then
          a ← alloc (CArr []);
          set_confirmed_prop param_name a
        else mret ());;
       st ← get_state;
       let arr := field (confirmed (ctx st)) param_name in
       if decide (list = VBool true) then array_unshift arr param_value
       else if decide (get_field (store st) list "order" = VStr "new") then
         array_unshift arr param_value
       else if decide (get_field (store st) list "order" = VStr "old") then
         array_push arr param_value
       else array_unshift arr param_value
   else
     set_confirmed_prop param_name param_value);;
  (if negb (truthy is_change) then
     modify_ctx (λ c, set_previous c
       (Previous (param_name :: prev_confirmed (previous c))
                 (param_name :: prev_processed (previous c))))
   else mret ());;
  modify_ctx (λ c, set_to_confirm c (remove_first param_name (to_confirm c)));;
  modify_ctx (λ c,
    if decide (confirming c = VStr param_name) then set_confirming c VNull
    else c).

(** *** Reaction dispatcher *)

Definition react (error : value) (param_name : string) (param_value : value)
    : M unit :=
  st ← get_state;
  if truthy (_pause (ctx st)) || truthy (_exit (ctx st)) || truthy (_init (ctx st))
  then mret ()
  else
    param ← get_parameter param_name;
    st ← get_state;
    if truthy (field param "reaction") then
      call_value (field param "reaction") [error; param_value];; mret ()
    else if truthy (skill_field st ("reaction_" ++ param_name)) then
      call_value (skill_field st ("reaction_" ++ param_name)) [error; param_value];;
      mret ()
    else mret ().

(** *** The entry point *)

(** [try { v = await parse_parameter(..) } catch (e) { if (e.name === "Error")
    parse_error = e; else throw e; }]: the pair is the value to go on with
    and [parse_error]. *)
Definition try_parse (param_name : string) (param_value : value)
    : M (value * value) :=
  λ st,
    match parse_parameter param_name param_value VUndef st with
    | Ok v st' => Ok (v, VUndef) st'
    | Throw e st' =>
        match get_prop e "name" st' with
        | Ok n st'' =>
            if decide (n = VStr "Error") then Ok (param_value, e) st''
            else Throw e st''
        | Throw e' st'' => Throw e' st''
        end
    end.

Definition apply_parameter (param_name : string)
    (param_value parse react_ : value) : M unit :=
  let parse := or_default (VBool false) parse in
  let react_ := or_default (VBool true) react_ in
  r ← (if truthy parse then try_parse param_name param_value
       else mret (param_value, VUndef));
  add_parameter param_name r.1 VUndef;;
  if truthy react_ then react r.2 param_name r.1 else mret ().

(** *** Change log *)

(** [if (typeof param[k] === "function") param[k] = param[k].toString()] *)
Definition stringify_if_function (param : value) (k : string) : M unit :=
  v ← get_prop param k;
  if String.eqb (typeof v) "function" then
    s ← to_string v;
    set_prop param k s
  else mret ().

Definition _save_param_change_log (param_type param_name : string)
    (param_orig : value) : M unit :=
  st ← get_state;
  param ← alloc (CObj (own_props (store st) param_orig));
  (match param_change_history (ctx st) with
   | None => modify_ctx (λ c, set_param_change_history c (Some []))
   | Some _ => mret ()
   end);;
  message ← get_prop param "message";
  message_to_confirm ← get_prop param "message_to_confirm";
  (if truthy message || truthy message_to_confirm then
     if truthy message && String.eqb (typeof message) "function" then
       s ← to_string message;
       set_prop param "message" s
     else if truthy message_to_confirm
             && String.eqb (typeof message_to_confirm) "function" then
       s ← to_string message_to_confirm;
       set_prop param "message" s
     else mret ()
   else mret ());;
  condition ← get_prop param "condition";
  (if truthy condition then stringify_if_function param "condition"
   else mret ());;
  parser ← get_prop param "parser";
  (if truthy parser then stringify_if_function param "parser"
   else mret ());;
  reaction ← get_prop param "reaction";
  (if truthy reaction then
     s ← to_string reaction;
     set_prop param "reaction" s
   else mret ());;
  modify_ctx (λ c, set_param_change_history c
    (Some (ChangeLog param_type param_name param
           :: default [] (param_change_history c)))).

(** *** Collection queue *)

Definition malformed_container : value :=
  VStr "Malformed parameter container object. You can pass just 1 parameter.".

(** The object form of [collect]: merge the one entry of the container into
    the skill and log the change; answers the parameter's name. *)
Definition collect_container (arg : value) : M string :=
  match arg with
  | VNull => throw TypeError
  | _ =>
      st ← get_state;
      match map_to_list (own_props (store st) arg) with
      | [(param_name, def)] =>
          (if in_container st "required_parameter" param_name then
             object_assign_to (skill_field st "required_parameter") arg;;
             _save_param_change_log "required_parameter" param_name def
           else if in_container st "optional_parameter" param_name then
             object_assign_to (skill_field st "optional_parameter") arg;;
             _save_param_change_log "optional_parameter" param_name def
           else
             (if decide (skill_field st "dynamic_parameter" = VUndef) then
                o ← alloc (CObj ∅);
                set_prop (VRef (skill (ctx st))) "dynamic_parameter" o
              else mret ());;
             st' ← get_state;
             object_assign_to (skill_field st' "dynamic_parameter") arg;;
             _save_param_change_log "dynamic_parameter" param_name def);;
          mret param_name
      | _ => throw malformed_container
      end
  end.

Definition collect (arg options : value) : M unit :=
  options ← (match options with
             | VUndef => alloc (CObj ∅)
             | _ => mret options
             end);
  dedup ← get_prop options "dedup";
  (if decide (dedup = VUndef ∨ dedup = VNull) then
     set_prop options "dedup" (VBool true)
   else mret ());;
  param_name ← (match arg with
                | VStr s => mret s
                | _ =>
                    if String.eqb (typeof arg) "object" then collect_container arg
                    else throw (new_Error "Invalid argument.")
                end);
  dedup ← get_prop options "dedup";
  modify_ctx (λ c,
    if bool_decide (is_Some (index_of param_name (to_confirm c))) && truthy dedup
    then set_to_confirm c (remove_first param_name (to_confirm c))
    else c);;
  modify_ctx (λ c, set_to_confirm c (param_name :: to_confirm c)).

End Bot.

(** * Notions used by the statements *)

(** The state a run ends in, whether it returned or threw. *)
Definition final_state {A} (r : result A) : state :=
  match r with
  | Ok _ st => st
  | Throw _ st => st
  end.

(** The container is missing ([undefined] or [null]), or it is an object
    that neither holds [n] nor inherits it: the read [skill[container][n]]
    answers [undefined]. *)
Definition absent_from (st : state) (container n : string) : Prop :=
  match skill_field st container with
  | VUndef | VNull => True
  | VRef l =>
      match store st !! l with
      | Some (CObj m) => field m n = VUndef
      | _ => False
      end
  | _ => False
  end.

(** What [get_parameter] copies from for a sub-parameter,
    [skill[parent.type][parent.name].sub_parameter[n]], read without
    failing: [undefined] when the path or the entry is missing. *)
Definition sub_parameter_entry (st : state) (n : string) : value :=
  match _parent_parameter (ctx st) with
  | None => VUndef
  | Some p =>
      get_field (store st)
        (get_field (store st)
           (get_field (store st) (skill_field st (parent_type p)) (parent_name p))
           "sub_parameter")
        n
  end.

(** [st] with [_exit] raised, as [exit()] leaves it. *)
Definition with_exit (st : state) : state :=
  State (set_exit (ctx st) (VBool true)) (store st) (trace st).

(** [st] with [_switch_intent] recorded. *)
Definition with_switch_intent (st : state) (intent : value) : state :=
  State (set_switch_intent (ctx st) intent) (store st) (trace st).

(** A string that is not empty. *)
Definition is_nonempty_string (v : value) : bool :=
  match v with
  | VStr s => negb (String.eqb s "")
  | _ => false
  end.

(** [undefined] or [null]. *)
Definition is_nullish (v : value) : bool :=
  match v with
  | VUndef | VNull => true
  | _ => false
  end.

Definition switch_skill_error : value :=
  new_Error
    "Required parameter: 'name' for switch_skill() should be set and string.".

(** How many times [x] occurs in [l]. *)
Fixpoint occurrences (x : string) (l : list string) : nat :=
  match l with
  | [] => 0
  | y :: r => (if String.eqb y x then 1 else 0) + occurrences x r
  end.

(** [collect(x); collect(x)], both with the default options. *)
Definition collect_twice (E : env) (x : string) : M unit :=
  collect E (VStr x) VUndef;; collect E (VStr x) VUndef.

(** The elements of [m[name]] when it is an array of the store [s]. *)
Definition array_at (m : gmap string value) (s : list cell) (name : string)
    : option (list value) :=
  match m !! name with
  | Some (VRef l) =>
      match s !! l with
      | Some (CArr vs) => Some vs
      | _ => None
      end
  | _ => None
  end.

(** The elements of [confirmed[name]] when it is an array. *)
Definition confirmed_list (st : state) (name : string) : option (list value) :=
  array_at (confirmed (ctx st)) (store st) name.

(** The context [add_parameter(name, _, is_change)] leaves, given the
    [confirmed] map [m] it arrived at: [name] prepended to both histories
    unless [is_change], one occurrence of [name] out of [to_confirm], and
    [confirming] cleared if it was [name]. *)
Definition committed_context (c : context) (m : gmap string value)
    (name : string) (is_change : value) : context :=
  Context (skill c) m
    (remove_first name (to_confirm c))
    (if decide (confirming c = VStr name) then VNull else confirming c)
    (if truthy (or_default (VBool false) is_change) then previous c
     else Previous (name :: prev_confirmed (previous c))
                   (name :: prev_processed (previous c)))
    (param_change_history c) (_pause c) (_exit c) (_init c)
    (_switch_intent c) (_sub_parameter c) (_parent_parameter c).

(** A reference points into the store; other values need nothing. *)
Definition live (s : list cell) (v : value) : Prop :=
  match v with
  | VRef l => l < length s
  | _ => True
  end.

(** [typeof list] is ["boolean"] or ["object"], the test [add_parameter]
    makes on a truthy [list]. *)
Definition list_type_ok (list : value) : bool :=
  String.eqb (typeof list) "boolean" || String.eqb (typeof list) "object".

Definition list_type_error : value :=
  new_Error "list property should be boolean or object.".

(** [typeof v === "function"] *)
Definition is_function (v : value) : bool :=
  match v with
  | VFun _ => true
  | _ => false
  end.

(** A function becomes its source text; any other value stays. *)
Definition source_text (v : value) : value :=
  match v with
  | VFun f => VStr (fn_source f)
  | _ => v
  end.

(** The properties of a change-log record's [param], read off the
    properties [m] of the definition it was made from: a function under
    [message], [condition], [parser] or [reaction] is replaced by its
    source text; when [message] is not a function and [message_to_confirm]
    is one, [message] is the source text of [message_to_confirm]; every
    other property is as in [m]. *)
Definition logged_lookup (m : gmap string value) (k : string) : option value :=
  if String.eqb k "message" then
    match field m "message", field m "message_to_confirm" with
    | VFun f, _ => Some (VStr (fn_source f))
    | _, VFun g => Some (VStr (fn_source g))
    | _, _ => m !! "message"
    end
  else if String.eqb k "condition" || String.eqb k "parser"
          || String.eqb k "reaction"
  then source_text <$> m !! k
  else m !! k.

(** The properties after the [message] block of [_save_param_change_log]. *)
Definition message_logged (m : gmap string value) : gmap string value :=
  match field m "message", field m "message_to_confirm" with
  | VFun f, _ => <["message" := VStr (fn_source f)]> m
  | _, VFun g => <["message" := VStr (fn_source g)]> m
  | _, _ => m
  end.

(** The properties after [param[k]], if a function, was replaced by its
    source text. *)
Definition stringified (k : string) (m : gmap string value) : gmap string value :=
  match field m k with
  | VFun f => <[k := VStr (fn_source f)]> m
  | _ => m
  end.

(** [param[k]] of the newest change-log record. *)
Definition newest_logged (st : state) (k : string) : value :=
  match param_change_history (ctx st) with
  | Some (r :: _) => get_field (store st) (log_param r) k
  | _ => VUndef
  end.

(** The entry of the skill that [get_parameter] copies from:
    [skill[type][name]], or the sub-parameter entry under the parent. *)
Definition stored_definition (st : state) (name : string) : value :=
  if String.eqb (check_parameter_type st name) "sub_parameter" then
    sub_parameter_entry st name
  else
    get_field (store st) (skill_field st (check_parameter_type st name)) name.

(** The values [check_parameter_type] and [get_parameter] read through on
    their way to a definition: the skill, its three containers, the parent
    parameter's container, definition and sub-parameter container when a
    parent is set, and the definition itself. *)
Definition registry_path (st : state) (name : string) : list value :=
  ([ VRef (skill (ctx st));
     skill_field st "required_parameter";
     skill_field st "optional_parameter";
     skill_field st "dynamic_parameter" ]
   ++ match _parent_parameter (ctx st) with
      | Some p =>
          [ skill_field st (parent_type p);
            get_field (store st) (skill_field st (parent_type p)) (parent_name p);
            get_field (store st)
              (get_field (store st) (skill_field st (parent_type p))
                 (parent_name p))
              "sub_parameter" ]
      | None => []
      end
   ++ [ stored_definition st name ])%list.

(** The store [s'] holds at [v] what [s] holds. *)
Definition same_cell (s s' : list cell) (v : value) : Prop :=
  match v with
  | VRef l => s' !! l = s !! l
  | _ => True
  end.

(** [parser.policy.parameter_name] of the parser object at [pl]. *)
Definition policy_parameter_name (s : list cell) (pl : nat) : value :=
  get_field s (get_field s (VRef pl) "policy") "parameter_name".

(** The parser configured for a parameter: the definition's [parser] if
    there is one, else the skill's [parse_<name>]; a falsy answer means
    that no parser is configured. *)
Definition configured_parser (st : state) (param : gmap string value)
    (param_name : string) : value :=
  if truthy (field param "parser") then field param "parser"
  else skill_field st ("parse_" ++ param_name).

(** * Example skills and states *)

(** A skill with one required parameter [param_a] that has one
    sub-parameter [sub_x], while [param_a]'s sub-parameters are being
    collected. *)
Definition sub_skill_store : list cell :=
  [ CObj {[ "required_parameter" := VRef 1 ]};
    CObj {[ "param_a" := VRef 2 ]};
    CObj {[ "sub_parameter" := VRef 3 ]};
    CObj {[ "sub_x" := VRef 4 ]};
    CObj ∅ ].

Definition sub_skill_state : state :=
  State
    (Context 0 ∅ [] VNull (Previous [] []) None VUndef VUndef VUndef VUndef
       (VBool true) (Some (ParentParameter "required_parameter" "param_a")))
    sub_skill_store [].

Definition plain_skill_state : state :=
  State
    (Context 0 ∅ [] VNull (Previous [] []) None VUndef VUndef VUndef VUndef
       VUndef None)
    sub_skill_store [].


(** An environment whose functions return [undefined] and touch nothing,
    with no built-in parser registered, on an engine that lets
    [JSON.stringify] nest a thousand deep. *)
Definition quiet_env : env :=
  Env (λ _ _ c s, (Returned VUndef, c, s))
      ∅
      (λ _ c s, (Returned (VStr "[object Object]"), c, s))
      1000.

(** [plain_skill_state] after the skill called [bot.exit()]. *)
Definition exited_state : state := final_state (exit plain_skill_state).

(** The intent [{name: "s"}], allocated after the skill's objects. *)
Definition intent_store : list cell :=
  (sub_skill_store ++ [CObj {[ "name" := VStr "s" ]}])%list.

Definition intent_state : state :=
  State (ctx plain_skill_state) intent_store [].

(** The intent [{}]. *)
Definition empty_intent_state : state :=
  State (ctx plain_skill_state) (sub_skill_store ++ [CObj ∅])%list [].

(** [plain_skill_state], its queue empty, with the options object
    [{dedup: false}] at 5. *)
Definition dedup_off_state : state :=
  State (ctx plain_skill_state)
    (sub_skill_store ++ [CObj {[ "dedup" := VBool false ]}])%list [].

(** [collect("x", {dedup: false})] twice: the queue now holds ["x"] twice. *)
Definition queued_twice_state : state :=
  final_state ((collect quiet_env (VStr "x") (VRef 5);;
                collect quiet_env (VStr "x") (VRef 5)) dedup_off_state).

(** What [get_parameter("param_a")] returns in [plain_skill_state]. *)
Definition param_a_object : gmap string value :=
  <["sub_parameter" := VRef 3]>
    (<["type" := VStr "required_parameter"]> {[ "name" := VStr "param_a" ]}).

(** [plain_skill_state] while [param_a] is being asked for. *)
Definition asking_state : state :=
  State
    (Context 0 ∅ ["param_b"; "param_a"] (VStr "param_a") (Previous [] []) None
       VUndef VUndef VUndef VUndef VUndef None)
    sub_skill_store [].

(** [asking_state] after [collect("param_a", {dedup: false})] queued
    [param_a] once more. *)
Definition requeued_state : state :=
  State
    (Context 0 ∅ ["param_a"; "param_b"; "param_a"] (VStr "param_a")
       (Previous [] []) None VUndef VUndef VUndef VUndef VUndef None)
    sub_skill_store [].

(** [plain_skill_state] while [param_a] is queued, with one more object in
    the store: at 5 an object [o] with [o.self === o]. *)
Definition circular_state : state :=
  State
    (Context 0 ∅ ["param_a"] VNull (Previous [] []) None
       VUndef VUndef VUndef VUndef VUndef None)
    (sub_skill_store ++ [CObj {[ "self" := VRef 5 ]}])%list [].

(** A skill with four list parameters:
    [newest: {list: {order: "new"}}], [oldest: {list: {order: "old"}}],
    [flag: {list: true}] and [count: {list: 1}]. *)
Definition list_skill_store : list cell :=
  [ CObj {[ "required_parameter" := VRef 1 ]};
    CObj (<["newest" := VRef 2]> (<["oldest" := VRef 4]>
            (<["flag" := VRef 6]> {[ "count" := VRef 7 ]})));
    CObj {[ "list" := VRef 3 ]};
    CObj {[ "order" := VStr "new" ]};
    CObj {[ "list" := VRef 5 ]};
    CObj {[ "order" := VStr "old" ]};
    CObj {[ "list" := VBool true ]};
    CObj {[ "list" := VNum 1 ]} ].

Definition list_skill_state : state :=
  State
    (Context 0 ∅ [] VNull (Previous [] []) None VUndef VUndef VUndef VUndef
       VUndef None)
    list_skill_store [].

(** [list_skill_state] with one more object in the store: at 8 an object
    [o] with [o.self === o]. *)
Definition circular_list_state : state :=
  State (ctx list_skill_state)
    (list_skill_store ++ [CObj {[ "self" := VRef 8 ]}])%list [].

(** What [get_parameter] returns for [oldest] in [list_skill_state]. *)
Definition oldest_object : gmap string value :=
  <["list" := VRef 5]>
    (<["type" := VStr "required_parameter"]> {[ "name" := VStr "oldest" ]}).

(** [add_parameter(name, "a"); add_parameter(name, "b")] *)
Definition commit_a_then_b (name : string) : M unit :=
  add_parameter quiet_env name (VStr "a") VUndef;;
  add_parameter quiet_env name (VStr "b") VUndef.

(** Two functions of a skill. *)
Definition message_fn : fn_ref :=
  FnRef 1 "" "async (bot, event, context) => ({type: 'text', text: 'param a?'})".

Definition parser_fn : fn_ref :=
  FnRef 2 "" "async (value, bot, event, context) => value".

(** [plain_skill_state] with three more objects in the store:
    at 5 the message object [{type: "text", text: "param a?"}],
    at 6 the definition [{message: <object 5>, message_to_confirm: message_fn}],
    at 7 the definition [{message: message_fn, parser: parser_fn, list: true}]. *)
Definition definitions_state : state :=
  State (ctx plain_skill_state)
    (sub_skill_store
     ++ [ CObj (<["type" := VStr "text"]> {[ "text" := VStr "param a?" ]});
          CObj (<["message" := VRef 5]>
                  {[ "message_to_confirm" := VFun message_fn ]});
          CObj (<["message" := VFun message_fn]>
                  (<["parser" := VFun parser_fn]> {[ "list" := VBool true ]})) ])%list
    [].

(** A parser that accepts numbers and rejects everything else with an
    [Error], and a reaction that does nothing. *)
Definition number_parser : fn_ref :=
  FnRef 3 "" "async (value) => { if (isNaN(value)) throw new Error('should be number'); return value; }".

Definition quiet_reaction : fn_ref :=
  FnRef 4 "" "async (error, value, bot, event, context) => {}".

Definition number_env : env :=
  Env (λ f args c s,
         if decide (f = number_parser) then
           match args with
           | [VNum z] => (Returned (VNum z), c, s)
           | _ => (Thrown (new_Error "should be number"), c, s)
           end
         else (Returned VUndef, c, s))
      ∅
      (λ _ c s, (Returned (VStr "[object Object]"), c, s))
      1000.

(** A skill whose required parameter [param_b] has that parser and that
    reaction, at the moment the user is asked for [param_b]. *)
Definition number_skill_store : list cell :=
  [ CObj {[ "required_parameter" := VRef 1 ]};
    CObj {[ "param_b" := VRef 2 ]};
    CObj (<["parser" := VFun number_parser]>
            {[ "reaction" := VFun quiet_reaction ]}) ].

Definition number_skill_state : state :=
  State
    (Context 0 ∅ ["param_b"] (VStr "param_b") (Previous [] []) None
       VUndef VUndef VUndef VUndef VUndef None)
    number_skill_store [].

(** An environment whose registry holds one built-in parser,
    ["dialogflow"], which accepts every value as it is. *)
Definition dialogflow_env : env :=
  Env (λ _ _ c s, (Returned VUndef, c, s))
      {[ "dialogflow" := λ v _ c s, (Returned v, c, s) ]}
      (λ _ c s, (Returned (VStr "[object Object]"), c, s))
      1000.

(** A skill whose required parameter [pizza] is
    [{parser: {type: "dialogflow"}}]: the definition is at 2 and the
    parser object at 3. *)
Definition object_parser_store : list cell :=
  [ CObj {[ "required_parameter" := VRef 1 ]};
    CObj {[ "pizza" := VRef 2 ]};
    CObj {[ "parser" := VRef 3 ]};
    CObj {[ "type" := VStr "dialogflow" ]} ].

Definition object_parser_state : state :=
  State
    (Context 0 ∅ ["pizza"] (VStr "pizza") (Previous [] []) None
       VUndef VUndef VUndef VUndef VUndef None)
    object_parser_store [].

(** The same skill with [pizza] defined as [{parser: {}}], a parser object
    without [type]. *)
Definition typeless_parser_state : state :=
  State (ctx object_parser_state)
    [ CObj {[ "required_parameter" := VRef 1 ]};
      CObj {[ "pizza" := VRef 2 ]};
      CObj {[ "parser" := VRef 3 ]};
      CObj ∅ ] [].

(** The same skill with [pizza] defined as
    [{parser: {type: "dialogflow", policy: "strict"}}]. *)
Definition string_policy_state : state :=
  State (ctx object_parser_state)
    [ CObj {[ "required_parameter" := VRef 1 ]};
      CObj {[ "pizza" := VRef 2 ]};
      CObj {[ "parser" := VRef 3 ]};
      CObj (<["type" := VStr "dialogflow"]> {[ "policy" := VStr "strict" ]}) ] [].

(** [object_parser_state] with one more object in the store: at 4 an
    object [o] with [o.self === o]. *)
Definition circular_parser_state : state :=
  State (ctx object_parser_state)
    (object_parser_store ++ [CObj {[ "self" := VRef 4 ]}])%list [].

(** What [get_parameter("pizza")] returns there. *)
Definition pizza_object : gmap string value :=
  <["parser" := VRef 3]>
    (<["type" := VStr "required_parameter"]> {[ "name" := VStr "pizza" ]}).

(** A store holding one definition, [{reaction: 5}], at 0. *)
Definition number_reaction_state : state :=
  State (ctx plain_skill_state) [ CObj {[ "reaction" := VNum 5 ]} ] [].

(** * More of [module/bot.js] *)

(** ** [change_message] and its older name *)

Section ChangeMessage.

Variable E : env.

Definition change_message_error : value :=
  new_Error "The parameter to change message not found.".

Definition change_message (param_name : string) (message : value) : M unit :=
  st ← get_state;
  let param_type := check_parameter_type st param_name in
  if String.eqb param_type "not_applicable" then
    throw change_message_error
  else
    c ← get_prop (VRef (skill (ctx st))) param_type;
    def ← get_prop c param_name;
    set_prop def "message" message;;
    change ← alloc (CObj {[ "message" := message ]});
    _save_param_change_log E param_type param_name change.

Definition change_message_to_confirm (param_name : string) (message : value)
    : M unit :=
  change_message param_name message.

End ChangeMessage.

(** * Notions used by the further statements *)

(** [r] with its state replaced by [st']: the same answer, reached in
    another state. *)
Definition retag {A} (r : result A) (st' : state) : result A :=
  match r with
  | Ok a _ => Ok a st'
  | Throw e _ => Throw e st'
  end.

(** No flow flag is raised. *)
Definition no_flag (c : context) : Prop :=
  truthy (_pause c) = false ∧ truthy (_exit c) = false ∧ truthy (_init c) = false.

(** The reaction [react] settles on for a parameter: the definition's
    [reaction] if it is truthy, else the skill's [reaction_<name>]. *)
Definition configured_reaction (st : state) (param : gmap string value)
    (param_name : string) : value :=
  if truthy (field param "reaction") then field param "reaction"
  else skill_field st ("reaction_" ++ param_name).

(** The one call of a reaction [f], its answer dropped. *)
Definition reaction_call (E : env) (f : fn_ref) (error v : value) : M unit :=
  run_foreign (EvCall f [error; v]) (call E f [error; v]);; mret ().

(** An environment in which every function of the skill fails with the
    engine's [TypeError], as code with a defect does. *)
Definition faulty_env : env :=
  Env (λ _ _ c s, (Thrown TypeError, c, s))
      ∅
      (λ _ c s, (Thrown TypeError, c, s))
      1000.

Definition invalid_parser_error (param_name : string) : value :=
  new_Error ("Parser for the parameter: " ++ param_name ++ " is invalid.").

(** The state after the policy object [{parameter_name: name}] was made
    for a built-in parser named by a string. *)
Definition with_fresh_policy (st : state) (param_name : string) : state :=
  State (ctx st)
    (store st ++ [CObj {[ "parameter_name" := VStr param_name ]}])%list
    (trace st).

(** The skill of [object_parser_state] with a policy on the parser of
    [pizza]: [{type: "dialogflow", policy: {parameter_name: "size"}}],
    the policy object at 4. *)
Definition named_policy_state : state :=
  State (ctx object_parser_state)
    [ CObj {[ "required_parameter" := VRef 1 ]};
      CObj {[ "pizza" := VRef 2 ]};
      CObj {[ "parser" := VRef 3 ]};
      CObj (<["type" := VStr "dialogflow"]> {[ "policy" := VRef 4 ]});
      CObj {[ "parameter_name" := VStr "size" ]} ]
    [].

(** [v] is [undefined] or [null], the test [collect] makes on
    [options.dedup]. *)
Definition dedup_unset (v : value) : bool := is_nullish v.

Definition invalid_argument : value := new_Error "Invalid argument.".

(** The store after [collect] made its own options object and wrote the
    default into it. *)
Definition with_default_options (st : state) : state :=
  State (ctx st) (store st ++ [CObj {[ "dedup" := VBool true ]}])%list (trace st).

(** [plain_skill_state] with three more objects in the store: at 5 a
    message object, at 6 the definition [{message: <object 5>}] and at 7
    the container [{param_c: <object 6>}]. *)
Definition container_state : state :=
  State (ctx plain_skill_state)
    (sub_skill_store
     ++ [ CObj (<["type" := VStr "text"]> {[ "text" := VStr "param c?" ]});
          CObj {[ "message" := VRef 5 ]};
          CObj {[ "param_c" := VRef 6 ]} ])%list
    [].

(** [plain_skill_state] with two more objects in the store: at 5 the new
    definition [{message: "again?"}] and at 6 the container
    [{param_a: <object 5>}]. *)
Definition redefine_state : state :=
  State (ctx plain_skill_state)
    (sub_skill_store
     ++ [ CObj {[ "message" := VStr "again?" ]};
          CObj {[ "param_a" := VRef 5 ]} ])%list
    [].
(** * Properties *)

(** Unfolding of the monad's plumbing. *)
Ltac munfold :=
  unfold mbind, M_bind, mret, M_ret, throw, get_state, modify_ctx in *.

(** ** The monad, and reads that leave the state alone *)

Lemma get_prop_state v k st :
  final_state (get_prop v k st) = st.
Proof. destruct v; reflexivity. Qed.

Lemma get_prop_ok v k st :
  v ≠ VUndef → v ≠ VNull → get_prop v k st = Ok (get_field (store st) v k) st.
Proof. destruct v; intros; try reflexivity; congruence. Qed.

Lemma bind_state {A B} (m : M A) (f : A → M B) st :
  final_state (m st) = st →
  (∀ a, final_state (f a st) = st) →
  final_state ((m ≫= f) st) = st.
Proof.
  intros Hm Hf. munfold. destruct (m st) as [a st1|e st1]; simpl in Hm; subst.
  - apply Hf.
  - reflexivity.
Qed.

Lemma bind_ok {A B} (m : M A) (f : A → M B) st a st' :
  m st = Ok a st' → (m ≫= f) st = f a st'.
Proof. intros H. munfold. rewrite H. reflexivity. Qed.

Lemma bind_throw {A B} (m : M A) (f : A → M B) st e st' :
  m st = Throw e st' → (m ≫= f) st = Throw e st'.
Proof. intros H. munfold. rewrite H. reflexivity. Qed.

Lemma get_prop_nullish v k st :
  is_nullish v = true → get_prop v k st = Throw TypeError st.
Proof. destruct v; try discriminate; reflexivity. Qed.

Lemma get_prop_not_nullish v k st :
  is_nullish v = false → get_prop v k st = Ok (get_field (store st) v k) st.
Proof. destruct v; try discriminate; reflexivity. Qed.

Lemma get_prop_obj l k st m :
  store st !! l = Some (CObj m) → get_prop (VRef l) k st = Ok (field m k) st.
Proof. intros H. unfold get_prop, get_field, field. rewrite H. reflexivity. Qed.

Lemma set_prop_obj l k x st m :
  store st !! l = Some (CObj m) →
  String.eqb k "__proto__" = false →
  set_prop (VRef l) k x st
  = Ok () (State (ctx st) (<[l := CObj (<[k := x]> m)]> (store st)) (trace st)).
Proof. intros H Hk. unfold set_prop. rewrite H, Hk. reflexivity. Qed.

(** A name that [Object.prototype] does not define reads as the object's
    own property, [undefined] when there is none. *)
Lemma field_own m k :
  String.eqb k "__proto__" = false → object_field k = VUndef →
  field m k = default VUndef (m !! k).
Proof. intros Hk Ho. unfold field, read. rewrite Hk, Ho. reflexivity. Qed.

Lemma field_lookup m k v : m !! k = Some v → String.eqb k "__proto__" = false →
  field m k = v.
Proof. intros H Hk. unfold field, read. rewrite Hk, H. reflexivity. Qed.

Lemma state_eta st : State (ctx st) (store st) (trace st) = st.
Proof. destruct st; reflexivity. Qed.

Lemma get_parameter_state param_name st :
  final_state (get_parameter param_name st) = st.
Proof.
  unfold get_parameter. apply bind_state; [reflexivity|]. intros st0.
  unfold get_state in *.
  destruct (String.eqb (check_parameter_type st0 param_name) "not_applicable");
    [reflexivity|].
  destruct (String.eqb (check_parameter_type st0 param_name) "sub_parameter").
  - destruct (_parent_parameter (ctx st0)) as [p|]; [|reflexivity].
    repeat (apply bind_state; [apply get_prop_state|intros ?]).
    reflexivity.
  - repeat (apply bind_state; [apply get_prop_state|intros ?]).
    reflexivity.
Qed.

Lemma get_parameter_ok_state param_name st param st' :
  get_parameter param_name st = Ok param st' → st' = st.
Proof.
  intros H. pose proof (get_parameter_state param_name st) as Hs.
  rewrite H in Hs. exact Hs.
Qed.

(** ** The store after an allocation *)

(** The new cell is found at the old length, and a write there replaces
    it; what was there before is read as before. *)
Lemma lookup_alloc (s : list cell) c : (s ++ [c])%list !! length s = Some c.
Proof. rewrite lookup_app_r by lia. rewrite Nat.sub_diag. reflexivity. Qed.

Lemma insert_alloc (s : list cell) c c' :
  <[length s := c']> (s ++ [c])%list = (s ++ [c'])%list.
Proof.
  rewrite insert_app_r_alt by lia. rewrite Nat.sub_diag. reflexivity.
Qed.

Lemma get_field_alloc s c v k :
  live s v → get_field (s ++ [c])%list v k = get_field s v k.
Proof.
  destruct v; simpl; try reflexivity.
  intros Hl. rewrite lookup_app_l by exact Hl. reflexivity.
Qed.

(** ** Parameter registry *)

Lemma absent_not_in_container st container n :
  absent_from st container n → in_container st container n = false.
Proof.
  unfold absent_from, in_container.
  destruct (skill_field st container) as [| | | | | |l| |]; try contradiction;
    try reflexivity.
  unfold get_field.
  destruct (store st !! l) as [[m|]|]; try contradiction.
  intros ->. apply andb_false_r.
Qed.

(** C2, as stated, fails while a sub-parameter context is active: the name
    [param_z] is in no container, the sub-parameter container included,
    yet it is classified [sub_parameter] and [get_parameter] returns an
    object for it instead of failing.  It also fails for a name that every
    object inherits, such as [constructor]: [required_parameter] has no
    property of that name, yet the read [required_parameter[name]] answers
    the function [Object], the name is classified [required_parameter] and
    [get_parameter] returns an object for it. *)
Lemma unknown_name_in_sub_context :
  absent_from sub_skill_state "required_parameter" "param_z"
  ∧ absent_from sub_skill_state "optional_parameter" "param_z"
  ∧ absent_from sub_skill_state "dynamic_parameter" "param_z"
  ∧ sub_parameter_entry sub_skill_state "param_z" = VUndef
  ∧ check_parameter_type sub_skill_state "param_z" = "sub_parameter"
  ∧ get_parameter "param_z" sub_skill_state
    = Ok (<["type" := VStr "sub_parameter"]> {["name" := VStr "param_z"]})
         sub_skill_state
  ∧ ¬ (check_parameter_type sub_skill_state "param_z" = "not_applicable"
       ∧ ∃ e st', get_parameter "param_z" sub_skill_state = Throw e st')
  ∧ own_props (store plain_skill_state)
      (skill_field plain_skill_state "required_parameter") !! "constructor"
    = None
  ∧ skill_field plain_skill_state "optional_parameter" = VUndef
  ∧ skill_field plain_skill_state "dynamic_parameter" = VUndef
  ∧ truthy (_sub_parameter (ctx plain_skill_state)) = false
  ∧ check_parameter_type plain_skill_state "constructor" = "required_parameter"
  ∧ get_parameter "constructor" plain_skill_state
    = Ok (<["type" := VStr "required_parameter"]>
            {["name" := VStr "constructor"]})
         plain_skill_state.
Proof.
  split; [vm_compute; reflexivity|].
  split; [vm_compute; reflexivity|].
  split; [vm_compute; reflexivity|].
  split; [vm_compute; reflexivity|].
  split; [vm_compute; reflexivity|].
  split; [vm_compute; reflexivity|].
  split; [intros [H _]; vm_compute in H; discriminate H|].
  split; [vm_compute; reflexivity|].
  split; [vm_compute; reflexivity|].
  split; [vm_compute; reflexivity|].
  split; [reflexivity|].
  split; vm_compute; reflexivity.
Qed.

(** C2 (amended): a name that reads as [undefined] in each of
    [required_parameter], [optional_parameter] and [dynamic_parameter]
    (the container is missing, or it neither holds the name nor inherits
    it) is [not_applicable], and [get_parameter] fails for it with the
    not-found error and leaves the state as it was, when no sub-parameter
    context is active; while one is active the name is classified
    [sub_parameter]. *)
Theorem unknown_name_classification st n :
  absent_from st "required_parameter" n →
  absent_from st "optional_parameter" n →
  absent_from st "dynamic_parameter" n →
  (truthy (_sub_parameter (ctx st)) = false →
     check_parameter_type st n = "not_applicable"
     ∧ get_parameter n st = Throw (new_Error (not_found_message n)) st)
  ∧ (truthy (_sub_parameter (ctx st)) = true →
     check_parameter_type st n = "sub_parameter").
Proof.
  intros Hr Ho Hd.
  assert (Hc : check_parameter_type st n
               = if truthy (_sub_parameter (ctx st)) then "sub_parameter"
                 else "not_applicable").
  { unfold check_parameter_type.
    rewrite !absent_not_in_container by assumption. reflexivity. }
  split; intros Hs; rewrite Hs in Hc.
  - split; [exact Hc|].
    unfold get_parameter. munfold. rewrite Hc. reflexivity.
  - exact Hc.
Qed.

Lemma unknown_name_classification_witness :
  absent_from plain_skill_state "required_parameter" "param_z"
  ∧ absent_from plain_skill_state "optional_parameter" "param_z"
  ∧ absent_from plain_skill_state "dynamic_parameter" "param_z"
  ∧ truthy (_sub_parameter (ctx plain_skill_state)) = false
  ∧ check_parameter_type plain_skill_state "param_z" = "not_applicable"
  ∧ get_parameter "param_z" plain_skill_state
    = Throw (new_Error (not_found_message "param_z")) plain_skill_state.
Proof.
  assert (Hr : absent_from plain_skill_state "required_parameter" "param_z")
    by (vm_compute; reflexivity).
  assert (Ho : absent_from plain_skill_state "optional_parameter" "param_z")
    by (vm_compute; reflexivity).
  assert (Hd : absent_from plain_skill_state "dynamic_parameter" "param_z")
    by (vm_compute; reflexivity).
  split; [exact Hr|]. split; [exact Ho|]. split; [exact Hd|].
  split; [reflexivity|].
  apply (unknown_name_classification plain_skill_state "param_z" Hr Ho Hd).
  reflexivity.
Defined.

(** ** Reaction dispatcher *)

(** C5: with [_pause], [_exit] or [_init] raised, [react] returns at once
    and the state it leaves is the state it found: the context and the
    store are untouched and the record of calls has grown by nothing, so
    no skill code ran.  The parameter is never looked up, so this holds
    for names the skill does not define as well. *)
Theorem react_skipped_when_flagged E st error param_name param_value :
  truthy (_pause (ctx st)) = true
  ∨ truthy (_exit (ctx st)) = true
  ∨ truthy (_init (ctx st)) = true →
  react E error param_name param_value st = Ok () st.
Proof.
  intros H. unfold react. munfold.
  assert (Hf : truthy (_pause (ctx st)) || truthy (_exit (ctx st))
               || truthy (_init (ctx st)) = true).
  { destruct H as [-> | [-> | ->]]; rewrite ?orb_true_r; reflexivity. }
  rewrite Hf. reflexivity.
Qed.

Lemma react_skipped_when_flagged_witness :
  (truthy (_pause (ctx exited_state)) = true
   ∨ truthy (_exit (ctx exited_state)) = true
   ∨ truthy (_init (ctx exited_state)) = true)
  ∧ get_parameter "no_such_param" exited_state
    = Throw (new_Error (not_found_message "no_such_param")) exited_state
  ∧ react quiet_env (VError "Error" "rejected") "no_such_param" (VStr "abc")
      exited_state
    = Ok () exited_state.
Proof.
  split; [right; left; reflexivity|].
  split; [vm_compute; reflexivity|].
  apply (react_skipped_when_flagged quiet_env exited_state).
  right; left; reflexivity.
Defined.

(** Each of the three signals puts [react] to sleep. *)
Lemma react_after_signal E st error param_name param_value :
  react E error param_name param_value (final_state (pause st))
  = Ok () (final_state (pause st))
  ∧ react E error param_name param_value (final_state (exit st))
    = Ok () (final_state (exit st))
  ∧ react E error param_name param_value (final_state (init st))
    = Ok () (final_state (init st)).
Proof.
  unfold react, pause, exit, init. munfold. cbn [final_state ctx].
  cbn [_pause _exit _init set_pause set_exit set_init truthy].
  rewrite !orb_true_r. auto.
Qed.

(** ** Flow controller *)

Lemma nonempty_string_test n :
  truthy n && String.eqb (typeof n) "string" = is_nonempty_string n.
Proof.
  destruct n as [| |[]| | | | | |]; simpl; try reflexivity.
  - apply andb_false_r.
  - apply andb_true_r.
Qed.

(** C6: [switch_skill] raises [_exit] first, so every outcome has it set.
    It then fails unless [intent.name] is a non-empty string, with the
    argument error (or, for an [undefined] or [null] intent, with the
    engine's error on reading [name]), and a failure leaves
    [_switch_intent] as it was; on success [_switch_intent] is [intent]. *)
Theorem switch_skill_outcome intent st :
  switch_skill intent st
  = (if is_nullish intent then Throw TypeError (with_exit st)
     else if is_nonempty_string (get_field (store st) intent "name")
     then Ok () (with_switch_intent (with_exit st) intent)
     else Throw switch_skill_error (with_exit st))
  ∧ _exit (ctx (final_state (switch_skill intent st))) = VBool true
  ∧ _switch_intent (ctx (with_exit st)) = _switch_intent (ctx st)
  ∧ _switch_intent (ctx (with_switch_intent (with_exit st) intent)) = intent.
Proof.
  assert (Heq : switch_skill intent st
    = (if is_nullish intent then Throw TypeError (with_exit st)
       else if is_nonempty_string (get_field (store st) intent "name")
       then Ok () (with_switch_intent (with_exit st) intent)
       else Throw switch_skill_error (with_exit st))).
  { unfold switch_skill, exit. munfold. cbv beta iota.
    destruct (is_nullish intent) eqn:Hn.
    - destruct intent; try discriminate; reflexivity.
    - rewrite get_prop_ok by (destruct intent; simpl in Hn; congruence).
      cbn [store]. rewrite nonempty_string_test.
      destruct (is_nonempty_string _); reflexivity. }
  split; [exact Heq|]. split; [|split; reflexivity].
  rewrite Heq.
  destruct (is_nullish intent); [reflexivity|].
  destruct (is_nonempty_string _); reflexivity.
Qed.

(** [switch_skill({name: "s"})] and [switch_skill({})]. *)
Lemma switch_skill_examples :
  (∃ st', switch_skill (VRef 5) intent_state = Ok () st'
          ∧ _exit (ctx st') = VBool true
          ∧ get_field (store st') (_switch_intent (ctx st')) "name" = VStr "s")
  ∧ (∃ st', switch_skill (VRef 5) empty_intent_state
            = Throw switch_skill_error st'
            ∧ _exit (ctx st') = VBool true
            ∧ _switch_intent (ctx st') = VUndef).
Proof.
  split; eexists; (split; [vm_compute; reflexivity|]);
    split; vm_compute; reflexivity.
Qed.

(** ** Collection queue *)

Lemma index_of_none_occurrences x l :
  index_of x l = None ↔ occurrences x l = 0.
Proof.
  induction l as [|y r IH]; simpl; [tauto|].
  destruct (String.eqb y x); simpl.
  - split; discriminate.
  - rewrite <- IH. destruct (index_of x r); simpl; split; congruence.
Qed.

Lemma occurrences_zero_not_in x l : occurrences x l = 0 → x ∉ l.
Proof.
  induction l as [|y r IH]; simpl; [intros _; apply not_elem_of_nil|].
  destruct (String.eqb_spec y x) as [->|Hne]; simpl; [discriminate|].
  intros H. apply not_elem_of_cons. split; [congruence|]. apply IH. exact H.
Qed.

Lemma remove_first_cons x y r :
  remove_first x (y :: r)
  = if String.eqb y x then r else y :: remove_first x r.
Proof.
  unfold remove_first. simpl.
  destruct (String.eqb y x); [reflexivity|].
  destruct (index_of x r); reflexivity.
Qed.

Lemma occurrences_remove_first x l :
  occurrences x (remove_first x l) = pred (occurrences x l).
Proof.
  induction l as [|y r IH]; [reflexivity|].
  rewrite remove_first_cons. simpl.
  destruct (String.eqb y x) eqn:Hy; simpl; [reflexivity|].
  rewrite Hy. simpl. exact IH.
Qed.

Lemma remove_first_absent x l :
  index_of x l = None → remove_first x l = l.
Proof. unfold remove_first. intros ->. reflexivity. Qed.

Lemma remove_first_head x l : remove_first x (x :: l) = l.
Proof. rewrite remove_first_cons, String.eqb_refl. reflexivity. Qed.

(** One [collect] of a name with the default options: one occurrence of
    the name, if any, leaves the queue and the name goes to the front.
    The options object the call made for itself stays in the store. *)
Lemma collect_name_default E x st :
  collect E (VStr x) VUndef st
  = Ok () (State
             (set_to_confirm (ctx st) (x :: remove_first x (to_confirm (ctx st))))
             (store st ++ [CObj {[ "dedup" := VBool true ]}])%list
             (trace st)).
Proof.
  unfold collect, alloc, get_prop, set_prop. munfold. cbn [store ctx trace].
  unfold get_field. rewrite lookup_alloc.
  change (field ∅ "dedup") with VUndef.
  rewrite decide_True by (left; reflexivity).
  cbv beta. cbn [store ctx trace]. rewrite lookup_alloc.
  change (String.eqb "dedup" "__proto__") with false. cbv iota.
  cbn [store ctx trace].
  rewrite insert_alloc, lookup_alloc.
  rewrite (field_lookup _ "dedup" (VBool true)) by (apply lookup_insert_eq || reflexivity).
  cbn [truthy]. rewrite andb_true_r.
  f_equal. f_equal.
  unfold set_to_confirm. cbn.
  case_bool_decide as Hi; cbn; [reflexivity|].
  rewrite remove_first_absent; [reflexivity|].
  destruct (index_of x (to_confirm (ctx st))); [|reflexivity].
  exfalso. apply Hi. eauto.
Qed.

(** C7, as stated, fails on a queue that already holds the name more than
    once, as two calls [collect("x", {dedup: false})] on an empty queue
    leave it: [collect] drops one occurrence only, so after two default
    calls ["x"] is at the front and still there twice. *)
Lemma collect_twice_keeps_duplicate :
  to_confirm (ctx dedup_off_state) = []
  ∧ to_confirm (ctx queued_twice_state) = ["x"; "x"]
  ∧ to_confirm (ctx (final_state (collect_twice quiet_env "x" queued_twice_state)))
    = ["x"; "x"]
  ∧ occurrences "x"
      (to_confirm (ctx (final_state
         (collect_twice quiet_env "x" queued_twice_state)))) = 2
  ∧ ¬ occurrences "x"
        (to_confirm (ctx (final_state
           (collect_twice quiet_env "x" queued_twice_state)))) = 1.
Proof.
  split; [reflexivity|].
  split; [vm_compute; reflexivity|].
  split; [vm_compute; reflexivity|].
  split; [vm_compute; reflexivity|].
  vm_compute. discriminate.
Qed.

(** C7 (amended): two calls [collect(x)] with the default options both
    return; after each the queue is [x] followed by what it held before
    with the first occurrence of [x] taken out, so the second call changes
    nothing in the context (idempotence) and [x] is at the front.  [x]
    occurs once more than the occurrences beyond the first it had before:
    exactly once when the queue held it at most once. *)
Theorem collect_twice_front_once E x st :
  ∃ st1 st2,
    collect E (VStr x) VUndef st = Ok () st1
    ∧ collect E (VStr x) VUndef st1 = Ok () st2
    ∧ collect_twice E x st = Ok () st2
    ∧ to_confirm (ctx st1) = x :: remove_first x (to_confirm (ctx st))
    ∧ ctx st2 = ctx st1
    ∧ occurrences x (to_confirm (ctx st2))
      = Nat.max 1 (occurrences x (to_confirm (ctx st)))
    ∧ ((occurrences x (to_confirm (ctx st)) ≤ 1)%nat →
       occurrences x (to_confirm (ctx st2)) = 1).
Proof.
  eexists. eexists.
  split; [apply collect_name_default|].
  split; [apply collect_name_default|].
  split.
  { unfold collect_twice. munfold. rewrite !collect_name_default. reflexivity. }
  split; [reflexivity|].
  assert (Hq : ∀ c l, set_to_confirm (set_to_confirm c (x :: l))
                        (x :: remove_first x (x :: l))
                      = set_to_confirm c (x :: l)).
  { intros c l. rewrite remove_first_head. reflexivity. }
  split; [cbn [ctx]; cbn [to_confirm set_to_confirm]; apply Hq|].
  assert (Hn : occurrences x
                 (x :: remove_first x (x :: remove_first x (to_confirm (ctx st))))
               = Nat.max 1 (occurrences x (to_confirm (ctx st)))).
  { rewrite remove_first_head. simpl. rewrite String.eqb_refl.
    rewrite occurrences_remove_first. lia. }
  split.
  - cbn [ctx]. cbn [to_confirm set_to_confirm]. exact Hn.
  - intros Hle. cbn [ctx]. cbn [to_confirm set_to_confirm]. rewrite Hn. lia.
Qed.

(** ** Parser dispatcher *)

Lemma is_unset_spec v :
  is_unset v = true ↔ v = VUndef ∨ v = VNull ∨ v = VStr "".
Proof.
  destruct v; simpl; try (split; [discriminate|intros [?|[?|?]]; discriminate]).
  - split; auto.
  - split; auto.
  - rewrite String.eqb_eq. split.
    + intros ->. auto.
    + intros [?|[?|?]]; congruence.
Qed.

(** *** The log line *)

(** A value that is not an object is serialised at once. *)
Lemma serialize_primitive E depth stack key v st :
  is_object v = false → serialize E (S depth) stack key v st = Ok () st.
Proof. destruct v; try discriminate; reflexivity. Qed.

Lemma json_stringify_primitive E v st :
  stack_limit E ≠ 0 → is_object v = false → json_stringify E v st = Ok () st.
Proof.
  intros Hd Hv. unfold json_stringify.
  destruct (stack_limit E) as [|d]; [congruence|].
  apply serialize_primitive. exact Hv.
Qed.

(** An object that holds itself is refused, when the engine lets the walk
    go two deep. *)
Lemma json_stringify_self E l m k st d :
  stack_limit E = S (S d) →
  store st !! l = Some (CObj m) →
  typeof (field m "toJSON") ≠ "function" →
  map_to_list (delete "__proto__" m) = [(k, VRef l)] →
  json_stringify E (VRef l) st = Throw TypeError st.
Proof.
  intros Hd Hl Hj Hm. unfold json_stringify. rewrite Hd.
  assert (Hno : String.eqb (typeof (field m "toJSON")) "function" = false).
  { apply String.eqb_neq. exact Hj. }
  assert (Hk : m !! k = Some (VRef l) ∧ String.eqb k "__proto__" = false).
  { assert (Hin : (k, VRef l) ∈ map_to_list (delete "__proto__" m))
      by (rewrite Hm; apply list_elem_of_here).
    apply elem_of_map_to_list in Hin.
    destruct (String.eqb_spec k "__proto__") as [->|Hne].
    - rewrite lookup_delete_eq in Hin. discriminate.
    - rewrite lookup_delete_ne in Hin by congruence. auto. }
  destruct Hk as [Hk Hkp].
  assert (Hstep : ∀ dd stack key,
    serialize E (S dd) stack key (VRef l) st
    = (if bool_decide (l ∈ stack) then throw TypeError
       else
         for_each
           (λ k0, x ← get_prop (VRef l) k0;
                  serialize E dd (l :: stack) k0 x)
           (map_to_list (delete "__proto__" m)).*1) st).
  { intros dd stack key. cbn [serialize is_object].
    assert (Hin : (toJSON ← get_prop (VRef l) "toJSON";
                   if String.eqb (typeof toJSON) "function"
                   then call_value E toJSON [VRef l; VStr key]
                   else mret (VRef l)) st = Ok (VRef l) st).
    { rewrite (bind_ok _ _ _ _ _ (get_prop_obj l "toJSON" st m Hl)).
      rewrite Hno. reflexivity. }
    rewrite (bind_ok _ _ _ _ _ Hin).
    rewrite (bind_ok get_state _ st st st eq_refl). rewrite Hl. reflexivity. }
  rewrite Hstep.
  rewrite bool_decide_eq_false_2 by apply not_elem_of_nil.
  rewrite Hm. cbn [fmap list_fmap fst for_each foldr].
  apply bind_throw.
  rewrite (bind_ok _ _ _ _ _ (get_prop_obj l k st m Hl)).
  rewrite (field_lookup m k (VRef l) Hk Hkp).
  rewrite Hstep.
  rewrite bool_decide_eq_true_2 by apply list_elem_of_here.
  reflexivity.
Qed.

(** What [JSON.stringify] throws is what [parse_parameter] throws, before
    it has looked at the parameter. *)
Lemma parse_parameter_not_serialized E st param_name param_value strict e st1 :
  json_stringify E param_value st = Throw e st1 →
  parse_parameter E param_name param_value strict st = Throw e st1.
Proof. intros H. unfold parse_parameter. apply bind_throw. exact H. Qed.

(** When the parameter is not found, that error is the outcome. *)
Lemma parse_parameter_not_found E st st1 param_name param_value strict e :
  json_stringify E param_value st = Ok () st1 →
  get_parameter param_name st1 = Throw e st1 →
  parse_parameter E param_name param_value strict st = Throw e st1.
Proof.
  intros Hj H. unfold parse_parameter.
  rewrite (bind_ok _ _ _ _ _ Hj). apply bind_throw. exact H.
Qed.

(** [parse_parameter] once the value is logged and the parameter found. *)
Lemma parse_parameter_found E st st1 param_name param_value strict param :
  json_stringify E param_value st = Ok () st1 →
  get_parameter param_name st1 = Ok param st1 →
  parse_parameter E param_name param_value strict st
  = if truthy (field param "parser") then
      run_parser E param_name (field param "parser") param_value st1
    else if truthy (skill_field st1 ("parse_" ++ param_name)) then
      run_parser E param_name (skill_field st1 ("parse_" ++ param_name))
        param_value st1
    else if truthy (or_default (VBool false) strict) then
      Throw (new_Error "Parser not found.") st1
    else if is_unset param_value then
      Throw (new_Error "Value is not set.") st1
    else Ok param_value st1.
Proof.
  intros Hj H. unfold parse_parameter.
  rewrite (bind_ok _ _ _ _ _ Hj). rewrite (bind_ok _ _ _ _ _ H).
  rewrite (bind_ok get_state _ st1 st1 st1 eq_refl).
  destruct (truthy (field param "parser")); [reflexivity|].
  destruct (truthy (skill_field st1 ("parse_" ++ param_name))); [reflexivity|].
  destruct (truthy (or_default (VBool false) strict)); [reflexivity|].
  destruct (is_unset param_value); reflexivity.
Qed.

(** C4, as stated, fails for a value that [JSON.stringify] refuses, such
    as an object that holds itself: [param_a] has no parser, and with the
    object at 5 as its value [parse_parameter] throws the engine's
    [TypeError], where the claim has it return the value (or, under
    [strict], fail with "Parser not found."). *)
Lemma parse_parameter_circular_value :
  get_field (store circular_state) (VRef 5) "self" = VRef 5
  ∧ get_parameter "param_a" circular_state = Ok param_a_object circular_state
  ∧ truthy (configured_parser circular_state param_a_object "param_a") = false
  ∧ is_unset (VRef 5) = false
  ∧ parse_parameter quiet_env "param_a" (VRef 5) VUndef circular_state
    = Throw TypeError circular_state
  ∧ parse_parameter quiet_env "param_a" (VRef 5) (VBool true) circular_state
    = Throw TypeError circular_state
  ∧ ¬ parse_parameter quiet_env "param_a" (VRef 5) VUndef circular_state
      = Ok (VRef 5) circular_state
  ∧ ¬ parse_parameter quiet_env "param_a" (VRef 5) (VBool true) circular_state
      = Throw (new_Error "Parser not found.") circular_state.
Proof.
  split; [vm_compute; reflexivity|].
  split; [vm_compute; reflexivity|].
  split; [vm_compute; reflexivity|].
  split; [reflexivity|].
  split; [vm_compute; reflexivity|].
  split; [vm_compute; reflexivity|].
  split; vm_compute; discriminate.
Qed.

(** C4 (amended): [parse_parameter] first serialises the value for its log
    line, and what that throws is the outcome.  For a value that is
    serialised and a parameter that [get_parameter] finds, the parser is
    the definition's [parser] if there is one, else the skill's
    [parse_<name>] if there is one (a field counts as there when it is
    truthy, the test the code makes).  With a parser, [parse_parameter] is
    the dispatch on that parser.  With none, it throws "Parser not found."
    under [strict]; without [strict] it throws "Value is not set." for
    [undefined], [null] and the empty string, and returns any other value
    as it came.  [st1] is the state the serialisation leaves: [st] itself
    unless a [toJSON] method of the value changed it. *)
Theorem parse_parameter_resolution E st st1 param_name param_value strict param :
  json_stringify E param_value st = Ok () st1 →
  get_parameter param_name st1 = Ok param st1 →
  (truthy (configured_parser st1 param param_name) = true →
     parse_parameter E param_name param_value strict st
     = run_parser E param_name (configured_parser st1 param param_name)
         param_value st1)
  ∧ (truthy (configured_parser st1 param param_name) = false →
     (truthy (or_default (VBool false) strict) = true →
        parse_parameter E param_name param_value strict st
        = Throw (new_Error "Parser not found.") st1)
     ∧ (truthy (or_default (VBool false) strict) = false →
        param_value = VUndef ∨ param_value = VNull ∨ param_value = VStr "" →
        parse_parameter E param_name param_value strict st
        = Throw (new_Error "Value is not set.") st1)
     ∧ (truthy (or_default (VBool false) strict) = false →
        param_value ≠ VUndef → param_value ≠ VNull → param_value ≠ VStr "" →
        parse_parameter E param_name param_value strict st
        = Ok param_value st1)).
Proof.
  intros Hj H. rewrite (parse_parameter_found E st st1 _ _ _ _ Hj H).
  unfold configured_parser.
  destruct (truthy (field param "parser")) eqn:Hp.
  { split; [reflexivity|]. intros Hf. rewrite Hp in Hf. discriminate Hf. }
  destruct (truthy (skill_field st1 ("parse_" ++ param_name))) eqn:Hs.
  { split; [reflexivity|]. intros Hf. discriminate Hf. }
  split; [intros Hf; discriminate Hf|]. intros _.
  split; [intros ->; reflexivity|].
  split.
  - intros -> Hv. apply is_unset_spec in Hv. rewrite Hv. reflexivity.
  - intros -> H1 H2 H3.
    destruct (is_unset param_value) eqn:Hu; [|reflexivity].
    apply is_unset_spec in Hu. destruct Hu as [? | [? | ?]]; contradiction.
Qed.

Lemma parse_parameter_resolution_witness :
  json_stringify quiet_env (VStr "hello") plain_skill_state
  = Ok () plain_skill_state
  ∧ get_parameter "param_a" plain_skill_state = Ok param_a_object plain_skill_state
  ∧ truthy (configured_parser plain_skill_state param_a_object "param_a") = false
  ∧ parse_parameter quiet_env "param_a" (VStr "hello") VUndef plain_skill_state
    = Ok (VStr "hello") plain_skill_state
  ∧ parse_parameter quiet_env "param_a" (VStr "") VUndef plain_skill_state
    = Throw (new_Error "Value is not set.") plain_skill_state
  ∧ parse_parameter quiet_env "param_a" (VStr "hello") (VBool true)
      plain_skill_state
    = Throw (new_Error "Parser not found.") plain_skill_state.
Proof.
  assert (Hj : ∀ t, json_stringify quiet_env (VStr t) plain_skill_state
                    = Ok () plain_skill_state)
    by (intros t; reflexivity).
  assert (H : get_parameter "param_a" plain_skill_state
              = Ok param_a_object plain_skill_state)
    by (vm_compute; reflexivity).
  assert (Hnone : truthy (configured_parser plain_skill_state param_a_object
                            "param_a") = false)
    by (vm_compute; reflexivity).
  split; [apply Hj|]. split; [exact H|]. split; [exact Hnone|].
  split.
  { destruct (parse_parameter_resolution quiet_env plain_skill_state
                plain_skill_state "param_a" (VStr "hello") VUndef
                param_a_object (Hj _) H) as [_ Hno].
    destruct (Hno Hnone) as (_ & _ & Hraw).
    apply Hraw; [reflexivity|discriminate|discriminate|discriminate]. }
  split.
  { destruct (parse_parameter_resolution quiet_env plain_skill_state
                plain_skill_state "param_a" (VStr "") VUndef
                param_a_object (Hj _) H) as [_ Hno].
    destruct (Hno Hnone) as (_ & Hunset & _).
    apply Hunset; [reflexivity|]. right. right. reflexivity. }
  destruct (parse_parameter_resolution quiet_env plain_skill_state
              plain_skill_state "param_a" (VStr "hello") (VBool true)
              param_a_object (Hj _) H) as [_ Hno].
  destruct (Hno Hnone) as (Hstrict & _).
  apply Hstrict. reflexivity.
Defined.

(** ** Confirmation store *)

Lemma array_at_is_array m s name :
  String.eqb name "__proto__" = false →
  m !! name ≠ Some (VProto ArrayPrototype) →
  is_array s (field m name)
  = match array_at m s name with Some _ => true | None => false end.
Proof.
  intros Hn Hp. unfold array_at, field, read. rewrite Hn.
  destruct (m !! name) as [v|] eqn:Hv; cbn [default from_option id].
  - destruct v as [| | | | | |l| |p]; try reflexivity.
    + simpl. destruct (s !! l) as [[]|]; reflexivity.
    + destruct p; try reflexivity. congruence.
  - unfold object_field.
    destruct (String.eqb name "constructor"); [reflexivity|].
    destruct (listed name object_methods); reflexivity.
Qed.

Lemma set_confirmed_id c : set_confirmed c (confirmed c) = c.
Proof. destruct c; reflexivity. Qed.

Lemma set_confirmed_prop_run k x st :
  String.eqb k "__proto__" = false →
  set_confirmed_prop k x st
  = Ok () (State (set_confirmed (ctx st) (<[k := x]> (confirmed (ctx st))))
             (store st) (trace st)).
Proof. intros Hk. unfold set_confirmed_prop. rewrite Hk. reflexivity. Qed.

(** The bookkeeping that ends [add_parameter], after any first block that
    returned having changed at most [confirmed] and the store. *)
Lemma add_parameter_bookkeeping (blk : M unit) param_name is_change st m' s' :
  blk st = Ok () (State (set_confirmed (ctx st) m') s' (trace st)) →
  (blk;;
   (if negb (truthy (or_default (VBool false) is_change)) then
      modify_ctx (λ c, set_previous c
        (Previous (param_name :: prev_confirmed (previous c))
                  (param_name :: prev_processed (previous c))))
    else mret ());;
   modify_ctx (λ c, set_to_confirm c (remove_first param_name (to_confirm c)));;
   modify_ctx (λ c,
     if decide (confirming c = VStr param_name) then set_confirming c VNull
     else c)) st
  = Ok () (State (committed_context (ctx st) m' param_name is_change) s' (trace st)).
Proof.
  intros Hblk. munfold. rewrite Hblk. unfold committed_context.
  destruct (truthy (or_default (VBool false) is_change)); cbn;
    destruct (decide (confirming (ctx st) = VStr param_name)); reflexivity.
Qed.

Lemma insertion_choice (list o : value) (arr v : value) :
  (list = VBool true → o ≠ VStr "old") →
  (if decide (list = VBool true) then array_unshift arr v
   else if decide (o = VStr "new") then array_unshift arr v
   else if decide (o = VStr "old") then array_push arr v
   else array_unshift arr v)
  = (if decide (o = VStr "old") then array_push arr v else array_unshift arr v).
Proof.
  intros H.
  destruct (decide (list = VBool true)) as [Hl|Hl].
  - rewrite decide_False by auto. reflexivity.
  - destruct (decide (o = VStr "new")) as [->|Hn]; [|reflexivity].
    rewrite decide_False by discriminate. reflexivity.
Qed.

Lemma array_at_some m s name vs :
  array_at m s name = Some vs →
  ∃ l, m !! name = Some (VRef l) ∧ s !! l = Some (CArr vs).
Proof.
  unfold array_at. intros H.
  destruct (m !! name) as [[]|]; try discriminate.
  destruct (s !! l) as [[]|] eqn:Hs; try discriminate.
  injection H as ->. eauto.
Qed.

(** What [JSON.stringify] throws is what [add_parameter] throws, before
    it has changed anything. *)
Lemma add_parameter_not_serialized E st param_name param_value is_change e st1 :
  json_stringify E param_value st = Throw e st1 →
  add_parameter E param_name param_value is_change st = Throw e st1.
Proof. intros H. unfold add_parameter. apply bind_throw. exact H. Qed.

(** A commit that goes through.  [st1] is the state the serialisation of
    the value leaves. *)
Lemma add_parameter_outcome E param_name param_value is_change st st1 param :
  json_stringify E param_value st = Ok () st1 →
  get_parameter param_name st1 = Ok param st1 →
  param_name ≠ "__proto__" →
  confirmed (ctx st1) !! param_name ≠ Some (VProto ArrayPrototype) →
  (truthy (field param "list") = true → list_type_ok (field param "list") = true) →
  live (store st1) (field param "list") →
  ∃ m' s',
    add_parameter E param_name param_value is_change st
    = Ok () (State (committed_context (ctx st1) m' param_name is_change) s'
               (trace st1))
    ∧ (truthy (field param "list") = false →
       m' = <[param_name := param_value]> (confirmed (ctx st1)) ∧ s' = store st1)
    ∧ (truthy (field param "list") = true →
       array_at m' s' param_name
       = Some (let old := default [] (confirmed_list st1 param_name) in
               if decide (get_field (store st1) (field param "list") "order"
                          = VStr "old")
               then (old ++ [param_value])%list else param_value :: old)).
Proof.
  intros Hj Hget Hname Hproto Hok Hlive.
  assert (Hn : String.eqb param_name "__proto__" = false)
    by (apply String.eqb_neq; exact Hname).
  unfold add_parameter.
  rewrite (bind_ok _ _ _ _ _ Hj). rewrite (bind_ok _ _ _ _ _ Hget).
  set (list := field param "list") in *.
  assert (Hord : ∀ s, list = VBool true → get_field s list "order" ≠ VStr "old").
  { intros s ->. discriminate. }
  destruct (truthy list) eqn:Ht.
  - specialize (Hok eq_refl). unfold list_type_ok in Hok. rewrite Hok.
    cbn [negb].
    destruct (confirmed_list st1 param_name) as [old|] eqn:Hold.
    + destruct (array_at_some _ _ _ _ Hold) as (l & Hc & Hs).
      exists (confirmed (ctx st1)).
      exists (<[l := CArr (if decide (get_field (store st1) list "order" = VStr "old")
                          then (old ++ [param_value])%list
                          else param_value :: old)]> (store st1)).
      split; [|split; [discriminate|]].
      * apply add_parameter_bookkeeping. rewrite set_confirmed_id.
        munfold. rewrite array_at_is_array by assumption.
        fold (confirmed_list st1 param_name).
        rewrite Hold. cbn [negb]. cbv beta iota.
        rewrite insertion_choice by apply Hord.
        rewrite (field_lookup _ _ _ Hc Hn).
        unfold array_push, array_unshift, array_update.
        destruct (decide (get_field (store st1) list "order" = VStr "old"));
          cbv beta; cbn [store ctx trace]; rewrite Hs; reflexivity.
      * intros _. unfold array_at. rewrite Hc.
        rewrite list_lookup_insert_eq by (eapply lookup_lt_Some; exact Hs).
        reflexivity.
    + exists (<[param_name := VRef (length (store st1))]> (confirmed (ctx st1))).
      exists (store st1 ++ [CArr (if decide (get_field (store st1) list "order" = VStr "old")
                          then ([] ++ [param_value])%list
                          else [param_value])])%list.
      split; [|split; [discriminate|]].
      * apply add_parameter_bookkeeping.
        munfold. rewrite array_at_is_array by assumption.
        fold (confirmed_list st1 param_name).
        rewrite Hold. cbn [negb]. unfold alloc. cbv beta iota. cbn [ctx store trace].
        rewrite set_confirmed_prop_run by exact Hn.
        cbv beta iota. cbn [ctx store trace].
        rewrite insertion_choice by apply Hord.
        rewrite get_field_alloc by exact Hlive.
        unfold set_confirmed at 1 2. cbn [confirmed].
        rewrite (field_lookup _ param_name (VRef (length (store st1))))
          by (apply lookup_insert_eq || exact Hn).
        unfold array_push, array_unshift, array_update.
        destruct (decide (get_field (store st1) list "order" = VStr "old"));
          cbv beta; cbn [store ctx trace]; rewrite lookup_alloc, insert_alloc;
          reflexivity.
      * intros _. unfold array_at. rewrite lookup_insert_eq, lookup_alloc.
        reflexivity.
  - cbn [negb].
    exists (<[param_name := param_value]> (confirmed (ctx st1))), (store st1).
    split; [|split; [auto|discriminate]].
    apply add_parameter_bookkeeping. apply set_confirmed_prop_run. exact Hn.
Qed.

Lemma add_parameter_list_rejected E param_name param_value is_change st st1 param :
  json_stringify E param_value st = Ok () st1 →
  get_parameter param_name st1 = Ok param st1 →
  truthy (field param "list") = true →
  list_type_ok (field param "list") = false →
  add_parameter E param_name param_value is_change st = Throw list_type_error st1.
Proof.
  intros Hj Hget Ht Hbad. unfold add_parameter.
  rewrite (bind_ok _ _ _ _ _ Hj). rewrite (bind_ok _ _ _ _ _ Hget).
  rewrite Ht. unfold list_type_ok in Hbad. rewrite Hbad.
  reflexivity.
Qed.

(** A parameter named [__proto__] is never list-typed: what
    [get_parameter] copies from is a prototype, which has no property to
    copy. *)
Lemma own_props_prototype s v : own_props s (get_field s v "__proto__") = ∅.
Proof.
  destruct v as [| | | | |f|l| |p]; try reflexivity.
  - simpl. unfold read. simpl. destruct (decide (f = function_prototype)); reflexivity.
  - simpl. destruct (s !! l) as [[]|]; reflexivity.
  - destruct p; try reflexivity. simpl. unfold read. simpl.
    destruct (String.eqb n "Error"); reflexivity.
Qed.

Lemma get_prop_cases v k st :
  get_prop v k st = Throw TypeError st
  ∨ get_prop v k st = Ok (get_field (store st) v k) st.
Proof. destruct v; auto. Qed.

Lemma get_parameter_proto_no_list st param :
  get_parameter "__proto__" st = Ok param st →
  truthy (field param "list") = false.
Proof.
  unfold get_parameter. rewrite (bind_ok get_state _ st st st eq_refl).
  set (type := check_parameter_type st "__proto__").
  assert (Hend : ∀ c,
    (def ← get_prop c "__proto__";
     mret (own_props (store st) def
           ∪ <["type" := VStr type]> (<["name" := VStr "__proto__"]> ∅))) st
    = Ok param st →
    truthy (field param "list") = false).
  { intros c. destruct (get_prop_cases c "__proto__" st) as [H|H].
    - rewrite (bind_throw _ _ _ _ _ H). discriminate.
    - rewrite (bind_ok _ _ _ _ _ H). rewrite own_props_prototype.
      rewrite (left_id_L ∅ (∪)). intros Heq. injection Heq as <-.
      reflexivity. }
  destruct (String.eqb type "not_applicable"); [discriminate|].
  destruct (String.eqb type "sub_parameter").
  - destruct (_parent_parameter (ctx st)) as [p|]; [|discriminate].
    destruct (get_prop_cases (VRef (skill (ctx st))) (parent_type p) st) as [H|H];
      [rewrite (bind_throw _ _ _ _ _ H); discriminate|].
    rewrite (bind_ok _ _ _ _ _ H). cbv beta.
    match goal with
    | |- context [get_prop ?v (parent_name p)] =>
        destruct (get_prop_cases v (parent_name p) st) as [H2|H2];
          [rewrite (bind_throw _ _ _ _ _ H2); discriminate|];
          rewrite (bind_ok _ _ _ _ _ H2); cbv beta
    end.
    match goal with
    | |- context [get_prop ?v "sub_parameter"] =>
        destruct (get_prop_cases v "sub_parameter" st) as [H3|H3];
          [rewrite (bind_throw _ _ _ _ _ H3); discriminate|];
          rewrite (bind_ok _ _ _ _ _ H3); cbv beta
    end.
    apply Hend.
  - destruct (get_prop_cases (VRef (skill (ctx st))) type st) as [H|H];
      [rewrite (bind_throw _ _ _ _ _ H); discriminate|].
    rewrite (bind_ok _ _ _ _ _ H). apply Hend.
Qed.



(** Two commits in a row: newest first under [order: "new"] and under
    [list: true], oldest first under [order: "old"]. *)
Lemma repeated_commits :
  confirmed_list (final_state (commit_a_then_b "newest" list_skill_state)) "newest"
  = Some [VStr "b"; VStr "a"]
  ∧ confirmed_list (final_state (commit_a_then_b "flag" list_skill_state)) "flag"
    = Some [VStr "b"; VStr "a"]
  ∧ confirmed_list (final_state (commit_a_then_b "oldest" list_skill_state)) "oldest"
    = Some [VStr "a"; VStr "b"].
Proof. repeat split; vm_compute; reflexivity. Qed.

(** C8, as stated, fails on a queue that holds the name twice, as
    [collect(name, {dedup: false})] leaves it: the commit takes the first
    occurrence out and the name is still queued.  It also fails for a
    value that [JSON.stringify] refuses: the commit throws the engine's
    [TypeError] and the name is neither taken out of the queue nor put on
    the history. *)
Lemma add_parameter_keeps_queued_duplicate :
  to_confirm (ctx requeued_state) = ["param_a"; "param_b"; "param_a"]
  ∧ (∃ st',
       add_parameter quiet_env "param_a" (VStr "hello") VUndef requeued_state
       = Ok () st'
       ∧ to_confirm (ctx st') = ["param_b"; "param_a"]
       ∧ "param_a" ∈ to_confirm (ctx st'))
  ∧ get_field (store circular_state) (VRef 5) "self" = VRef 5
  ∧ to_confirm (ctx circular_state) = ["param_a"]
  ∧ add_parameter quiet_env "param_a" (VRef 5) VUndef circular_state
    = Throw TypeError circular_state
  ∧ ¬ (∃ st',
         add_parameter quiet_env "param_a" (VRef 5) VUndef circular_state
         = Ok () st').
Proof.
  split; [reflexivity|].
  split.
  { eexists. split; [vm_compute; reflexivity|].
    split; [reflexivity|]. apply list_elem_of_further, list_elem_of_here. }
  split; [vm_compute; reflexivity|].
  split; [reflexivity|].
  split; [vm_compute; reflexivity|].
  intros [st' H]. vm_compute in H. discriminate H.
Qed.

(** C8 (amended): a commit of a value that is serialised for the log line
    takes one occurrence of the name (the first) out of [to_confirm], so
    the name is gone from a queue that held it at most once, and clears
    [confirming] when it is the name, whatever [is_change] is; the name
    goes to the front of [previous.confirmed] and [previous.processed]
    exactly when [is_change] is falsy.  [st1] is the state the
    serialisation leaves. *)
Theorem add_parameter_queue_and_history
    E param_name param_value is_change st st1 param :
  json_stringify E param_value st = Ok () st1 →
  get_parameter param_name st1 = Ok param st1 →
  param_name ≠ "__proto__" →
  confirmed (ctx st1) !! param_name ≠ Some (VProto ArrayPrototype) →
  (truthy (field param "list") = true → list_type_ok (field param "list") = true) →
  live (store st1) (field param "list") →
  ∃ st',
    add_parameter E param_name param_value is_change st = Ok () st'
    ∧ to_confirm (ctx st') = remove_first param_name (to_confirm (ctx st1))
    ∧ occurrences param_name (to_confirm (ctx st'))
      = pred (occurrences param_name (to_confirm (ctx st1)))
    ∧ ((occurrences param_name (to_confirm (ctx st1)) ≤ 1)%nat →
       param_name ∉ to_confirm (ctx st'))
    ∧ confirming (ctx st')
      = (if decide (confirming (ctx st1) = VStr param_name) then VNull
         else confirming (ctx st1))
    ∧ previous (ctx st')
      = (if truthy (or_default (VBool false) is_change) then previous (ctx st1)
         else Previous (param_name :: prev_confirmed (previous (ctx st1)))
                       (param_name :: prev_processed (previous (ctx st1)))).
Proof.
  intros Hj Hget Hname Hproto Hok Hlive.
  destruct (add_parameter_outcome E param_name param_value is_change st st1 param
              Hj Hget Hname Hproto Hok Hlive) as (m' & s' & Hrun & _).
  eexists. split; [exact Hrun|]. cbn.
  split; [reflexivity|]. split; [apply occurrences_remove_first|].
  split.
  { intros Hle. apply occurrences_zero_not_in.
    rewrite occurrences_remove_first. lia. }
  split; reflexivity.
Qed.

Lemma add_parameter_queue_and_history_witness :
  json_stringify quiet_env (VStr "hello") asking_state = Ok () asking_state
  ∧ get_parameter "param_a" asking_state = Ok param_a_object asking_state
  ∧ ∃ st',
      add_parameter quiet_env "param_a" (VStr "hello") (VBool true) asking_state
      = Ok () st'
      ∧ to_confirm (ctx st') = ["param_b"]
      ∧ confirming (ctx st') = VNull
      ∧ previous (ctx st') = Previous [] [].
Proof.
  assert (Hj : json_stringify quiet_env (VStr "hello") asking_state
               = Ok () asking_state) by reflexivity.
  assert (Hget : get_parameter "param_a" asking_state
                 = Ok param_a_object asking_state)
    by (vm_compute; reflexivity).
  split; [exact Hj|]. split; [exact Hget|].
  destruct (add_parameter_queue_and_history quiet_env "param_a" (VStr "hello")
              (VBool true) asking_state asking_state param_a_object Hj Hget
              ltac:(discriminate) ltac:(discriminate)
              (λ H : false = true, match Bool.diff_false_true H with end) I)
    as (st' & Hrun & Hq & _ & _ & Hc & Hp).
  exists st'. split; [exact Hrun|].
  split; [rewrite Hq; reflexivity|].
  split; [rewrite Hc; reflexivity|].
  rewrite Hp. reflexivity.
Defined.

(** ** Change log *)

Lemma function_test v :
  truthy v && String.eqb (typeof v) "function" = is_function v.
Proof. destruct v as [| |[]| | | | | |]; try reflexivity; apply andb_false_r. Qed.

(** Reads and writes on the object most recently allocated, the last cell
    of the store. *)
Section FreshObject.

Variables (E : env) (c : context) (s : list cell) (t : list event).
Variable m : gmap string value.

Let here : state := State c (s ++ [CObj m])%list t.
Let there (m' : gmap string value) : state := State c (s ++ [CObj m'])%list t.

Lemma fresh_get_prop k :
  get_prop (VRef (length s)) k here = Ok (field m k) here.
Proof.
  unfold get_prop, get_field, here. cbn [store]. rewrite lookup_alloc.
  reflexivity.
Qed.

Lemma fresh_set_prop k x :
  String.eqb k "__proto__" = false →
  set_prop (VRef (length s)) k x here = Ok () (there (<[k := x]> m)).
Proof.
  intros Hk. unfold set_prop, here, there. cbn [store ctx trace].
  rewrite lookup_alloc, insert_alloc, Hk. reflexivity.
Qed.

Lemma fresh_stringify k :
  String.eqb k "__proto__" = false →
  stringify_if_function E (VRef (length s)) k here = Ok () (there (stringified k m)).
Proof.
  intros Hp. unfold stringify_if_function, stringified.
  rewrite (bind_ok _ _ _ _ _ (fresh_get_prop k)).
  destruct (field m k) eqn:Hk; try reflexivity.
  change (String.eqb (typeof (VFun f)) "function") with true. cbv iota.
  rewrite (bind_ok (to_string E (VFun f)) _ here (VStr (fn_source f)) here eq_refl).
  apply fresh_set_prop. exact Hp.
Qed.

Lemma fresh_message_block :
  (if truthy (field m "message") || truthy (field m "message_to_confirm") then
     if truthy (field m "message")
        && String.eqb (typeof (field m "message")) "function" then
       s0 ← to_string E (field m "message");
       set_prop (VRef (length s)) "message" s0
     else if truthy (field m "message_to_confirm")
             && String.eqb (typeof (field m "message_to_confirm")) "function" then
       s0 ← to_string E (field m "message_to_confirm");
       set_prop (VRef (length s)) "message" s0
     else mret ()
   else mret ()) here
  = Ok () (there (message_logged m)).
Proof.
  unfold message_logged. rewrite !function_test.
  destruct (is_function (field m "message")) eqn:Hm.
  - destruct (field m "message") as [| | | | |f| | |]; try discriminate Hm.
    cbn [truthy orb]. unfold to_string.
    rewrite (bind_ok (mret _) _ here _ here eq_refl).
    apply fresh_set_prop. reflexivity.
  - destruct (is_function (field m "message_to_confirm")) eqn:Hc.
    + destruct (field m "message_to_confirm") as [| | | | |g| | |];
        try discriminate Hc.
      cbn [truthy]. rewrite orb_true_r. unfold to_string.
      rewrite (bind_ok (mret _) _ here _ here eq_refl).
      rewrite fresh_set_prop by reflexivity.
      destruct (field m "message"); try discriminate Hm; reflexivity.
    + assert (Hsame : (match field m "message", field m "message_to_confirm" with
                       | VFun f, _ => <["message" := VStr (fn_source f)]> m
                       | _, VFun g => <["message" := VStr (fn_source g)]> m
                       | _, _ => m
                       end) = m).
      { destruct (field m "message"); try discriminate Hm;
          destruct (field m "message_to_confirm"); try discriminate Hc;
          reflexivity. }
      rewrite Hsame.
      destruct (truthy (field m "message") || truthy (field m "message_to_confirm"));
        reflexivity.
Qed.

Lemma fresh_function_block k :
  String.eqb k "__proto__" = false →
  (if truthy (field m k) then stringify_if_function E (VRef (length s)) k
   else mret ()) here
  = Ok () (there (stringified k m)).
Proof.
  intros Hp.
  destruct (truthy (field m k)) eqn:Ht; [apply fresh_stringify; exact Hp|].
  unfold stringified. destruct (field m k); try discriminate; reflexivity.
Qed.

Lemma fresh_reaction_block :
  truthy (field m "reaction") = false
  ∨ typeof (field m "reaction") = "function" →
  (if truthy (field m "reaction") then
     s0 ← to_string E (field m "reaction");
     set_prop (VRef (length s)) "reaction" s0
   else mret ()) here
  = Ok () (there (stringified "reaction" m)).
Proof.
  intros H. unfold stringified.
  destruct (field m "reaction") as [| |[]|z|str|f| | |];
    cbn [truthy typeof] in *;
    try reflexivity;
    try (destruct H as [H|H]; discriminate H).
  - destruct H as [H|H]; [|discriminate H]. rewrite H. reflexivity.
  - destruct H as [H|H]; [|discriminate H]. rewrite H. reflexivity.
  - unfold to_string.
    rewrite (bind_ok (mret _) _ here _ here eq_refl).
    apply fresh_set_prop. reflexivity.
Qed.

End FreshObject.

Lemma stringified_lookup_ne k j m : j ≠ k → stringified k m !! j = m !! j.
Proof.
  intros Hne. unfold stringified.
  destruct (field m k); try reflexivity.
  apply lookup_insert_ne. congruence.
Qed.

Lemma field_some m k v :
  String.eqb k "__proto__" = false → object_field k = VUndef →
  field m k = v → v ≠ VUndef → m !! k = Some v.
Proof.
  intros Hp Ho. rewrite (field_own m k Hp Ho).
  destruct (m !! k); simpl; intros <-; congruence.
Qed.

Lemma stringified_lookup_eq k m :
  String.eqb k "__proto__" = false → object_field k = VUndef →
  stringified k m !! k = source_text <$> m !! k.
Proof.
  intros Hp Ho.
  unfold stringified. destruct (field m k) eqn:Hk;
    try (destruct (m !! k) as [v|] eqn:Hv; [|reflexivity];
         rewrite (field_own m k Hp Ho) in Hk; rewrite Hv in Hk; simpl in Hk;
         subst v; reflexivity).
  rewrite lookup_insert_eq.
  rewrite (field_some m k _ Hp Ho Hk) by discriminate. reflexivity.
Qed.

Lemma message_logged_lookup_ne j m :
  j ≠ "message" → message_logged m !! j = m !! j.
Proof.
  intros Hne. unfold message_logged.
  destruct (field m "message"); try reflexivity;
    try (apply lookup_insert_ne; congruence);
    destruct (field m "message_to_confirm"); try reflexivity;
    apply lookup_insert_ne; congruence.
Qed.

Lemma message_logged_lookup_eq m :
  message_logged m !! "message" = logged_lookup m "message".
Proof.
  unfold message_logged, logged_lookup. cbn [String.eqb].
  change (String.eqb "message" "message") with true. cbv iota.
  destruct (field m "message"); try (apply lookup_insert_eq);
    destruct (field m "message_to_confirm"); try reflexivity;
    apply lookup_insert_eq.
Qed.

Lemma logged_map_lookup m k :
  stringified "reaction" (stringified "parser" (stringified "condition"
    (message_logged m))) !! k
  = logged_lookup m k.
Proof.
  destruct (decide (k = "message")) as [->|Hm].
  { rewrite !stringified_lookup_ne by discriminate.
    apply message_logged_lookup_eq. }
  unfold logged_lookup.
  rewrite (proj2 (String.eqb_neq k "message") Hm).
  destruct (decide (k = "condition")) as [->|Hc].
  { rewrite !stringified_lookup_ne by discriminate.
    rewrite stringified_lookup_eq by reflexivity.
    rewrite message_logged_lookup_ne by discriminate.
    reflexivity. }
  rewrite (proj2 (String.eqb_neq k "condition") Hc).
  destruct (decide (k = "parser")) as [->|Hp].
  { rewrite stringified_lookup_ne by discriminate.
    rewrite stringified_lookup_eq by reflexivity.
    rewrite stringified_lookup_ne by discriminate.
    rewrite message_logged_lookup_ne by discriminate. reflexivity. }
  rewrite (proj2 (String.eqb_neq k "parser") Hp).
  destruct (decide (k = "reaction")) as [->|Hr].
  { rewrite stringified_lookup_eq by reflexivity.
    rewrite !stringified_lookup_ne by discriminate.
    rewrite message_logged_lookup_ne by discriminate. reflexivity. }
  rewrite (proj2 (String.eqb_neq k "reaction") Hr). cbn [orb].
  rewrite !stringified_lookup_ne by assumption.
  apply message_logged_lookup_ne. assumption.
Qed.

Lemma logged_reaction_field m :
  field (stringified "parser" (stringified "condition" (message_logged m)))
    "reaction"
  = field m "reaction".
Proof.
  unfold field. rewrite !stringified_lookup_ne by discriminate.
  rewrite message_logged_lookup_ne by discriminate. reflexivity.
Qed.

(** The run of [_save_param_change_log] on a definition whose [reaction],
    if any, is a function. *)
Lemma save_param_change_log_run E param_type param_name param_orig st :
  truthy (field (own_props (store st) param_orig) "reaction") = false
  ∨ typeof (field (own_props (store st) param_orig) "reaction") = "function" →
  _save_param_change_log E param_type param_name param_orig st
  = Ok () (State
      (set_param_change_history (ctx st)
         (Some (ChangeLog param_type param_name (VRef (length (store st)))
                :: default [] (param_change_history (ctx st)))))
      (store st ++ [CObj (stringified "reaction" (stringified "parser"
                      (stringified "condition"
                         (message_logged (own_props (store st) param_orig)))))])%list
      (trace st)).
Proof.
  intros Hreact. set (m := own_props (store st) param_orig) in *.
  rewrite <- logged_reaction_field in Hreact.
  unfold _save_param_change_log.
  rewrite (bind_ok get_state _ st st st eq_refl). fold m.
  rewrite (bind_ok (alloc (CObj m)) _ st (VRef (length (store st)))
             (State (ctx st) (store st ++ [CObj m])%list (trace st)) eq_refl).
  assert (Hinit : ∃ c1,
    (match param_change_history (ctx st) with
     | Some _ => mret ()
     | None => modify_ctx (λ c, set_param_change_history c (Some []))
     end) (State (ctx st) (store st ++ [CObj m])%list (trace st))
    = Ok () (State c1 (store st ++ [CObj m])%list (trace st))
    ∧ set_param_change_history c1
        (Some (ChangeLog param_type param_name (VRef (length (store st)))
               :: default [] (param_change_history c1)))
      = set_param_change_history (ctx st)
          (Some (ChangeLog param_type param_name (VRef (length (store st)))
                 :: default [] (param_change_history (ctx st))))).
  { destruct (param_change_history (ctx st)) as [h|] eqn:Hh.
    - exists (ctx st). rewrite Hh. split; reflexivity.
    - exists (set_param_change_history (ctx st) (Some [])). split; reflexivity. }
  destruct Hinit as (c1 & Hinit & Hc1).
  rewrite (bind_ok _ _ _ _ _ Hinit).
  rewrite (bind_ok _ _ _ _ _ (fresh_get_prop _ _ _ _ "message")).
  rewrite (bind_ok _ _ _ _ _ (fresh_get_prop _ _ _ _ "message_to_confirm")).
  rewrite (bind_ok _ _ _ _ _ (fresh_message_block E _ _ _ _)).
  rewrite (bind_ok _ _ _ _ _ (fresh_get_prop _ _ _ _ "condition")).
  rewrite (bind_ok _ _ _ _ _ (fresh_function_block E _ _ _ _ "condition" eq_refl)).
  rewrite (bind_ok _ _ _ _ _ (fresh_get_prop _ _ _ _ "parser")).
  rewrite (bind_ok _ _ _ _ _ (fresh_function_block E _ _ _ _ "parser" eq_refl)).
  rewrite (bind_ok _ _ _ _ _ (fresh_get_prop _ _ _ _ "reaction")).
  rewrite (bind_ok _ _ _ _ _ (fresh_reaction_block E _ _ _ _ Hreact)).
  unfold modify_ctx. cbn [ctx store trace]. rewrite Hc1. reflexivity.
Qed.

(** C9, as stated, fails for a definition that carries a [message] object
    next to a function under the older name [message_to_confirm]: the
    record's [message] is the source text of that function, not the
    object the definition had. *)
Lemma message_object_not_passed_through :
  get_field (store definitions_state) (VRef 6) "message" = VRef 5
  ∧ is_function (VRef 5) = false
  ∧ newest_logged
      (final_state (_save_param_change_log quiet_env "required_parameter"
                      "param_a" (VRef 6) definitions_state))
      "message"
    = VStr (fn_source message_fn)
  ∧ ¬ newest_logged
        (final_state (_save_param_change_log quiet_env "required_parameter"
                        "param_a" (VRef 6) definitions_state))
        "message"
      = VRef 5.
Proof.
  split; [vm_compute; reflexivity|]. split; [reflexivity|].
  split; [vm_compute; reflexivity|].
  vm_compute. discriminate.
Qed.

(** What the amended claim leaves out: a [reaction] that is not a function
    is not passed through either, [toString()] is called on it as on a
    function ([condition] and [parser] are tested with [typeof] first). *)
Lemma number_reaction_is_stringified :
  newest_logged
    (final_state (_save_param_change_log quiet_env "required_parameter"
                    "param_a" (VRef 0) number_reaction_state))
    "reaction"
  = VStr "5".
Proof. vm_compute. reflexivity. Qed.

(** C9 (amended): for a definition whose [reaction], if set, is a function,
    [_save_param_change_log(type, name, def)] returns, having put the
    record [{type, name, param}] at the front of [param_change_history]
    (an empty history is made first if there was none); [param] is a new
    object in which a function under [message], [condition], [parser] or
    [reaction] is replaced by its source text, [message] is the source
    text of [message_to_confirm] when that is a function and [message] is
    not, and every other property is the definition's own.  The objects
    that were in the store are left as they were and no foreign code
    runs. *)
Theorem save_param_change_log_record E param_type param_name param_orig st :
  truthy (field (own_props (store st) param_orig) "reaction") = false
  ∨ typeof (field (own_props (store st) param_orig) "reaction") = "function" →
  ∃ st' m',
    _save_param_change_log E param_type param_name param_orig st = Ok () st'
    ∧ param_change_history (ctx st')
      = Some (ChangeLog param_type param_name (VRef (length (store st)))
              :: default [] (param_change_history (ctx st)))
    ∧ store st' !! length (store st) = Some (CObj m')
    ∧ (∀ k, m' !! k = logged_lookup (own_props (store st) param_orig) k)
    ∧ (∀ l, l < length (store st) → store st' !! l = store st !! l)
    ∧ trace st' = trace st.
Proof.
  intros Hreact. eexists. eexists.
  split; [apply save_param_change_log_run; exact Hreact|].
  cbn [ctx store trace].
  split; [reflexivity|].
  split; [apply lookup_alloc|].
  split; [apply logged_map_lookup|].
  split; [|reflexivity].
  intros l Hl. apply lookup_app_l. exact Hl.
Qed.

Lemma save_param_change_log_record_witness :
  (truthy (field (own_props (store definitions_state) (VRef 7)) "reaction") = false
   ∨ typeof (field (own_props (store definitions_state) (VRef 7)) "reaction")
     = "function")
  ∧ ∃ st' m',
      _save_param_change_log quiet_env "required_parameter" "param_a" (VRef 7)
        definitions_state = Ok () st'
      ∧ store st' !! 8 = Some (CObj m')
      ∧ m' !! "message" = Some (VStr (fn_source message_fn))
      ∧ m' !! "parser" = Some (VStr (fn_source parser_fn))
      ∧ m' !! "list" = Some (VBool true).
Proof.
  assert (H : truthy (field (own_props (store definitions_state) (VRef 7))
                        "reaction") = false
              ∨ typeof (field (own_props (store definitions_state) (VRef 7))
                          "reaction") = "function")
    by (left; vm_compute; reflexivity).
  split; [exact H|].
  destruct (save_param_change_log_record quiet_env "required_parameter"
              "param_a" (VRef 7) definitions_state H)
    as (st' & m' & Hrun & _ & Hcell & Hm & _).
  exists st', m'. split; [exact Hrun|]. split; [exact Hcell|].
  rewrite !Hm. repeat split; vm_compute; reflexivity.
Defined.

(** ** The entry point *)

(** What [apply_parameter] goes on to do once the parser has rejected the
    value with an [Error]: it commits the value the parser rejected and
    then reacts with the error. *)
Lemma apply_parameter_after_rejection E param_name param_value st e st1 :
  parse_parameter E param_name param_value VUndef st = Throw e st1 →
  is_nullish e = false →
  get_field (store st1) e "name" = VStr "Error" →
  apply_parameter E param_name param_value (VBool true) (VBool true) st
  = (add_parameter E param_name param_value VUndef;;
     react E e param_name param_value) st1.
Proof.
  intros Hparse Hnn Hname. unfold apply_parameter.
  cbn [or_default truthy].
  assert (Htry : try_parse E param_name param_value st
                 = Ok (param_value, e) st1).
  { unfold try_parse. rewrite Hparse.
    rewrite get_prop_ok by (destruct e; simpl in Hnn; congruence).
    rewrite Hname. rewrite decide_True by reflexivity. reflexivity. }
  rewrite (bind_ok _ _ _ _ _ Htry). reflexivity.
Qed.

(** C1 on the code: the parser of [param_b] rejects ["abc"], and
    [apply_parameter("param_b", "abc", true, true)] returns with
    [confirmed.param_b === "abc"], [param_b] gone from [to_confirm] and
    [confirming] cleared; the reaction was called with the error. *)
Theorem apply_parameter_commits_rejected_value :
  parse_parameter number_env "param_b" (VStr "abc") VUndef number_skill_state
  = Throw (new_Error "should be number")
      (State (ctx number_skill_state) (store number_skill_state)
         [EvCall number_parser [VStr "abc"]])
  ∧ ∃ st',
      apply_parameter number_env "param_b" (VStr "abc") (VBool true) (VBool true)
        number_skill_state = Ok () st'
      ∧ confirmed (ctx st') !! "param_b" = Some (VStr "abc")
      ∧ to_confirm (ctx st') = []
      ∧ confirming (ctx st') = VNull
      ∧ prev_confirmed (previous (ctx st')) = ["param_b"]
      ∧ trace st'
        = [EvCall number_parser [VStr "abc"];
           EvCall quiet_reaction [new_Error "should be number"; VStr "abc"]].
Proof.
  split; [vm_compute; reflexivity|].
  eexists. split; [vm_compute; reflexivity|].
  repeat split; vm_compute; reflexivity.
Qed.

(** ** The parser object is shared *)

Lemma get_field_frame s s' v k :
  same_cell s s' v → get_field s' v k = get_field s v k.
Proof. destruct v; simpl; try reflexivity. intros ->. reflexivity. Qed.

Lemma own_props_frame s s' v :
  same_cell s s' v → own_props s' v = own_props s v.
Proof. destruct v; simpl; try reflexivity. intros ->. reflexivity. Qed.

Lemma check_parameter_type_values st n :
  check_parameter_type st n = "required_parameter"
  ∨ check_parameter_type st n = "optional_parameter"
  ∨ check_parameter_type st n = "dynamic_parameter"
  ∨ check_parameter_type st n = "sub_parameter"
  ∨ check_parameter_type st n = "not_applicable".
Proof.
  unfold check_parameter_type.
  repeat match goal with
         | |- context [if ?b then _ else _] => destruct b
         end; auto.
Qed.

(** Two states with one context whose stores agree on every object the
    registry reads for [name]: the parameter is classified and resolved
    alike in both. *)
Section Frame.

Variables (c : context) (s s' : list cell) (t t' : list event).
Variable name : string.

Let st : state := State c s t.
Let st' : state := State c s' t'.

Hypothesis Hsame : ∀ v, v ∈ registry_path st name → same_cell s s' v.

Lemma frame_skill_field k : skill_field st' k = skill_field st k.
Proof.
  unfold skill_field. cbn [ctx store st st']. apply get_field_frame.
  apply Hsame. unfold registry_path. set_solver.
Qed.

Lemma frame_in_container k :
  k = "required_parameter" ∨ k = "optional_parameter" ∨ k = "dynamic_parameter" →
  in_container st' k name = in_container st k name.
Proof.
  intros Hk. unfold in_container. rewrite frame_skill_field.
  cbn [store st st']. rewrite (get_field_frame s s'); [reflexivity|].
  apply Hsame. unfold registry_path.
  destruct Hk as [-> | [-> | ->]]; set_solver.
Qed.

Lemma frame_check_parameter_type :
  check_parameter_type st' name = check_parameter_type st name.
Proof.
  unfold check_parameter_type. rewrite !frame_in_container by auto.
  reflexivity.
Qed.

Lemma frame_get_prop v k :
  same_cell s s' v →
  is_nullish v = false →
  get_prop v k st = Ok (get_field s v k) st
  ∧ get_prop v k st' = Ok (get_field s v k) st'.
Proof.
  intros Hv Hn. rewrite !get_prop_not_nullish by exact Hn.
  cbn [store st st']. rewrite (get_field_frame s s') by exact Hv. auto.
Qed.

Lemma frame_get_parameter param :
  get_parameter name st = Ok param st →
  get_parameter name st' = Ok param st'.
Proof.
  unfold get_parameter.
  rewrite (bind_ok get_state _ st st st eq_refl).
  rewrite (bind_ok get_state _ st' st' st' eq_refl).
  rewrite frame_check_parameter_type.
  destruct (String.eqb (check_parameter_type st name) "not_applicable") eqn:Hna;
    [discriminate|].
  assert (Hskill : same_cell s s' (VRef (skill c))).
  { apply Hsame. unfold registry_path. set_solver. }
  destruct (String.eqb (check_parameter_type st name) "sub_parameter") eqn:Hsub.
  - cbn [ctx store st st'].
    destruct (_parent_parameter c) as [p|] eqn:Hp; [|discriminate].
    assert (Hpath : ∀ v,
      v ∈ [ skill_field st (parent_type p);
            get_field s (skill_field st (parent_type p)) (parent_name p);
            get_field s (get_field s (skill_field st (parent_type p))
                           (parent_name p)) "sub_parameter";
            sub_parameter_entry st name ] → same_cell s s' v).
    { intros v Hv. apply Hsame. unfold registry_path, stored_definition.
      rewrite Hsub. cbn [ctx store st]. rewrite Hp.
      apply elem_of_app. right. exact Hv. }
    unfold sub_parameter_entry in Hpath. cbn [ctx store st] in Hpath.
    rewrite Hp in Hpath. unfold skill_field in Hpath. cbn [ctx store st] in Hpath.
    destruct (frame_get_prop (VRef (skill c)) (parent_type p) Hskill eq_refl)
      as [H1 H1'].
    rewrite (bind_ok _ _ _ _ _ H1), (bind_ok _ _ _ _ _ H1').
    set (v1 := get_field s (VRef (skill c)) (parent_type p)) in *.
    destruct (is_nullish v1) eqn:Hn1.
    { rewrite (bind_throw _ _ _ _ _ (get_prop_nullish v1 _ st Hn1)). discriminate. }
    assert (Hc1 : same_cell s s' v1) by (apply Hpath; set_solver).
    destruct (frame_get_prop v1 (parent_name p) Hc1 Hn1) as [H2 H2'].
    rewrite (bind_ok _ _ _ _ _ H2), (bind_ok _ _ _ _ _ H2').
    set (v2 := get_field s v1 (parent_name p)) in *.
    destruct (is_nullish v2) eqn:Hn2.
    { rewrite (bind_throw _ _ _ _ _ (get_prop_nullish v2 _ st Hn2)). discriminate. }
    assert (Hc2 : same_cell s s' v2) by (apply Hpath; set_solver).
    destruct (frame_get_prop v2 "sub_parameter" Hc2 Hn2) as [H3 H3'].
    rewrite (bind_ok _ _ _ _ _ H3), (bind_ok _ _ _ _ _ H3').
    set (v3 := get_field s v2 "sub_parameter") in *.
    destruct (is_nullish v3) eqn:Hn3.
    { rewrite (bind_throw _ _ _ _ _ (get_prop_nullish v3 _ st Hn3)). discriminate. }
    assert (Hc3 : same_cell s s' v3) by (apply Hpath; set_solver).
    destruct (frame_get_prop v3 name Hc3 Hn3) as [H4 H4'].
    rewrite (bind_ok _ _ _ _ _ H4), (bind_ok _ _ _ _ _ H4').
    rewrite (own_props_frame s s') by (apply Hpath; set_solver).
    intros H. injection H as <-. reflexivity.
  - cbn [ctx store st st'].
    assert (Hcont : same_cell s s' (skill_field st (check_parameter_type st name))).
    { apply Hsame. unfold registry_path.
      destruct (check_parameter_type_values st name) as [-> | [-> | [-> | [E | E]]]];
        [set_solver | set_solver | set_solver | | ].
      - rewrite E in Hsub. discriminate Hsub.
      - rewrite E in Hna. discriminate Hna. }
    assert (Hdef : same_cell s s'
              (get_field s (skill_field st (check_parameter_type st name)) name)).
    { apply Hsame. unfold registry_path, stored_definition. rewrite Hsub.
      cbn [store st]. set_solver. }
    unfold skill_field in Hcont, Hdef. cbn [ctx store st] in Hcont, Hdef.
    destruct (frame_get_prop (VRef (skill c)) (check_parameter_type st name)
                Hskill eq_refl) as [H1 H1'].
    rewrite (bind_ok _ _ _ _ _ H1), (bind_ok _ _ _ _ _ H1').
    set (v1 := get_field s (VRef (skill c)) (check_parameter_type st name)) in *.
    destruct (is_nullish v1) eqn:Hn1.
    { rewrite (bind_throw _ _ _ _ _ (get_prop_nullish v1 _ st Hn1)). discriminate. }
    destruct (frame_get_prop v1 name Hcont Hn1) as [H2 H2'].
    rewrite (bind_ok _ _ _ _ _ H2), (bind_ok _ _ _ _ _ H2').
    rewrite (own_props_frame s s') by exact Hdef.
    intros H. injection H as <-. reflexivity.
Qed.

End Frame.

(** The dispatch on a parser that is the object at [pl], with the name [k]
    of a built-in parser as its [type]. *)
Section SharedParser.

Variables (E : env) (st : state) (name : string).
Variables (pl : nat) (pm : gmap string value) (k : string).
Hypothesis Hpl : store st !! pl = Some (CObj pm).
Hypothesis Htype : pm !! "type" = Some (VStr k).
Hypothesis Hk : k ≠ "".

Lemma truthy_type : truthy (VStr k) = true.
Proof. simpl. destruct (String.eqb_spec k ""); [contradiction|reflexivity]. Qed.

(** The test of [parser.type] and the log line, in a state [s0] whose
    parser object has the type [k]. *)
Lemma run_parser_object_head (s0 : state) pm0 (rest : M value) :
  store s0 !! pl = Some (CObj pm0) →
  pm0 !! "type" = Some (VStr k) →
  (t ← get_prop (VRef pl) "type";
   if negb (truthy t) then throw (new_Error invalid_parser_object_message)
   else
     t ← get_prop (VRef pl) "type";
     ToString E t;;
     rest) s0
  = rest s0.
Proof.
  intros H0 Ht.
  rewrite (bind_ok _ _ _ _ _ (get_prop_obj pl "type" s0 pm0 H0)).
  rewrite (field_lookup _ _ _ Ht eq_refl). rewrite truthy_type. cbn [negb].
  rewrite (bind_ok _ _ _ _ _ (get_prop_obj pl "type" s0 pm0 H0)).
  rewrite (field_lookup _ _ _ Ht eq_refl).
  rewrite (bind_ok (ToString E (VStr k)) _ s0 (VStr k) s0 eq_refl).
  reflexivity.
Qed.

(** The look-up in the registry, likewise. *)
Lemma run_parser_object_tail v (s0 : state) pm0 :
  store s0 !! pl = Some (CObj pm0) →
  pm0 !! "type" = Some (VStr k) →
  (t ← get_prop (VRef pl) "type";
   key ← ToString E t;
   match key with
   | VStr k0 => builtin_parse E k0 v (get_prop (VRef pl) "policy")
   | _ => throw TypeError
   end) s0
  = builtin_parse E k v (get_prop (VRef pl) "policy") s0.
Proof.
  intros H0 Ht.
  rewrite (bind_ok _ _ _ _ _ (get_prop_obj pl "type" s0 pm0 H0)).
  rewrite (field_lookup _ _ _ Ht eq_refl).
  rewrite (bind_ok (ToString E (VStr k)) _ s0 (VStr k) s0 eq_refl).
  reflexivity.
Qed.

Lemma run_parser_object v :
  run_parser E name (VRef pl) v st
  = (p0 ← get_prop (VRef pl) "policy";
     (if negb (truthy p0) then
        o ← alloc (CObj ∅);
        set_prop (VRef pl) "policy" o
      else mret ());;
     policy ← get_prop (VRef pl) "policy";
     pn ← get_prop policy "parameter_name";
     set_prop policy "parameter_name" (if truthy pn then pn else VStr name);;
     t ← get_prop (VRef pl) "type";
     key ← ToString E t;
     match key with
     | VStr k0 => builtin_parse E k0 v (get_prop (VRef pl) "policy")
     | _ => throw TypeError
     end) st.
Proof.
  unfold run_parser. cbn [typeof].
  change (String.eqb "object" "function") with false.
  change (String.eqb "object" "string") with false.
  change (String.eqb "object" "object") with true. cbv iota.
  apply (run_parser_object_head st pm _ Hpl Htype).
Qed.

(** With no policy yet: a policy object is made, put on the parser and
    named, and the built-in parser is called. *)
Lemma run_parser_fresh_policy v :
  truthy (field pm "policy") = false →
  run_parser E name (VRef pl) v st
  = builtin_parse E k v (get_prop (VRef pl) "policy")
      (State (ctx st)
         (<[length (store st) := CObj {[ "parameter_name" := VStr name ]}]>
            (<[pl := CObj (<["policy" := VRef (length (store st))]> pm)]>
               (store st ++ [CObj ∅])%list))
         (trace st)).
Proof.
  intros Hpol. rewrite run_parser_object.
  assert (Hlt : pl < length (store st)) by (eapply lookup_lt_Some; exact Hpl).
  rewrite (bind_ok _ _ _ _ _ (get_prop_obj pl "policy" st pm Hpl)).
  rewrite Hpol. cbn [negb].
  set (s := store st) in *. set (o := length s).
  set (pm2 := <["policy" := VRef o]> pm).
  set (s1 := (s ++ [CObj ∅])%list).
  set (s2 := <[pl := CObj pm2]> s1).
  set (s3 := <[o := CObj {[ "parameter_name" := VStr name ]}]> s2).
  assert (H1 : s1 !! pl = Some (CObj pm)).
  { unfold s1. rewrite lookup_app_l by exact Hlt. exact Hpl. }
  assert (H2 : s2 !! pl = Some (CObj pm2)).
  { unfold s2. apply list_lookup_insert_eq. unfold s1.
    rewrite length_app. simpl. lia. }
  assert (H2o : s2 !! o = Some (CObj ∅)).
  { unfold s2. rewrite list_lookup_insert_ne by (unfold o; lia).
    apply lookup_alloc. }
  assert (H3 : s3 !! pl = Some (CObj pm2)).
  { unfold s3. rewrite list_lookup_insert_ne by (unfold o; lia). exact H2. }
  assert (Hblk : (alloc (CObj ∅) ≫= λ o0, set_prop (VRef pl) "policy" o0) st
                 = Ok () (State (ctx st) s2 (trace st))).
  { rewrite (bind_ok (alloc (CObj ∅)) _ st (VRef o)
               (State (ctx st) s1 (trace st)) eq_refl).
    apply (set_prop_obj pl "policy" (VRef o) (State (ctx st) s1 (trace st)) pm
             H1 eq_refl). }
  rewrite (bind_ok _ _ _ _ _ Hblk).
  rewrite (bind_ok _ _ _ _ _
             (get_prop_obj pl "policy" (State (ctx st) s2 (trace st)) pm2 H2)).
  assert (Hpol2 : field pm2 "policy" = VRef o).
  { apply field_lookup; [apply lookup_insert_eq|reflexivity]. }
  rewrite Hpol2.
  rewrite (bind_ok _ _ _ _ _
             (get_prop_obj o "parameter_name" (State (ctx st) s2 (trace st)) ∅ H2o)).
  change (truthy (field ∅ "parameter_name")) with false. cbv iota.
  rewrite (bind_ok _ _ _ _ _
             (set_prop_obj o "parameter_name" (VStr name)
                (State (ctx st) s2 (trace st)) ∅ H2o eq_refl)).
  cbn [ctx store trace]. fold s3.
  apply (run_parser_object_tail v (State (ctx st) s3 (trace st)) pm2 H3).
  unfold pm2. rewrite lookup_insert_ne by discriminate. exact Htype.
Qed.

(** With a policy object that has no name yet: it is named, and the
    built-in parser is called. *)
Lemma run_parser_existing_policy v ql qm :
  field pm "policy" = VRef ql →
  store st !! ql = Some (CObj qm) →
  truthy (field qm "parameter_name") = false →
  run_parser E name (VRef pl) v st
  = builtin_parse E k v (get_prop (VRef pl) "policy")
      (State (ctx st)
         (<[ql := CObj (<["parameter_name" := VStr name]> qm)]> (store st))
         (trace st))
  ∧ get_field (<[ql := CObj (<["parameter_name" := VStr name]> qm)]> (store st))
      (VRef pl) "policy" = VRef ql.
Proof.
  intros Hpol Hql Hpn.
  set (s1 := <[ql := CObj (<["parameter_name" := VStr name]> qm)]> (store st)).
  assert (Hlt : ql < length (store st)) by (eapply lookup_lt_Some; exact Hql).
  assert (H1 : ∃ pm1, s1 !! pl = Some (CObj pm1) ∧ field pm1 "policy" = VRef ql
                      ∧ pm1 !! "type" = Some (VStr k)).
  { destruct (decide (pl = ql)) as [->|Hne].
    - exists (<["parameter_name" := VStr name]> qm). split.
      + unfold s1. apply list_lookup_insert_eq. exact Hlt.
      + assert (qm = pm) by congruence. subst qm. split.
        * unfold field. rewrite lookup_insert_ne by discriminate. exact Hpol.
        * rewrite lookup_insert_ne by discriminate. exact Htype.
    - exists pm. split; [|split; [exact Hpol|exact Htype]].
      unfold s1. rewrite list_lookup_insert_ne by congruence. exact Hpl. }
  destruct H1 as (pm1 & H1 & Hpol1 & Htype1).
  split.
  - rewrite run_parser_object.
    rewrite (bind_ok _ _ _ _ _ (get_prop_obj pl "policy" st pm Hpl)).
    rewrite Hpol. cbn [truthy negb].
    rewrite (bind_ok (mret ()) _ st () st eq_refl).
    rewrite (bind_ok _ _ _ _ _ (get_prop_obj pl "policy" st pm Hpl)).
    rewrite Hpol.
    rewrite (bind_ok _ _ _ _ _ (get_prop_obj ql "parameter_name" st qm Hql)).
    rewrite Hpn.
    rewrite (bind_ok _ _ _ _ _
               (set_prop_obj ql "parameter_name" (VStr name) st qm Hql eq_refl)).
    fold s1.
    apply (run_parser_object_tail v (State (ctx st) s1 (trace st)) pm1 H1 Htype1).
  - unfold get_field. rewrite H1. exact Hpol1.
Qed.

End SharedParser.

Lemma get_field_falsy s v :
  truthy v = false → get_field s v "parameter_name" = VUndef.
Proof.
  destruct v as [| |b|z|str| | | |]; try discriminate; try reflexivity.
  simpl. destruct (String.eqb_spec str ""); [|discriminate].
  subst str. reflexivity.
Qed.



(** * Further properties *)

(** ** The registry does not look at the rest of the context *)

Lemma bind_retag {A B} (m : M A) (f : A → M B) st st' :
  m st' = retag (m st) st' →
  final_state (m st) = st →
  (∀ a, f a st' = retag (f a st) st') →
  (m ≫= f) st' = retag ((m ≫= f) st) st'.
Proof.
  intros Hm Hst Hf. munfold. rewrite Hm.
  destruct (m st) as [a st1|e st1]; simpl in *; subst; [apply Hf|reflexivity].
Qed.

Lemma get_prop_retag v k st st' :
  store st' = store st → get_prop v k st' = retag (get_prop v k st) st'.
Proof. intros Hs. destruct v; simpl; rewrite ?Hs; reflexivity. Qed.

Section SameRegistry.

Variables (st st' : state) (name : string).
Hypothesis Hstore : store st' = store st.
Hypothesis Hskill : skill (ctx st') = skill (ctx st).
Hypothesis Hsub : _sub_parameter (ctx st') = _sub_parameter (ctx st).
Hypothesis Hparent : _parent_parameter (ctx st') = _parent_parameter (ctx st).

Lemma same_registry_check :
  check_parameter_type st' name = check_parameter_type st name.
Proof.
  unfold check_parameter_type, in_container, skill_field.
  rewrite Hstore, Hskill, Hsub. reflexivity.
Qed.

Lemma same_registry_get_parameter :
  get_parameter name st' = retag (get_parameter name st) st'.
Proof.
  unfold get_parameter.
  rewrite (bind_ok get_state _ st st st eq_refl).
  rewrite (bind_ok get_state _ st' st' st' eq_refl).
  rewrite same_registry_check, Hstore, Hskill, Hparent.
  destruct (String.eqb (check_parameter_type st name) "not_applicable");
    [reflexivity|].
  destruct (String.eqb (check_parameter_type st name) "sub_parameter").
  - destruct (_parent_parameter (ctx st)) as [p|]; [|reflexivity].
    repeat (apply bind_retag;
            [apply get_prop_retag; exact Hstore|apply get_prop_state|intros ?]).
    reflexivity.
  - repeat (apply bind_retag;
            [apply get_prop_retag; exact Hstore|apply get_prop_state|intros ?]).
    reflexivity.
Qed.

End SameRegistry.

(** ** A parameter the skill does not have *)

Lemma get_parameter_unknown st name :
  check_parameter_type st name = "not_applicable" →
  get_parameter name st = Throw (new_Error (not_found_message name)) st.
Proof.
  intros H. unfold get_parameter. munfold. rewrite H. reflexivity.
Qed.

(** Every entry point refuses a name that is [not_applicable] with the
    not-found error and leaves the state as it was: nothing is committed,
    no parser or reaction runs.  [apply_parameter] does so whether or not
    it was asked to parse: the error of [parse_parameter] is taken for a
    rejection, and [add_parameter] then raises it again.  The value is
    one that [JSON.stringify] serialises without running code of its
    own. *)
Theorem unknown_parameter_refused E st name v error strict is_change parse react_ :
  check_parameter_type st name = "not_applicable" →
  json_stringify E v st = Ok () st →
  get_parameter name st = Throw (new_Error (not_found_message name)) st
  ∧ parse_parameter E name v strict st
    = Throw (new_Error (not_found_message name)) st
  ∧ add_parameter E name v is_change st
    = Throw (new_Error (not_found_message name)) st
  ∧ (no_flag (ctx st) →
     react E error name v st = Throw (new_Error (not_found_message name)) st)
  ∧ apply_parameter E name v parse react_ st
    = Throw (new_Error (not_found_message name)) st.
Proof.
  intros H Hj. pose proof (get_parameter_unknown st name H) as Hget.
  assert (Hparse : ∀ s0, parse_parameter E name v s0 st
                         = Throw (new_Error (not_found_message name)) st).
  { intros s0. apply (parse_parameter_not_found E st st); assumption. }
  assert (Hadd : ∀ ic, add_parameter E name v ic st
                       = Throw (new_Error (not_found_message name)) st).
  { intros ic. unfold add_parameter.
    rewrite (bind_ok _ _ _ _ _ Hj). apply bind_throw. exact Hget. }
  split; [exact Hget|]. split; [apply Hparse|]. split; [apply Hadd|].
  split.
  - intros (Hp & He & Hi). unfold react.
    rewrite (bind_ok get_state _ st st st eq_refl).
    rewrite Hp, He, Hi. cbn [orb]. apply bind_throw. exact Hget.
  - unfold apply_parameter.
    destruct (truthy (or_default (VBool false) parse)).
    + assert (Htry : try_parse E name v st
                     = Ok (v, new_Error (not_found_message name)) st).
      { unfold try_parse. rewrite Hparse. reflexivity. }
      rewrite (bind_ok _ _ _ _ _ Htry). apply bind_throw. apply Hadd.
    + rewrite (bind_ok (mret (v, VUndef)) _ st _ st eq_refl).
      apply bind_throw. apply Hadd.
Qed.

Lemma unknown_parameter_refused_witness :
  check_parameter_type plain_skill_state "param_z" = "not_applicable"
  ∧ apply_parameter quiet_env "param_z" (VStr "abc") (VBool true) (VBool true)
      plain_skill_state
    = Throw (new_Error (not_found_message "param_z")) plain_skill_state.
Proof.
  split; [vm_compute; reflexivity|].
  apply (unknown_parameter_refused quiet_env plain_skill_state "param_z"
           (VStr "abc") VUndef VUndef VUndef (VBool true) (VBool true)).
  - vm_compute. reflexivity.
  - reflexivity.
Defined.
(** ** Scalar parameters *)

Lemma add_parameter_scalar_run E name v is_change st param :
  json_stringify E v st = Ok () st →
  get_parameter name st = Ok param st →
  name ≠ "__proto__" →
  truthy (field param "list") = false →
  add_parameter E name v is_change st
  = Ok () (State
             (committed_context (ctx st) (<[name := v]> (confirmed (ctx st)))
                name is_change)
             (store st) (trace st)).
Proof.
  intros Hj Hget Hname Hl. unfold add_parameter.
  rewrite (bind_ok _ _ _ _ _ Hj). rewrite (bind_ok _ _ _ _ _ Hget).
  rewrite Hl. apply add_parameter_bookkeeping.
  apply set_confirmed_prop_run. apply String.eqb_neq. exact Hname.
Qed.

(** A commit changes nothing the registry reads: what was found before is
    found after. *)
Lemma get_parameter_after_commit name n m is_change st t' param :
  get_parameter name st = Ok param st →
  get_parameter name (State (committed_context (ctx st) m n is_change) (store st) t')
  = Ok param (State (committed_context (ctx st) m n is_change) (store st) t').
Proof.
  intros Hget.
  rewrite (same_registry_get_parameter st
             (State (committed_context (ctx st) m n is_change) (store st) t')
             name eq_refl eq_refl eq_refl eq_refl).
  rewrite Hget. reflexivity.
Qed.


(** ** Which reaction runs *)

(** [react] once no flag is raised and the parameter is found. *)
Lemma react_found E st error name v param :
  no_flag (ctx st) →
  get_parameter name st = Ok param st →
  match configured_reaction st param name with
  | VFun f => react E error name v st = reaction_call E f error v st
  | r => if truthy r then react E error name v st = Throw TypeError st
         else react E error name v st = Ok () st
  end.
Proof.
  intros (Hp & He & Hi) Hget. unfold react, configured_reaction.
  rewrite (bind_ok get_state _ st st st eq_refl).
  rewrite Hp, He, Hi. cbn [orb].
  rewrite (bind_ok _ _ _ _ _ Hget).
  rewrite (bind_ok get_state _ st st st eq_refl).
  destruct (truthy (field param "reaction")) eqn:Hr.
  - destruct (field param "reaction"); try discriminate Hr; try reflexivity;
      cbn [truthy] in *; rewrite ?Hr; reflexivity.
  - destruct (skill_field st ("reaction_" ++ name)) as [| |b|z|s0|f|l|n m|p];
      try reflexivity.
    + destruct b; reflexivity.
    + simpl. destruct (z =? 0)%Z; reflexivity.
    + simpl. destruct (String.eqb s0 ""); reflexivity.
Qed.

(** With no flow flag raised and the parameter found, [react] settles on
    the definition's [reaction] before the skill's [reaction_<name>].
    When that is a function it is called once, with the error and the
    value; when nothing is configured [react] returns and the state is as
    it was; a truthy reaction that is no function makes [react] throw the
    engine's [TypeError], nothing having run. *)
Theorem react_dispatch E st error name v param :
  no_flag (ctx st) →
  get_parameter name st = Ok param st →
  match configured_reaction st param name with
  | VFun f => react E error name v st = reaction_call E f error v st
  | r => if truthy r then react E error name v st = Throw TypeError st
         else react E error name v st = Ok () st
  end.
Proof.
  intros Hflags Hget. apply react_found; assumption.
Qed.

Lemma react_dispatch_witness :
  no_flag (ctx number_skill_state)
  ∧ react number_env (new_Error "should be number") "param_b" (VStr "abc")
      number_skill_state
    = reaction_call number_env quiet_reaction (new_Error "should be number")
        (VStr "abc") number_skill_state.
Proof.
  assert (Hflags : no_flag (ctx number_skill_state)) by (repeat split).
  split; [exact Hflags|].
  assert (Hget : ∃ p, get_parameter "param_b" number_skill_state
                      = Ok p number_skill_state
                      ∧ configured_reaction number_skill_state p "param_b"
                        = VFun quiet_reaction).
  { eexists. split; vm_compute; reflexivity. }
  destruct Hget as (p & Hget & Hc).
  pose proof (react_dispatch number_env number_skill_state
                (new_Error "should be number") "param_b" (VStr "abc") p
                Hflags Hget) as H.
  rewrite Hc in H. exact H.
Defined.

(** [switch_skill] ends the reactions of the turn: whatever intent it
    was given, and whether it returned or threw, [react] does nothing in
    the state it leaves. *)
Theorem react_after_switch_skill E intent st error name v :
  react E error name v (final_state (switch_skill intent st))
  = Ok () (final_state (switch_skill intent st)).
Proof.
  assert (He : truthy (_exit (ctx (final_state (switch_skill intent st)))) = true).
  { unfold switch_skill, exit. munfold. cbv beta.
    destruct (get_prop intent "name" _) as [n s1|e s1] eqn:Hg.
    - pose proof (get_prop_state intent "name"
                    (State (set_exit (ctx st) (VBool true)) (store st) (trace st)))
        as Hs.
      rewrite Hg in Hs. simpl in Hs. subst s1.
      destruct (negb _); reflexivity.
    - pose proof (get_prop_state intent "name"
                    (State (set_exit (ctx st) (VBool true)) (store st) (trace st)))
        as Hs.
      rewrite Hg in Hs. simpl in Hs. subst s1. reflexivity. }
  unfold react. rewrite (bind_ok get_state _ _ _ _ eq_refl).
  rewrite He. rewrite orb_true_r. reflexivity.
Qed.

(** ** More on the entry point *)

(** Applying with [parse] is parsing and then applying what the parser
    returned without [parse]: when the parser accepts, its answer, not the
    raw value, is committed and handed to the reaction, and the reaction
    sees no error. *)
Theorem apply_parameter_accepted E st name v parse react_ w st1 :
  truthy (or_default (VBool false) parse) = true →
  parse_parameter E name v VUndef st = Ok w st1 →
  apply_parameter E name v parse react_ st
  = apply_parameter E name w VUndef react_ st1.
Proof.
  intros Hp Hparse. unfold apply_parameter. rewrite Hp. cbn [or_default truthy].
  assert (Htry : try_parse E name v st = Ok (w, VUndef) st1).
  { unfold try_parse. rewrite Hparse. reflexivity. }
  rewrite (bind_ok _ _ _ _ _ Htry).
  rewrite (bind_ok (mret (w, VUndef)) _ st1 _ st1 eq_refl). reflexivity.
Qed.

Lemma apply_parameter_accepted_witness :
  truthy (or_default (VBool false) (VBool true)) = true
  ∧ parse_parameter number_env "param_b" (VNum 3) VUndef number_skill_state
    = Ok (VNum 3)
        (State (ctx number_skill_state) (store number_skill_state)
           [EvCall number_parser [VNum 3]])
  ∧ apply_parameter number_env "param_b" (VNum 3) (VBool true) VUndef
      number_skill_state
    = apply_parameter number_env "param_b" (VNum 3) VUndef VUndef
        (State (ctx number_skill_state) (store number_skill_state)
           [EvCall number_parser [VNum 3]]).
Proof.
  assert (Hparse : parse_parameter number_env "param_b" (VNum 3) VUndef
                     number_skill_state
                   = Ok (VNum 3)
                       (State (ctx number_skill_state) (store number_skill_state)
                          [EvCall number_parser [VNum 3]]))
    by (vm_compute; reflexivity).
  split; [reflexivity|]. split; [exact Hparse|].
  apply (apply_parameter_accepted number_env number_skill_state "param_b"
           (VNum 3) (VBool true) VUndef (VNum 3) _ eq_refl Hparse).
Defined.

(** What [parse_parameter] throws that is not an [Error] (an object whose
    [name] is not ["Error"], such as a [TypeError], or a thrown string or
    number) is no rejection: [apply_parameter] throws it on from the state
    the parser left, so nothing is committed and no reaction runs.  A
    thrown [undefined] or [null] ends in the engine's [TypeError] instead,
    raised by the handler reading [e.name]. *)
Theorem apply_parameter_rethrows E st name v parse react_ e st1 :
  truthy (or_default (VBool false) parse) = true →
  parse_parameter E name v VUndef st = Throw e st1 →
  get_field (store st1) e "name" ≠ VStr "Error" →
  apply_parameter E name v parse react_ st
  = Throw (if is_nullish e then TypeError else e) st1.
Proof.
  intros Hp Hparse Hname. unfold apply_parameter. rewrite Hp.
  apply bind_throw. unfold try_parse. rewrite Hparse.
  destruct (is_nullish e) eqn:Hn.
  - rewrite (get_prop_nullish e "name" st1 Hn). reflexivity.
  - rewrite (get_prop_not_nullish e "name" st1 Hn).
    rewrite decide_False by exact Hname. reflexivity.
Qed.

Lemma apply_parameter_rethrows_witness :
  parse_parameter faulty_env "param_b" (VStr "abc") VUndef number_skill_state
  = Throw TypeError
      (State (ctx number_skill_state) (store number_skill_state)
         [EvCall number_parser [VStr "abc"]])
  ∧ apply_parameter faulty_env "param_b" (VStr "abc") (VBool true) (VBool true)
      number_skill_state
    = Throw TypeError
        (State (ctx number_skill_state) (store number_skill_state)
           [EvCall number_parser [VStr "abc"]]).
Proof.
  assert (Hparse : parse_parameter faulty_env "param_b" (VStr "abc") VUndef
                     number_skill_state
                   = Throw TypeError
                       (State (ctx number_skill_state) (store number_skill_state)
                          [EvCall number_parser [VStr "abc"]]))
    by (vm_compute; reflexivity).
  split; [exact Hparse|].
  apply (apply_parameter_rethrows faulty_env number_skill_state "param_b"
           (VStr "abc") (VBool true) (VBool true) TypeError _ eq_refl Hparse).
  discriminate.
Defined.


(** ** The parser's shape *)

(** For a parameter that is found and a value that is serialised for the
    log line ([st1] is the state that leaves), by the shape of the
    configured parser: a function is called with the raw value and its
    outcome is the outcome; a string names a built-in parser, which is
    run with a policy object made for the call, [{parameter_name: name}],
    and a name the registry does not have ends in the engine's
    [TypeError]; [true] or a number is refused as an invalid parser; an
    object without a truthy [type] (an array and an error object
    included) is refused as an invalid parser object.  The refusals leave
    the state as it was. *)
Theorem parse_parameter_by_shape E st st1 name v strict param :
  json_stringify E v st = Ok () st1 →
  get_parameter name st1 = Ok param st1 →
  (∀ f, configured_parser st1 param name = VFun f →
     parse_parameter E name v strict st
     = run_foreign (EvCall f [v]) (call E f [v]) st1)
  ∧ (∀ k p, configured_parser st1 param name = VStr k → k ≠ "" →
       builtin_parser E !! k = Some p →
       parse_parameter E name v strict st
       = run_builtin p k v (VRef (length (store st1))) (with_fresh_policy st1 name))
  ∧ (∀ k, configured_parser st1 param name = VStr k → k ≠ "" →
       builtin_parser E !! k = None →
       ∃ st2, parse_parameter E name v strict st = Throw TypeError st2
              ∧ ctx st2 = ctx st1 ∧ trace st2 = trace st1
              ∧ (truthy (field ∅ k) = false → st2 = st1))
  ∧ (configured_parser st1 param name = VBool true →
     parse_parameter E name v strict st = Throw (invalid_parser_error name) st1)
  ∧ (∀ z, configured_parser st1 param name = VNum z → z ≠ 0%Z →
       parse_parameter E name v strict st = Throw (invalid_parser_error name) st1)
  ∧ (typeof (configured_parser st1 param name) = "object" →
     truthy (configured_parser st1 param name) = true →
     truthy (get_field (store st1) (configured_parser st1 param name) "type")
     = false →
     parse_parameter E name v strict st
     = Throw (new_Error invalid_parser_object_message) st1).
Proof.
  intros Hj Hget.
  assert (Hrun : truthy (configured_parser st1 param name) = true →
                 parse_parameter E name v strict st
                 = run_parser E name (configured_parser st1 param name) v st1).
  { intros Ht. rewrite (parse_parameter_found E st st1 _ _ _ _ Hj Hget).
    unfold configured_parser in *.
    destruct (truthy (field param "parser")); [reflexivity|].
    rewrite Ht. reflexivity. }
  assert (Hstr : ∀ k, k ≠ "" → truthy (VStr k) = true).
  { intros k Hne. simpl. destruct (String.eqb_spec k ""); [contradiction|reflexivity]. }
  repeat split.
  - intros f Hf. rewrite Hrun by (rewrite Hf; reflexivity). rewrite Hf.
    reflexivity.
  - intros k p Hk Hne Hp. rewrite Hrun by (rewrite Hk; apply Hstr; exact Hne).
    rewrite Hk. unfold run_parser. cbn [typeof].
    change (String.eqb "string" "function") with false.
    change (String.eqb "string" "string") with true. cbv iota.
    unfold builtin_parse. rewrite Hp.
    rewrite (bind_ok (alloc _) _ st1 (VRef (length (store st1)))
               (with_fresh_policy st1 name) eq_refl).
    reflexivity.
  - intros k Hk Hne Hp. rewrite Hrun by (rewrite Hk; apply Hstr; exact Hne).
    rewrite Hk. unfold run_parser. cbn [typeof].
    change (String.eqb "string" "function") with false.
    change (String.eqb "string" "string") with true. cbv iota.
    unfold builtin_parse. rewrite Hp.
    destruct (truthy (field ∅ k)).
    + exists (with_fresh_policy st1 name).
      rewrite (bind_ok (alloc _) _ st1 (VRef (length (store st1)))
                 (with_fresh_policy st1 name) eq_refl).
      repeat split. discriminate.
    + exists st1. repeat split.
  - intros Hb. rewrite Hrun by (rewrite Hb; reflexivity). rewrite Hb.
    reflexivity.
  - intros z Hz Hne. rewrite Hrun.
    2:{ rewrite Hz. simpl. destruct (Z.eqb_spec z 0); [contradiction|reflexivity]. }
    rewrite Hz. reflexivity.
  - intros Hobj Ht Htype. rewrite (Hrun Ht).
    unfold run_parser. rewrite Hobj.
    change (String.eqb "object" "function") with false.
    change (String.eqb "object" "string") with false.
    change (String.eqb "object" "object") with true. cbv iota.
    rewrite (bind_ok _ _ _ _ _
               (get_prop_not_nullish (configured_parser st1 param name) "type" st1
                  ltac:(destruct (configured_parser st1 param name);
                        try reflexivity; discriminate Ht))).
    rewrite Htype. reflexivity.
Qed.

Lemma parse_parameter_by_shape_witness :
  json_stringify number_env (VStr "abc") number_skill_state
  = Ok () number_skill_state
  ∧ (∃ param, get_parameter "param_b" number_skill_state
              = Ok param number_skill_state
              ∧ configured_parser number_skill_state param "param_b"
                = VFun number_parser)
  ∧ parse_parameter number_env "param_b" (VStr "abc") VUndef number_skill_state
    = run_foreign (EvCall number_parser [VStr "abc"])
        (call number_env number_parser [VStr "abc"]) number_skill_state.
Proof.
  assert (Hget : ∃ param, get_parameter "param_b" number_skill_state
                          = Ok param number_skill_state
                          ∧ configured_parser number_skill_state param "param_b"
                            = VFun number_parser).
  { eexists. split; vm_compute; reflexivity. }
  split; [reflexivity|]. split; [exact Hget|].
  destruct Hget as (param & Hget & Hc).
  destruct (parse_parameter_by_shape number_env number_skill_state
              number_skill_state "param_b" (VStr "abc") VUndef param
              eq_refl Hget) as [Hfun _].
  apply Hfun. exact Hc.
Defined.

(** ** A policy that already names a parameter *)


(** ** More on the collection queue *)

Lemma remove_first_not_in x l : x ∉ l → remove_first x l = l.
Proof.
  induction l as [|y r IH]; [reflexivity|].
  intros Hn. rewrite remove_first_cons.
  destruct (String.eqb_spec y x) as [->|Hne].
  - exfalso. apply Hn. left.
  - f_equal. apply IH. intros Hin. apply Hn. right. exact Hin.
Qed.

Lemma elem_of_remove_first x y l :
  y ∈ remove_first x l → y ∈ l.
Proof.
  induction l as [|z r IH]; [intros H; exact H|].
  rewrite remove_first_cons.
  destruct (String.eqb z x).
  - intros H. right. exact H.
  - intros H. apply elem_of_cons in H as [->|H]; [left|right; apply IH; exact H].
Qed.

Lemma elem_of_remove_first_ne x y l :
  y ≠ x → y ∈ l → y ∈ remove_first x l.
Proof.
  intros Hne. induction l as [|z r IH]; [intros H; exact H|].
  rewrite remove_first_cons. intros H.
  destruct (String.eqb_spec z x) as [->|Hzx].
  - apply elem_of_cons in H as [->|H]; [contradiction|exact H].
  - apply elem_of_cons in H as [->|H]; [left|right; apply IH; exact H].
Qed.

Lemma NoDup_remove_first x l :
  NoDup l → NoDup (remove_first x l) ∧ x ∉ remove_first x l.
Proof.
  induction l as [|y r IH]; intros Hnd.
  - split; [constructor|]. intros H. inversion H.
  - apply NoDup_cons in Hnd as [Hy Hr]. rewrite remove_first_cons.
    destruct (String.eqb_spec y x) as [->|Hne].
    + split; assumption.
    + destruct (IH Hr) as [Hnd' Hx]. split.
      * apply NoDup_cons. split; [|exact Hnd'].
        intros Hin. apply Hy. eapply elem_of_remove_first. exact Hin.
      * intros Hin. apply elem_of_cons in Hin as [->|Hin]; [contradiction|].
        apply Hx. exact Hin.
Qed.

(** A queue without duplicates stays without duplicates under [collect]
    with the default options: the name collected is at the front, there
    once, and the names queued before are all still queued. *)
Theorem collect_keeps_queue_duplicate_free E x st :
  NoDup (to_confirm (ctx st)) →
  ∃ st',
    collect E (VStr x) VUndef st = Ok () st'
    ∧ NoDup (to_confirm (ctx st'))
    ∧ head (to_confirm (ctx st')) = Some x
    ∧ (∀ y, y ∈ to_confirm (ctx st') ↔ y = x ∨ y ∈ to_confirm (ctx st)).
Proof.
  intros Hnd. eexists. split; [apply collect_name_default|].
  cbn [ctx to_confirm set_to_confirm].
  destruct (NoDup_remove_first x _ Hnd) as [Hnd' Hx].
  split; [apply NoDup_cons; split; assumption|].
  split; [reflexivity|].
  intros y. rewrite elem_of_cons. split.
  - intros [->|H]; [left; reflexivity|right; eapply elem_of_remove_first; exact H].
  - intros [->|H]; [left; reflexivity|].
    destruct (decide (y = x)) as [->|Hne]; [left; reflexivity|].
    right. apply elem_of_remove_first_ne; assumption.
Qed.

Lemma collect_keeps_queue_duplicate_free_witness :
  NoDup (to_confirm (ctx asking_state))
  ∧ ∃ st',
      collect quiet_env (VStr "param_a") VUndef asking_state = Ok () st'
      ∧ to_confirm (ctx st') = ["param_a"; "param_b"].
Proof.
  assert (Hnd : NoDup (to_confirm (ctx asking_state))).
  { apply (bool_decide_unpack _). vm_compute. exact I. }
  split; [exact Hnd|].
  destruct (collect_keeps_queue_duplicate_free quiet_env "param_a" asking_state Hnd)
    as (st' & Hrun & _).
  exists st'. split; [exact Hrun|].
  rewrite collect_name_default in Hrun. injection Hrun as <-. reflexivity.
Defined.

(** [collect] of a name with an options object of the caller's: when the
    object has no [dedup] ([undefined] or [null]) the default [true] is
    written into the caller's object and one earlier occurrence of the
    name is dropped; a falsy [dedup] keeps every earlier occurrence, the
    name going to the front all the same; in both cases nothing else in
    the store changes. *)
Theorem collect_with_options E x ol om st :
  store st !! ol = Some (CObj om) →
  (dedup_unset (field om "dedup") = true →
     collect E (VStr x) (VRef ol) st
     = Ok () (State
                (set_to_confirm (ctx st) (x :: remove_first x (to_confirm (ctx st))))
                (<[ol := CObj (<["dedup" := VBool true]> om)]> (store st))
                (trace st)))
  ∧ (dedup_unset (field om "dedup") = false →
     collect E (VStr x) (VRef ol) st
     = Ok () (State
                (set_to_confirm (ctx st)
                   (x :: (if truthy (field om "dedup")
                          then remove_first x (to_confirm (ctx st))
                          else to_confirm (ctx st))))
                (store st) (trace st))).
Proof.
  intros Hol.
  assert (Hq : ∀ c (b : bool),
    set_to_confirm
      (if bool_decide (is_Some (index_of x (to_confirm c))) && b
       then set_to_confirm c (remove_first x (to_confirm c)) else c)
      (x :: to_confirm
              (if bool_decide (is_Some (index_of x (to_confirm c))) && b
               then set_to_confirm c (remove_first x (to_confirm c)) else c))
    = set_to_confirm c (x :: (if b then remove_first x (to_confirm c)
                              else to_confirm c))).
  { intros c b. destruct b; rewrite ?andb_true_r, ?andb_false_r; [|reflexivity].
    case_bool_decide as Hi; [reflexivity|].
    rewrite remove_first_absent; [reflexivity|].
    destruct (index_of x (to_confirm c)); [|reflexivity].
    exfalso. apply Hi. eauto. }
  split; intros Hd; unfold collect.
  - rewrite (bind_ok (mret (VRef ol)) _ st _ st eq_refl).
    rewrite (bind_ok _ _ _ _ _ (get_prop_obj ol "dedup" st om Hol)).
    rewrite decide_True
      by (destruct (field om "dedup"); try discriminate Hd; auto).
    rewrite (bind_ok _ _ _ _ _
               (set_prop_obj ol "dedup" (VBool true) st om Hol eq_refl)).
    rewrite (bind_ok (mret x) _ _ _ _ eq_refl).
    assert (Hol' : store (State (ctx st)
                            (<[ol := CObj (<["dedup" := VBool true]> om)]> (store st))
                            (trace st)) !! ol
                   = Some (CObj (<["dedup" := VBool true]> om))).
    { cbn [store]. apply list_lookup_insert_eq. eapply lookup_lt_Some. exact Hol. }
    rewrite (bind_ok _ _ _ _ _ (get_prop_obj ol "dedup" _ _ Hol')).
    assert (Hf : field (<["dedup" := VBool true]> om) "dedup" = VBool true).
    { apply field_lookup; [apply lookup_insert_eq|reflexivity]. }
    rewrite Hf.
    munfold. cbn [ctx store trace]. rewrite Hq. reflexivity.
  - rewrite (bind_ok (mret (VRef ol)) _ st _ st eq_refl).
    rewrite (bind_ok _ _ _ _ _ (get_prop_obj ol "dedup" st om Hol)).
    rewrite decide_False
      by (intros [H|H]; rewrite H in Hd; discriminate Hd).
    rewrite (bind_ok (mret ()) _ st _ st eq_refl).
    rewrite (bind_ok (mret x) _ _ _ _ eq_refl).
    rewrite (bind_ok _ _ _ _ _ (get_prop_obj ol "dedup" st om Hol)).
    munfold. cbn [ctx store trace]. rewrite Hq. reflexivity.
Qed.

Lemma collect_with_options_witness :
  store dedup_off_state !! 5 = Some (CObj {[ "dedup" := VBool false ]})
  ∧ ∃ st1 st2,
      collect quiet_env (VStr "x") (VRef 5) dedup_off_state = Ok () st1
      ∧ collect quiet_env (VStr "x") (VRef 5) st1 = Ok () st2
      ∧ to_confirm (ctx st2) = ["x"; "x"]
      ∧ store st2 = store dedup_off_state.
Proof.
  split; [reflexivity|].
  destruct (collect_with_options quiet_env "x" 5 {[ "dedup" := VBool false ]}
              dedup_off_state eq_refl) as [_ H1].
  specialize (H1 eq_refl).
  eexists. eexists. split; [exact H1|].
  destruct (collect_with_options quiet_env "x" 5 {[ "dedup" := VBool false ]}
              (State (set_to_confirm (ctx dedup_off_state) ["x"])
                 (store dedup_off_state) (trace dedup_off_state)) eq_refl)
    as [_ H2].
  split; [exact (H2 eq_refl)|]. split; reflexivity.
Defined.

Lemma own_props_alloc s c v :
  live s v → own_props (s ++ [c])%list v = own_props s v.
Proof.
  destruct v; simpl; try reflexivity.
  intros Hl. rewrite lookup_app_l by exact Hl. reflexivity.
Qed.

(** [collect] with the default options, up to the point where the
    argument is looked at: the options object has been made and the
    default written into it. *)
Lemma collect_default_prefix E arg st :
  collect E arg VUndef st
  = (param_name ← (match arg with
                   | VStr s => mret s
                   | _ =>
                       if String.eqb (typeof arg) "object"
                       then collect_container E arg
                       else throw invalid_argument
                   end);
     dedup ← get_prop (VRef (length (store st))) "dedup";
     modify_ctx (λ c,
       if bool_decide (is_Some (index_of param_name (to_confirm c)))
          && truthy dedup
       then set_to_confirm c (remove_first param_name (to_confirm c))
       else c);;
     modify_ctx (λ c, set_to_confirm c (param_name :: to_confirm c)))
      (with_default_options st).
Proof.
  unfold collect.
  rewrite (bind_ok (alloc (CObj ∅)) _ st (VRef (length (store st)))
             (State (ctx st) (store st ++ [CObj ∅])%list (trace st)) eq_refl).
  assert (H0 : store (State (ctx st) (store st ++ [CObj ∅])%list (trace st))
               !! length (store st) = Some (CObj ∅)) by apply lookup_alloc.
  rewrite (bind_ok _ _ _ _ _ (get_prop_obj _ "dedup" _ _ H0)).
  change (field ∅ "dedup") with VUndef.
  rewrite decide_True by (left; reflexivity).
  rewrite (bind_ok _ _ _ _ _ (set_prop_obj _ "dedup" (VBool true) _ _ H0 eq_refl)).
  cbn [ctx store trace]. rewrite insert_alloc. reflexivity.
Qed.

(** What [collect] refuses, with the default options: an argument that is
    neither a string nor an object is an invalid argument; [null] ends in
    the engine's [TypeError]; an object that does not have exactly one
    property (an empty object, two parameters at once, an error object)
    is a malformed container, and what is thrown for it is a string, not
    an [Error].  In each case the context is as it was: nothing is queued
    and the skill is not touched. *)
Theorem collect_refusals E arg st :
  live (store st) arg →
  (typeof arg ≠ "string" → typeof arg ≠ "object" →
     collect E arg VUndef st = Throw invalid_argument (with_default_options st))
  ∧ (arg = VNull →
     collect E arg VUndef st = Throw TypeError (with_default_options st))
  ∧ (typeof arg = "object" → arg ≠ VNull →
     size (own_props (store st) arg) ≠ 1 →
     collect E arg VUndef st = Throw malformed_container (with_default_options st))
  ∧ typeof malformed_container = "string"
  ∧ ctx (with_default_options st) = ctx st.
Proof.
  intros Hlive. rewrite collect_default_prefix.
  split; [|split; [|split; [|split; reflexivity]]].
  - intros Hs Ho. apply bind_throw.
    destruct arg; try reflexivity; simpl in Hs, Ho; congruence.
  - intros ->. apply bind_throw. reflexivity.
  - intros Ho Hn Hsize. apply bind_throw.
    assert (Hc : collect_container E arg (with_default_options st)
                 = Throw malformed_container (with_default_options st)).
    { unfold collect_container.
      assert (Hm : match map_to_list (own_props (store st) arg) with
                   | [(_, _)] => False
                   | _ => True
                   end).
      { pose proof (length_map_to_list (own_props (store st) arg)) as Hlen.
        destruct (map_to_list (own_props (store st) arg)) as [|[k d] [|]];
          try exact I.
        simpl in Hlen. congruence. }
      destruct arg; try discriminate Ho; try congruence;
        rewrite (bind_ok get_state _ _ _ _ eq_refl);
        unfold with_default_options; cbn [store];
        rewrite (own_props_alloc (store st)) by exact Hlive;
        destruct (map_to_list (own_props (store st) _)) as [|[k d] [|]];
        try reflexivity; contradiction. }
    destruct arg; try discriminate Ho; try congruence; exact Hc.
Qed.

Lemma collect_refusals_witness :
  live (store empty_intent_state) (VRef 5)
  ∧ collect quiet_env (VRef 5) VUndef empty_intent_state
    = Throw malformed_container (with_default_options empty_intent_state)
  ∧ collect quiet_env (VNum 7) VUndef empty_intent_state
    = Throw invalid_argument (with_default_options empty_intent_state).
Proof.
  assert (Hlive : live (store empty_intent_state) (VRef 5))
    by (vm_compute; lia).
  split; [exact Hlive|].
  split.
  - destruct (collect_refusals quiet_env (VRef 5) empty_intent_state Hlive)
      as (_ & _ & Hm & _).
    apply Hm; [reflexivity|discriminate|]. vm_compute. discriminate.
  - destruct (collect_refusals quiet_env (VNum 7) empty_intent_state I)
      as (Hi & _).
    apply Hi; discriminate.
Defined.

(** ** A parameter defined on the fly *)

Lemma bind_bind_ok {A B C} (m : M A) (f : A → M B) (g : B → M C) st a st' :
  m st = Ok a st' → ((m ≫= f) ≫= g) st = (f a ≫= g) st'.
Proof. intros H. munfold. rewrite H. reflexivity. Qed.

Lemma skill_field_alloc st c k t' :
  skill (ctx st) < length (store st) →
  skill_field (State (ctx st) (store st ++ c)%list t') k = skill_field st k.
Proof.
  intros Hl. unfold skill_field, get_field. cbn [ctx store].
  rewrite lookup_app_l by exact Hl. reflexivity.
Qed.

Lemma get_field_app s c v k :
  live s v → get_field (s ++ c)%list v k = get_field s v k.
Proof.
  destruct v; simpl; try reflexivity.
  intros Hl. rewrite lookup_app_l by exact Hl. reflexivity.
Qed.

Lemma in_container_alloc st c container name t' :
  skill (ctx st) < length (store st) →
  live (store st) (skill_field st container) →
  in_container (State (ctx st) (store st ++ c)%list t') container name
  = in_container st container name.
Proof.
  intros Hl Hc. unfold in_container.
  rewrite skill_field_alloc by exact Hl. cbn [store].
  rewrite get_field_app by exact Hc. reflexivity.
Qed.

Section NewDynamicParameter.

Variables (E : env) (st : state) (name : string) (def : value).
Variables (sm : gmap string value) (al : nat).

Let sk : nat := skill (ctx st).
Let n : nat := length (store st).

Hypothesis Hsk : store st !! sk = Some (CObj sm).
Hypothesis Hreq : in_container st "required_parameter" name = false.
Hypothesis Hopt : in_container st "optional_parameter" name = false.
Hypothesis Hreq_live : live (store st) (skill_field st "required_parameter").
Hypothesis Hopt_live : live (store st) (skill_field st "optional_parameter").
Hypothesis Hreq_ne : skill_field st "required_parameter" ≠ VRef sk.
Hypothesis Hopt_ne : skill_field st "optional_parameter" ≠ VRef sk.
Hypothesis Hdyn : sm !! "dynamic_parameter" = None.
Hypothesis Hname : name ≠ "__proto__".
Hypothesis Harg : store st !! al = Some (CObj {[ name := def ]}).
Hypothesis Hal : al ≠ sk.
Hypothesis Hdef : live (store st) def ∧ def ≠ VRef sk.
Hypothesis Hreaction :
  truthy (field (own_props (store st) def) "reaction") = false
  ∨ typeof (field (own_props (store st) def) "reaction") = "function".

(** The store once the container was made, hung on the skill and given
    the entry. *)
Let s3 : list cell :=
  <[S n := CObj {[ name := def ]}]>
    (<[sk := CObj (<["dynamic_parameter" := VRef (S n)]> sm)]>
       (store st ++ [CObj {[ "dedup" := VBool true ]}; CObj ∅])%list).

Lemma new_dynamic_container_run :
  collect_container E (VRef al) (with_default_options st)
  = (_save_param_change_log E "dynamic_parameter" name def;; mret name)
      (State (ctx st) s3 (trace st)).
Proof.
  assert (Hsklt : sk < n) by (eapply lookup_lt_Some; exact Hsk).
  assert (Hallt : al < n) by (eapply lookup_lt_Some; exact Harg).
  assert (Hsf : ∀ k, skill_field st k = field sm k).
  { intros k. unfold skill_field, get_field. fold sk. rewrite Hsk.
    reflexivity. }
  assert (Hnp : String.eqb name "__proto__" = false)
    by (apply String.eqb_neq; exact Hname).
  unfold collect_container.
  rewrite (bind_ok get_state _ _ _ _ eq_refl).
  unfold with_default_options. cbn [store own_props].
  rewrite lookup_app_l by exact Hallt. rewrite Harg.
  rewrite delete_singleton_ne by congruence.
  rewrite map_to_list_singleton.
  rewrite !in_container_alloc by assumption. rewrite Hreq, Hopt.
  rewrite skill_field_alloc by exact Hsklt.
  assert (Hfd : field sm "dynamic_parameter" = VUndef).
  { rewrite (field_own _ "dynamic_parameter" eq_refl eq_refl), Hdyn.
    reflexivity. }
  rewrite Hsf. rewrite decide_True by exact Hfd.
  cbn [ctx]. fold sk.
  set (s1 := (store st ++ [CObj {[ "dedup" := VBool true ]}])%list).
  assert (Hs1len : length s1 = S n).
  { unfold s1. rewrite length_app. simpl. unfold n. lia. }
  assert (Hsk1 : (s1 ++ [CObj ∅])%list !! sk = Some (CObj sm)).
  { unfold s1. rewrite !lookup_app_l; [exact Hsk|exact Hsklt|].
    rewrite length_app. simpl. fold n. lia. }
  assert (Hblk : (alloc (CObj ∅) ≫= λ o, set_prop (VRef sk) "dynamic_parameter" o)
                   (State (ctx st) s1 (trace st))
                 = Ok () (State (ctx st)
                            (<[sk := CObj (<["dynamic_parameter" := VRef (S n)]> sm)]>
                               (s1 ++ [CObj ∅])%list)
                            (trace st))).
  { rewrite (bind_ok (alloc (CObj ∅)) _ _ (VRef (S n))
               (State (ctx st) (s1 ++ [CObj ∅])%list (trace st))).
    2:{ unfold alloc. cbn [store ctx trace]. rewrite Hs1len. reflexivity. }
    apply (set_prop_obj sk "dynamic_parameter" (VRef (S n))
             (State (ctx st) (s1 ++ [CObj ∅])%list (trace st)) sm Hsk1 eq_refl). }
  rewrite (bind_bind_ok _ _ _ _ _ _ Hblk).
  rewrite (bind_bind_ok get_state _ _ _ _ _ eq_refl).
  set (s2 := <[sk := CObj (<["dynamic_parameter" := VRef (S n)]> sm)]>
               (s1 ++ [CObj ∅])%list).
  assert (Hlen2 : length s2 = S (S n)).
  { unfold s2. rewrite length_insert, length_app. simpl. lia. }
  assert (Hsf2 : skill_field (State (ctx st) s2 (trace st)) "dynamic_parameter"
                 = VRef (S n)).
  { unfold skill_field, get_field. cbn [ctx store]. fold sk. unfold s2.
    rewrite list_lookup_insert_eq by (rewrite length_app; simpl; lia).
    apply field_lookup; [apply lookup_insert_eq|reflexivity]. }
  rewrite Hsf2.
  assert (Hassign : object_assign_to (VRef (S n)) (VRef al)
                      (State (ctx st) s2 (trace st))
                    = Ok () (State (ctx st) s3 (trace st))).
  { unfold object_assign_to. cbn [store ctx trace].
    assert (Ho : s2 !! S n = Some (CObj ∅)).
    { unfold s2. rewrite list_lookup_insert_ne by lia.
      rewrite <- Hs1len. apply lookup_alloc. }
    rewrite Ho.
    assert (Ha : own_props s2 (VRef al) = {[ name := def ]}).
    { unfold own_props, s2. rewrite list_lookup_insert_ne by congruence.
      unfold s1. rewrite !lookup_app_l; [rewrite Harg|exact Hallt|].
      - apply delete_singleton_ne. congruence.
      - rewrite length_app. simpl. fold n. lia. }
    rewrite Ha. rewrite (right_id_L ∅ (∪)).
    unfold s3, s2, s1. rewrite <- app_assoc. reflexivity. }
  rewrite (bind_bind_ok _ _ _ _ _ _ Hassign). reflexivity.
Qed.



End NewDynamicParameter.


(** ** A parameter redefined on the fly *)

Section RedefinedParameter.

Variables (E : env) (st : state) (name : string) (def : value) (al : nat).
Variables (kind : string) (cl : nat) (cm : gmap string value).

Let n : nat := length (store st).

Hypothesis Hsk : skill (ctx st) < length (store st).
Hypothesis Hkind :
  kind = "required_parameter"
  ∨ (kind = "optional_parameter"
     ∧ in_container st "required_parameter" name = false
     ∧ live (store st) (skill_field st "required_parameter")).
Hypothesis Hin : in_container st kind name = true.
Hypothesis Hcont : skill_field st kind = VRef cl.
Hypothesis Hcl : store st !! cl = Some (CObj cm).
Hypothesis Hname : name ≠ "__proto__".
Hypothesis Harg : store st !! al = Some (CObj {[ name := def ]}).
Hypothesis Hdef : live (store st) def ∧ def ≠ VRef cl.
Hypothesis Hself : cl ≠ skill (ctx st).
Hypothesis Hreaction :
  truthy (field (own_props (store st) def) "reaction") = false
  ∨ typeof (field (own_props (store st) def) "reaction") = "function".

Let s1 : list cell :=
  <[cl := CObj (<[name := def]> cm)]>
    (store st ++ [CObj {[ "dedup" := VBool true ]}])%list.

Lemma redefined_container_run :
  collect_container E (VRef al) (with_default_options st)
  = (_save_param_change_log E kind name def;; mret name)
      (State (ctx st) s1 (trace st)).
Proof.
  assert (Hcllt : cl < n) by (eapply lookup_lt_Some; exact Hcl).
  assert (Hallt : al < n) by (eapply lookup_lt_Some; exact Harg).
  assert (Hclive : live (store st) (skill_field st kind)).
  { rewrite Hcont. exact Hcllt. }
  unfold collect_container.
  rewrite (bind_ok get_state _ _ _ _ eq_refl).
  unfold with_default_options. cbn [store own_props].
  rewrite lookup_app_l by exact Hallt. rewrite Harg.
  rewrite delete_singleton_ne by congruence.
  rewrite map_to_list_singleton.
  assert (Hassign : object_assign_to (VRef cl) (VRef al)
                      (State (ctx st)
                         (store st ++ [CObj {[ "dedup" := VBool true ]}])%list
                         (trace st))
                    = Ok () (State (ctx st) s1 (trace st))).
  { unfold object_assign_to. cbn [store ctx trace own_props].
    rewrite !lookup_app_l by assumption. rewrite Hcl, Harg.
    rewrite delete_singleton_ne by congruence.
    rewrite <- insert_union_singleton_l. reflexivity. }
  destruct Hkind as [-> | (-> & Hreq & Hrlive)].
  - rewrite in_container_alloc by assumption. rewrite Hin.
    rewrite skill_field_alloc by exact Hsk. rewrite Hcont.
    rewrite (bind_bind_ok _ _ _ _ _ _ Hassign). reflexivity.
  - rewrite !in_container_alloc by assumption. rewrite Hreq, Hin.
    rewrite skill_field_alloc by exact Hsk. rewrite Hcont.
    rewrite (bind_bind_ok _ _ _ _ _ _ Hassign). reflexivity.
Qed.


End RedefinedParameter.

(** ** Changing the message of a parameter *)

(** What [change_message] refuses: a name that is [not_applicable] gets
    the not-found error of its own, and while a sub-parameter context is
    active a name that is in none of the three containers ends in the
    engine's [TypeError], unless the skill has a top-level property
    [sub_parameter]: the definition is looked for at
    [skill.sub_parameter[name]], not under the parent parameter where
    [get_parameter] finds it.  Either way the state is as it was. *)
Theorem change_message_refusals E st name message :
  (check_parameter_type st name = "not_applicable" →
   change_message E name message st = Throw change_message_error st)
  ∧ (check_parameter_type st name = "sub_parameter" →
     is_nullish (skill_field st "sub_parameter") = true →
     change_message E name message st = Throw TypeError st)
  ∧ change_message_to_confirm E name message st
    = change_message E name message st.
Proof.
  split; [|split; [|reflexivity]].
  - intros H. unfold change_message.
    rewrite (bind_ok get_state _ st st st eq_refl). rewrite H. reflexivity.
  - intros H Hn. unfold change_message.
    rewrite (bind_ok get_state _ st st st eq_refl). rewrite H.
    change (String.eqb "sub_parameter" "not_applicable") with false. cbv iota.
    rewrite (bind_ok _ _ _ _ _
               (get_prop_ok (VRef (skill (ctx st))) "sub_parameter" st
                  ltac:(discriminate) ltac:(discriminate))).
    apply bind_throw. apply get_prop_nullish. exact Hn.
Qed.

Lemma change_message_refusals_witness :
  check_parameter_type plain_skill_state "param_z" = "not_applicable"
  ∧ change_message quiet_env "param_z" (VStr "hello") plain_skill_state
    = Throw change_message_error plain_skill_state
  ∧ check_parameter_type sub_skill_state "sub_x" = "sub_parameter"
  ∧ (∃ param, get_parameter "sub_x" sub_skill_state = Ok param sub_skill_state)
  ∧ change_message quiet_env "sub_x" (VStr "hello") sub_skill_state
    = Throw TypeError sub_skill_state.
Proof.
  assert (H1 : check_parameter_type plain_skill_state "param_z" = "not_applicable")
    by (vm_compute; reflexivity).
  assert (H2 : check_parameter_type sub_skill_state "sub_x" = "sub_parameter")
    by (vm_compute; reflexivity).
  destruct (change_message_refusals quiet_env plain_skill_state "param_z"
              (VStr "hello")) as (Hna & _ & _).
  destruct (change_message_refusals quiet_env sub_skill_state "sub_x"
              (VStr "hello")) as (_ & Hsub & _).
  split; [exact H1|]. split; [exact (Hna H1)|]. split; [exact H2|].
  split; [eexists; vm_compute; reflexivity|].
  apply Hsub; [exact H2|]. vm_compute. reflexivity.
Defined.

(** [change_message] on a parameter of one of the three containers whose
    definition is an object of its own (not the skill and not one of the
    containers): the call returns; the definition the skill holds has the
    new message and is otherwise as it was, so [get_parameter] answers
    what it answered before with the new message in it; nothing else that
    was in the store has changed; and the change heads
    [param_change_history], under the container's name, as a record of
    its own whose [message] is the message, or its source text when the
    message is a function. *)
Theorem change_message_round_trip E st name message kind cl cm dl dm :
  check_parameter_type st name = kind →
  kind = "required_parameter" ∨ kind = "optional_parameter"
  ∨ kind = "dynamic_parameter" →
  skill_field st kind = VRef cl →
  store st !! cl = Some (CObj cm) →
  field cm name = VRef dl →
  store st !! dl = Some (CObj dm) →
  dl ≠ skill (ctx st) →
  (∀ k, k = "required_parameter" ∨ k = "optional_parameter"
        ∨ k = "dynamic_parameter" →
        live (store st) (skill_field st k) ∧ skill_field st k ≠ VRef dl) →
  ∃ st',
    change_message E name message st = Ok () st'
    ∧ store st' !! dl = Some (CObj (<["message" := message]> dm))
    ∧ (∀ l, l < length (store st) → l ≠ dl → store st' !! l = store st !! l)
    ∧ get_parameter name st
      = Ok (own_props (store st) (VRef dl)
            ∪ <["type" := VStr kind]> {[ "name" := VStr name ]}) st
    ∧ get_parameter name st'
      = Ok (<["message" := message]> (own_props (store st) (VRef dl))
            ∪ <["type" := VStr kind]> {[ "name" := VStr name ]}) st'
    ∧ param_change_history (ctx st')
      = Some (ChangeLog kind name (VRef (S (length (store st))))
              :: default [] (param_change_history (ctx st)))
    ∧ newest_logged st' "message" = source_text message
    ∧ trace st' = trace st.
Proof.
  intros Hcheck Hkind Hcont Hcl Hdef Hdl Hds Hconts.
  assert (Hdc : dl ≠ cl).
  { destruct (Hconts kind Hkind) as [_ Hne]. rewrite Hcont in Hne. congruence. }
  assert (Hsub : String.eqb kind "sub_parameter" = false).
  { destruct Hkind as [-> | [-> | ->]]; reflexivity. }
  set (n := length (store st)).
  assert (Hdlt : dl < n) by (eapply lookup_lt_Some; exact Hdl).
  assert (Hclt : cl < n) by (eapply lookup_lt_Some; exact Hcl).
  assert (Hna : String.eqb kind "not_applicable" = false).
  { destruct Hkind as [-> | [-> | ->]]; reflexivity. }
  set (s1 := <[dl := CObj (<["message" := message]> dm)]> (store st)).
  set (s2 := (s1 ++ [CObj {[ "message" := message ]}])%list).
  assert (Hlen1 : length s1 = n) by (unfold s1; apply length_insert).
  assert (Hlen2 : length s2 = S n).
  { unfold s2. rewrite length_app, Hlen1. simpl. lia. }
  assert (Hprops : own_props s2 (VRef n) = {[ "message" := message ]}).
  { unfold own_props, s2. rewrite <- Hlen1, lookup_alloc.
    apply delete_singleton_ne. discriminate. }
  assert (Hlog := save_param_change_log_run E kind name (VRef n)
                    (State (ctx st) s2 (trace st))).
  cbn [ctx store trace] in Hlog. rewrite Hprops, Hlen2 in Hlog.
  assert (Hreact : truthy (field ({[ "message" := message ]} : gmap string value)
                             "reaction") = false
                   ∨ typeof (field ({[ "message" := message ]} : gmap string value)
                               "reaction") = "function")
    by (left; reflexivity).
  specialize (Hlog Hreact).
  set (logged := stringified "reaction" (stringified "parser"
                   (stringified "condition"
                      (message_logged {[ "message" := message ]})))) in *.
  assert (Hrun : change_message E name message st
                 = Ok () (State
                     (set_param_change_history (ctx st)
                        (Some (ChangeLog kind name (VRef (S n))
                               :: default [] (param_change_history (ctx st)))))
                     (s2 ++ [CObj logged])%list (trace st))).
  { unfold change_message.
    rewrite (bind_ok get_state _ st st st eq_refl). rewrite Hcheck, Hna.
    rewrite (bind_ok _ _ _ _ _
               (get_prop_ok (VRef (skill (ctx st))) kind st
                  ltac:(discriminate) ltac:(discriminate))).
    fold (skill_field st kind). rewrite Hcont.
    rewrite (bind_ok _ _ _ _ _ (get_prop_obj cl name st cm Hcl)). rewrite Hdef.
    rewrite (bind_ok _ _ _ _ _
               (set_prop_obj dl "message" message st dm Hdl eq_refl)).
    fold s1.
    rewrite (bind_ok (alloc _) _ _ (VRef n) (State (ctx st) s2 (trace st))).
    2:{ unfold alloc. cbn [store ctx trace]. rewrite Hlen1. reflexivity. }
    exact Hlog. }
  eexists. split; [exact Hrun|]. cbn [ctx store trace].
  assert (Hold : ∀ l, l < n → l ≠ dl →
            ((s2 ++ [CObj logged])%list) !! l = store st !! l).
  { intros l Hl Hne. rewrite lookup_app_l by lia. unfold s2.
    rewrite lookup_app_l by lia. unfold s1.
    apply list_lookup_insert_ne. congruence. }
  assert (Hnew : ((s2 ++ [CObj logged])%list) !! dl
                 = Some (CObj (<["message" := message]> dm))).
  { rewrite lookup_app_l by lia. unfold s2. rewrite lookup_app_l by lia.
    unfold s1. apply list_lookup_insert_eq. exact Hdlt. }
  assert (Hsk : skill (ctx st) < n).
  { destruct (store st !! skill (ctx st)) eqn:Hs.
    - eapply lookup_lt_Some. exact Hs.
    - unfold skill_field, get_field in Hcont. rewrite Hs in Hcont.
      discriminate Hcont. }
  assert (Hfield : ∀ k, skill_field
            (State (set_param_change_history (ctx st)
                      (Some (ChangeLog kind name (VRef (S n))
                             :: default [] (param_change_history (ctx st)))))
                   (s2 ++ [CObj logged])%list (trace st)) k
            = skill_field st k).
  { intros k. unfold skill_field, get_field. cbn [ctx store].
    change (skill (set_param_change_history (ctx st) _)) with (skill (ctx st)).
    rewrite Hold by (exact Hsk || congruence). reflexivity. }
  split; [exact Hnew|].
  split; [exact Hold|].
  assert (Hin : ∀ k, k = "required_parameter" ∨ k = "optional_parameter"
                     ∨ k = "dynamic_parameter" →
            in_container
              (State (set_param_change_history (ctx st)
                        (Some (ChangeLog kind name (VRef (S n))
                               :: default [] (param_change_history (ctx st)))))
                     (s2 ++ [CObj logged])%list (trace st)) k name
            = in_container st k name).
  { intros k Hk. unfold in_container. rewrite Hfield. cbn [store].
    destruct (Hconts k Hk) as [Hlive Hne].
    destruct (skill_field st k) as [| | | | | |l| |]; try reflexivity.
    simpl in Hlive. unfold get_field.
    rewrite Hold by (exact Hlive || congruence). reflexivity. }
  assert (Hget : ∀ (fin : state) (s' : list cell) dm',
    skill_field fin kind = VRef cl →
    check_parameter_type fin name = kind →
    store fin = s' → s' !! cl = Some (CObj cm) → s' !! dl = Some (CObj dm') →
    get_parameter name fin
    = Ok (delete "__proto__" dm'
          ∪ <["type" := VStr kind]> {[ "name" := VStr name ]}) fin).
  { intros fin s' dm' Hc Hch Hs Hcl' Hdl'. unfold get_parameter.
    rewrite (bind_ok get_state _ fin fin fin eq_refl).
    rewrite Hch, Hna, Hsub.
    rewrite (bind_ok _ _ _ _ _
               (get_prop_ok (VRef (skill (ctx fin))) kind fin
                  ltac:(discriminate) ltac:(discriminate))).
    fold (skill_field fin kind). rewrite Hc.
    assert (Hcl'' : store fin !! cl = Some (CObj cm)) by (rewrite Hs; exact Hcl').
    rewrite (bind_ok _ _ _ _ _ (get_prop_obj cl name fin cm Hcl'')). rewrite Hdef.
    unfold mret, M_ret, own_props. rewrite Hs, Hdl'. reflexivity. }
  split.
  { unfold own_props. rewrite Hdl.
    apply (Hget st (store st) dm Hcont Hcheck eq_refl Hcl Hdl). }
  split.
  { unfold own_props. rewrite Hdl.
    rewrite <- delete_insert_ne by discriminate.
    apply (Hget _ (s2 ++ [CObj logged])%list).
    - rewrite Hfield. exact Hcont.
    - transitivity (check_parameter_type st name); [|exact Hcheck].
      unfold check_parameter_type. rewrite !Hin by auto. reflexivity.
    - reflexivity.
    - rewrite Hold by (exact Hclt || congruence). exact Hcl.
    - exact Hnew. }
  split; [reflexivity|].
  split; [|reflexivity].
  unfold newest_logged. cbn [ctx param_change_history set_param_change_history
                               log_param store].
  unfold get_field. rewrite <- Hlen2, lookup_alloc.
  unfold logged.
  rewrite (field_own _ "message" eq_refl eq_refl).
  rewrite logged_map_lookup. unfold logged_lookup.
  change (String.eqb "message" "message") with true. cbv iota.
  rewrite (field_lookup _ "message" message)
    by (apply lookup_singleton_eq || reflexivity).
  rewrite (field_own _ "message_to_confirm" eq_refl eq_refl).
  rewrite lookup_singleton_ne by discriminate.
  rewrite lookup_singleton_eq.
  destruct message; reflexivity.
Qed.

Lemma change_message_round_trip_witness :
  get_field (store container_state) (VRef 2) "message" = VUndef
  ∧ ∃ st' param,
      change_message quiet_env "param_a" (VFun message_fn) container_state
      = Ok () st'
      ∧ get_parameter "param_a" st' = Ok param st'
      ∧ field param "message" = VFun message_fn
      ∧ field param "sub_parameter" = VRef 3
      ∧ newest_logged st' "message" = VStr (fn_source message_fn).
Proof.
  split; [vm_compute; reflexivity|].
  assert (Hcheck : check_parameter_type container_state "param_a"
                   = "required_parameter") by (vm_compute; reflexivity).
  assert (Hcont : skill_field container_state "required_parameter" = VRef 1)
    by (vm_compute; reflexivity).
  assert (Hcl : store container_state !! 1 = Some (CObj {[ "param_a" := VRef 2 ]}))
    by reflexivity.
  assert (Hdef : field ({[ "param_a" := VRef 2 ]} : gmap string value) "param_a"
                 = VRef 2) by (vm_compute; reflexivity).
  assert (Hdl : store container_state !! 2
                = Some (CObj {[ "sub_parameter" := VRef 3 ]})) by reflexivity.
  assert (Hds : 2 ≠ skill (ctx container_state)) by discriminate.
  assert (Hconts : ∀ k, k = "required_parameter" ∨ k = "optional_parameter"
                        ∨ k = "dynamic_parameter" →
                        live (store container_state) (skill_field container_state k)
                        ∧ skill_field container_state k ≠ VRef 2).
  { intros k [-> | [-> | ->]]; (split; [vm_compute; try lia; exact I
                                       |vm_compute; discriminate]). }
  pose proof (change_message_round_trip quiet_env container_state "param_a"
                (VFun message_fn) "required_parameter" 1
                {[ "param_a" := VRef 2 ]} 2 {[ "sub_parameter" := VRef 3 ]}
                Hcheck (or_introl eq_refl) Hcont Hcl Hdef Hdl Hds Hconts) as H.
  destruct H as (st' & Hrun & _ & _ & _ & Hget & _ & Hlog & _).
  eexists. eexists. split; [exact Hrun|]. split; [exact Hget|].
  split; [vm_compute; reflexivity|]. split; [vm_compute; reflexivity|].
  exact Hlog.
Defined.
(** ** A value that holds itself *)

(** What [JSON.stringify] makes of an object whose properties are
    primitives and the object itself. *)
Section SelfReference.

Variables (E : env) (st : state) (l : nat) (m : gmap string value).
Hypothesis Hl : store st !! l = Some (CObj m).
Hypothesis Hprops : ∀ k v, m !! k = Some v → v = VRef l ∨ is_object v = false.

Lemma self_reference_no_toJSON :
  String.eqb (typeof (field m "toJSON")) "function" = false.
Proof.
  rewrite (field_own m "toJSON" eq_refl eq_refl).
  destruct (m !! "toJSON") as [v|] eqn:Hv; [|reflexivity].
  destruct (Hprops _ _ Hv) as [-> | Hno]; [reflexivity|].
  destruct v; try discriminate Hno; reflexivity.
Qed.

Lemma self_reference_step d stack key :
  serialize E (S d) stack key (VRef l) st
  = (if bool_decide (l ∈ stack) then throw TypeError
     else
       for_each
         (λ k0, x ← get_prop (VRef l) k0;
                serialize E d (l :: stack) k0 x)
         (map_to_list (delete "__proto__" m)).*1) st.
Proof.
  cbn [serialize is_object].
  assert (Hin : (toJSON ← get_prop (VRef l) "toJSON";
                 if String.eqb (typeof toJSON) "function"
                 then call_value E toJSON [VRef l; VStr key]
                 else mret (VRef l)) st = Ok (VRef l) st).
  { rewrite (bind_ok _ _ _ _ _ (get_prop_obj l "toJSON" st m Hl)).
    rewrite self_reference_no_toJSON. reflexivity. }
  rewrite (bind_ok _ _ _ _ _ Hin).
  rewrite (bind_ok get_state _ st st st eq_refl). rewrite Hl. reflexivity.
Qed.

(** The walk over the properties, one level down: it stops with the
    [TypeError] at the first property that is the object itself. *)
Lemma self_reference_properties d (ks : list (string * value)) :
  (∀ k v, (k, v) ∈ ks → m !! k = Some v ∧ String.eqb k "__proto__" = false) →
  for_each
    (λ k0, x ← get_prop (VRef l) k0; serialize E (S d) [l] k0 x)
    ks.*1 st
  = if bool_decide (VRef l ∈ ks.*2) then Throw TypeError st else Ok () st.
Proof.
  induction ks as [|[k v] ks IH]; intros Hks; [reflexivity|].
  cbn [fmap list_fmap fst snd for_each foldr].
  destruct (Hks k v (list_elem_of_here _ _)) as [Hk Hkp].
  assert (Hread : get_prop (VRef l) k st = Ok v st).
  { rewrite (get_prop_obj l k st m Hl). rewrite (field_lookup m k v Hk Hkp).
    reflexivity. }
  destruct (Hprops _ _ Hk) as [-> | Hno].
  - rewrite bool_decide_eq_true_2 by apply list_elem_of_here.
    apply bind_throw. rewrite (bind_ok _ _ _ _ _ Hread).
    rewrite self_reference_step.
    rewrite bool_decide_eq_true_2 by apply list_elem_of_here. reflexivity.
  - assert (Hone : (x ← get_prop (VRef l) k; serialize E (S d) [l] k x) st
                   = Ok () st).
    { rewrite (bind_ok _ _ _ _ _ Hread). apply serialize_primitive. exact Hno. }
    rewrite (bind_ok _ _ _ _ _ Hone).
    change (for_each
              (λ k0, x ← get_prop (VRef l) k0; serialize E (S d) [l] k0 x)
              ks.*1 st
            = if bool_decide (VRef l ∈ v :: ks.*2) then Throw TypeError st
              else Ok () st).
    rewrite IH by (intros k' v' Hin; apply Hks; right; exact Hin).
    assert (Hv : v ≠ VRef l) by (intros ->; discriminate Hno).
    destruct (decide (VRef l ∈ ks.*2)) as [Hin|Hnin].
    + rewrite !bool_decide_eq_true_2; [reflexivity| |exact Hin].
      right. exact Hin.
    + rewrite !bool_decide_eq_false_2; [reflexivity| |exact Hnin].
      intros Hin. apply elem_of_cons in Hin as [Heq|Hin]; [|contradiction].
      congruence.
Qed.

(** A value that holds itself is refused everywhere, before anything is
    looked at or changed: an object at [l] one of whose properties is the
    object itself, the others being primitives, makes [JSON.stringify]
    throw the engine's [TypeError] (on an engine that lets the walk go two
    deep), and with it [parse_parameter], [add_parameter] and
    [apply_parameter], whatever the parameter and the flags are; the state
    is as it was. *)
Theorem circular_value_refused k d name strict is_change parse react_ :
  stack_limit E = S (S d) →
  m !! k = Some (VRef l) →
  k ≠ "__proto__" →
  json_stringify E (VRef l) st = Throw TypeError st
  ∧ parse_parameter E name (VRef l) strict st = Throw TypeError st
  ∧ add_parameter E name (VRef l) is_change st = Throw TypeError st
  ∧ apply_parameter E name (VRef l) parse react_ st = Throw TypeError st.
Proof.
  intros Hd Hk Hkp.
  assert (Hj : json_stringify E (VRef l) st = Throw TypeError st).
  { unfold json_stringify. rewrite Hd. rewrite self_reference_step.
    rewrite bool_decide_eq_false_2 by apply not_elem_of_nil.
    rewrite self_reference_properties.
    - rewrite bool_decide_eq_true_2; [reflexivity|].
      apply list_elem_of_fmap. exists (k, VRef l). split; [reflexivity|].
      apply elem_of_map_to_list. rewrite lookup_delete_ne by congruence.
      exact Hk.
    - intros k' v' Hin. apply elem_of_map_to_list in Hin.
      destruct (String.eqb_spec k' "__proto__") as [->|Hne].
      + rewrite lookup_delete_eq in Hin. discriminate Hin.
      + rewrite lookup_delete_ne in Hin by congruence. auto. }
  assert (Hparse : ∀ s0, parse_parameter E name (VRef l) s0 st
                         = Throw TypeError st).
  { intros s0. apply parse_parameter_not_serialized. exact Hj. }
  assert (Hadd : ∀ ic, add_parameter E name (VRef l) ic st = Throw TypeError st).
  { intros ic. apply add_parameter_not_serialized. exact Hj. }
  split; [exact Hj|]. split; [apply Hparse|]. split; [apply Hadd|].
  unfold apply_parameter.
  destruct (truthy (or_default (VBool false) parse)).
  - apply bind_throw. unfold try_parse. rewrite Hparse. reflexivity.
  - rewrite (bind_ok (mret (VRef l, VUndef)) _ st _ st eq_refl).
    apply bind_throw. apply Hadd.
Qed.

End SelfReference.

Lemma circular_value_refused_witness :
  store circular_state !! 5 = Some (CObj {[ "self" := VRef 5 ]})
  ∧ apply_parameter quiet_env "param_a" (VRef 5) (VBool true) (VBool true)
      circular_state
    = Throw TypeError circular_state
  ∧ confirmed (ctx circular_state) !! "param_a" = None.
Proof.
  assert (Hl : store circular_state !! 5 = Some (CObj {[ "self" := VRef 5 ]}))
    by reflexivity.
  assert (Hprops : ∀ k v, ({[ "self" := VRef 5 ]} : gmap string value) !! k
                          = Some v → v = VRef 5 ∨ is_object v = false).
  { intros k v Hkv. apply lookup_singleton_Some in Hkv as [_ <-]. left.
    reflexivity. }
  assert (Hk : ({[ "self" := VRef 5 ]} : gmap string value) !! "self"
               = Some (VRef 5)) by (apply lookup_singleton_eq).
  split; [exact Hl|]. split; [|reflexivity].
  apply (circular_value_refused quiet_env circular_state 5
           {[ "self" := VRef 5 ]} Hl Hprops "self" 998 "param_a" VUndef VUndef
           (VBool true) (VBool true) eq_refl Hk ltac:(discriminate)).
Defined.

(** ** Names that every object inherits *)

(** A name that every object inherits from [Object.prototype]
    ([constructor], [toString], [__proto__], ...) is a parameter of every
    skill whose [required_parameter] is an object that has no property of
    that name: the test [required_parameter[name]] finds what is
    inherited, [check_parameter_type] answers [required_parameter], and
    [get_parameter] answers a definition that has nothing but [name] and
    [type]. *)
Theorem inherited_name_is_a_parameter st name cl cm :
  skill_field st "required_parameter" = VRef cl →
  store st !! cl = Some (CObj cm) →
  own_props (store st) (VRef cl) !! name = None →
  truthy (field ∅ name) = true →
  check_parameter_type st name = "required_parameter"
  ∧ get_parameter name st
    = Ok (<["type" := VStr "required_parameter"]> {[ "name" := VStr name ]}) st.
Proof.
  intros Hcont Hcl Hown Hinh.
  assert (Hread : field cm name = field ∅ name).
  { unfold own_props in Hown. rewrite Hcl in Hown.
    unfold field, read.
    destruct (String.eqb_spec name "__proto__") as [->|Hne]; [reflexivity|].
    rewrite lookup_delete_ne in Hown by congruence. rewrite Hown.
    reflexivity. }
  assert (Hin : in_container st "required_parameter" name = true).
  { unfold in_container. rewrite Hcont. cbn [truthy andb].
    unfold get_field. rewrite Hcl, Hread. exact Hinh. }
  assert (Hcheck : check_parameter_type st name = "required_parameter").
  { unfold check_parameter_type. rewrite Hin. reflexivity. }
  split; [exact Hcheck|].
  unfold get_parameter. rewrite (bind_ok get_state _ st st st eq_refl).
  rewrite Hcheck.
  change (String.eqb "required_parameter" "not_applicable") with false.
  change (String.eqb "required_parameter" "sub_parameter") with false.
  cbv iota.
  rewrite (bind_ok _ _ _ _ _
             (get_prop_ok (VRef (skill (ctx st))) "required_parameter" st
                ltac:(discriminate) ltac:(discriminate))).
  fold (skill_field st "required_parameter"). rewrite Hcont.
  rewrite (bind_ok _ _ _ _ _ (get_prop_obj cl name st cm Hcl)). rewrite Hread.
  assert (Hnone : own_props (store st) (field ∅ name) = ∅).
  { unfold field, read.
    destruct (String.eqb name "__proto__"); [reflexivity|].
    rewrite lookup_empty. cbn [default from_option id]. unfold object_field.
    destruct (String.eqb name "constructor"); [reflexivity|].
    destruct (listed name object_methods); reflexivity. }
  unfold mret, M_ret. rewrite Hnone. rewrite (left_id_L ∅ (∪)). reflexivity.
Qed.

Lemma inherited_name_is_a_parameter_witness :
  own_props (store plain_skill_state) (VRef 1) !! "toString" = None
  ∧ check_parameter_type plain_skill_state "toString" = "required_parameter"
  ∧ check_parameter_type plain_skill_state "__proto__" = "required_parameter".
Proof.
  assert (Hcont : skill_field plain_skill_state "required_parameter" = VRef 1)
    by (vm_compute; reflexivity).
  assert (Hcl : store plain_skill_state !! 1
                = Some (CObj {[ "param_a" := VRef 2 ]})) by reflexivity.
  assert (H1 : own_props (store plain_skill_state) (VRef 1) !! "toString" = None)
    by (vm_compute; reflexivity).
  assert (H2 : own_props (store plain_skill_state) (VRef 1) !! "__proto__" = None)
    by (vm_compute; reflexivity).
  split; [exact H1|]. split.
  - apply (inherited_name_is_a_parameter plain_skill_state "toString" 1
             {[ "param_a" := VRef 2 ]} Hcont Hcl H1 eq_refl).
  - apply (inherited_name_is_a_parameter plain_skill_state "__proto__" 1
             {[ "param_a" := VRef 2 ]} Hcont Hcl H2 eq_refl).
Defined.

(** ** The queue under a commit *)

(** A queue without duplicates stays without duplicates under a commit
    that goes through, and no longer holds the name committed; the other
    names are queued after it exactly when they were before.  [st1] is the
    state the serialisation of the value leaves. *)
Theorem commit_keeps_queue_duplicate_free
    E name v is_change st st1 param :
  json_stringify E v st = Ok () st1 →
  get_parameter name st1 = Ok param st1 →
  name ≠ "__proto__" →
  confirmed (ctx st1) !! name ≠ Some (VProto ArrayPrototype) →
  (truthy (field param "list") = true → list_type_ok (field param "list") = true) →
  live (store st1) (field param "list") →
  NoDup (to_confirm (ctx st1)) →
  ∃ st',
    add_parameter E name v is_change st = Ok () st'
    ∧ NoDup (to_confirm (ctx st'))
    ∧ (name ∉ to_confirm (ctx st'))
    ∧ (∀ y, y ∈ to_confirm (ctx st') ↔ y ≠ name ∧ y ∈ to_confirm (ctx st1)).
Proof.
  intros Hj Hget Hname Hproto Hok Hlive Hnd.
  destruct (add_parameter_outcome E name v is_change st st1 param
              Hj Hget Hname Hproto Hok Hlive) as (m' & s' & Hrun & _).
  eexists. split; [exact Hrun|]. cbn [ctx to_confirm committed_context].
  destruct (NoDup_remove_first name _ Hnd) as [Hnd' Hx].
  split; [exact Hnd'|]. split; [exact Hx|].
  intros y. split.
  - intros Hy. split; [intros ->; contradiction|].
    eapply elem_of_remove_first. exact Hy.
  - intros [Hne Hy]. apply elem_of_remove_first_ne; assumption.
Qed.

Lemma commit_keeps_queue_duplicate_free_witness :
  ∃ st',
    add_parameter quiet_env "param_a" (VStr "x") VUndef circular_state
    = Ok () st'
    ∧ NoDup (to_confirm (ctx st'))
    ∧ ("param_a" ∉ to_confirm (ctx st'))
    ∧ (∀ y, y ∈ to_confirm (ctx st')
            ↔ y ≠ "param_a" ∧ y ∈ to_confirm (ctx circular_state)).
Proof.
  assert (Hj : json_stringify quiet_env (VStr "x") circular_state
               = Ok () circular_state) by reflexivity.
  assert (Hget : get_parameter "param_a" circular_state
                 = Ok (<["type" := VStr "required_parameter"]>
                         (<["name" := VStr "param_a"]>
                            (own_props (store circular_state) (VRef 2))))
                      circular_state)
    by (vm_compute; reflexivity).
  assert (Hname : "param_a" ≠ "__proto__") by discriminate.
  assert (Hproto : confirmed (ctx circular_state) !! "param_a"
                   ≠ Some (VProto ArrayPrototype)) by (vm_compute; discriminate).
  assert (Hnd : NoDup (to_confirm (ctx circular_state))).
  { apply NoDup_cons. split; [apply not_elem_of_nil|apply NoDup_nil_2]. }
  refine (commit_keeps_queue_duplicate_free quiet_env "param_a" (VStr "x")
            VUndef circular_state circular_state _ Hj Hget Hname Hproto _ _ Hnd).
  - vm_compute. discriminate.
  - vm_compute. exact I.
Defined.
